(** * Assessment recommendation: retrieval, recommendation and Mean Recall@K

    A shallow embedding of the Python sources
      - [src/evaluation/shl_eval_framework.py]  (MeanRecallAtKEvaluator,
        EvaluationPipeline),
      - [src/retrieval/retriever.py]            (AssessmentRetriever),
      - [src/recommendation/recommender.py]     (AssessmentRecommender),
      - [src/scraper/parser.py]                 (AssessmentParser),
      - [src/evaluation/evaluate.py]            (SystemEvaluator's metrics),
      - [api_simple.py], [api_server.py]        (the [/recommend] handlers),
    followed by the properties proved about them.

    Conventions of the embedding.
    - Python [float]s are idealised as exact rationals ([Q]); float equality
      is read as [Qeq] ([==]).
    - A Python [dict] whose iteration order is observable is an association
      list in insertion order; a dict that is only looked up is a [gmap].
    - A Python [set] is a [gset].
    - A function that can raise returns [res A]; only exceptions deriving
      from [Exception] are modelled, which are the ones [except Exception]
      traps.
    - [logger] calls are modelled in the evaluator, where a property refers
      to them, as a list of records; elsewhere they are left out. The text
      of a caught exception is not part of a logged message. *)

From Stdlib Require Import QArith Qround Qminmax Lqa.
From stdpp Require Import gmap strings list pretty sorting.

Open Scope string_scope.
Open Scope list_scope.
Open Scope Z_scope.

(** * Part I: the embedding *)

(** ** Python values and exceptions *)

Set Warnings "-register-all".

Inductive pyval : Type :=
| VNone
| VBool (b : bool)
| VInt (n : Z)
| VFloat (x : Q)
| VStr (s : string)
| VList (l : list pyval)
| VDict (d : list (string * pyval)).

(** An insertion-ordered dictionary with string keys. *)
Abbreviation dict V := (list (string * V)).
Abbreviation pydict := (dict pyval).

Inductive pyexn : Type :=
| TypeError (msg : string)
| KeyError (key : string)
| AttributeError (msg : string)
| IndexError (msg : string)
| ValueError (msg : string)
| OSError (msg : string)
| RuntimeError (msg : string).

Inductive res (A : Type) : Type :=
| Ok (a : A)
| Raise (e : pyexn).
Arguments Ok {A} a.
Arguments Raise {A} e.

(** The exception monad, with stdpp's [x ← m; k] notation. *)
#[global] Instance res_ret : MRet res := fun A a => Ok a.
#[global] Instance res_bind : MBind res := fun A B f m =>
  match m with
  | Ok a => f a
  | Raise e => Raise e
  end.

(** [try: v = body  except Exception: v = fallback]. *)
Definition try_except {A} (body : res A) (fallback : A) : A :=
  match body with
  | Ok a => a
  | Raise _ => fallback
  end.

(** Truth value of a Python object, as tested by [if], [not], [and], [or]. *)
Definition truthy (v : pyval) : bool :=
  match v with
  | VNone => false
  | VBool b => b
  | VInt n => negb (Z.eqb n 0)
  | VFloat x => negb (Qeq_bool x 0)
  | VStr s => negb (String.eqb s "")
  | VList l => match l with [] => false | _ => true end
  | VDict d => match d with [] => false | _ => true end
  end.

(** [a or b]. *)
Definition py_or (a b : pyval) : pyval := if truthy a then a else b.

(** ** Dictionaries in insertion order *)

Fixpoint dict_get {V} (d : dict V) (key : string) : option V :=
  match d with
  | [] => None
  | (k, v) :: d' => if String.eqb k key then Some v else dict_get d' key
  end.

(** [d[key] = v]: an existing key keeps its position, a new one goes last. *)
Fixpoint dict_set {V} (d : dict V) (key : string) (v : V) : dict V :=
  match d with
  | [] => [(key, v)]
  | (k, w) :: d' =>
      if String.eqb k key then (k, v) :: d' else (k, w) :: dict_set d' key v
  end.

Definition dict_mem {V} (d : dict V) (key : string) : bool :=
  match dict_get d key with Some _ => true | None => false end.

(** [d[key]] *)
Definition subscript {V} (d : dict V) (key : string) : res V :=
  match dict_get d key with
  | Some v => Ok v
  | None => Raise (KeyError key)
  end.

(** [obj.get(key)] : only dictionaries have the method. *)
Definition py_get (obj : pyval) (key : string) : res pyval :=
  match obj with
  | VDict d => Ok (default VNone (dict_get d key))
  | _ => Raise (AttributeError "object has no attribute 'get'")
  end.

(** [for p in obj]: the items a [for] loop or comprehension visits. *)
Definition py_iter (obj : pyval) : res (list pyval) :=
  match obj with
  | VList l => Ok l
  | VDict d => Ok (map (fun kv => VStr kv.1) d)
  | VStr s =>
      Ok (map (fun c => VStr (String c EmptyString))
            (String.list_ascii_of_string s))
  | _ => Raise (TypeError "object is not iterable")
  end.

(** [l[:k]]: a negative bound counts from the end of the list. *)
Definition py_slice_to {A} (l : list A) (k : Z) : list A :=
  if decide (0 ≤ k) then take (Z.to_nat k) l
  else take (Z.to_nat (Z.of_nat (length l) + k)) l.

(** ** Numbers *)

(** Nearest integer, ties to the even one (the rule of [round] and of the
    [.Nf] format). *)
Definition round_half_even (x : Q) : Z :=
  let n := Qfloor x in
  match (x - inject_Z n ?= 1 # 2)%Q with
  | Lt => n
  | Gt => n + 1
  | Eq => if Z.even n then n else n + 1
  end.

Definition pow10 (nd : nat) : Z := 10 ^ Z.of_nat nd.

(** [round(x, nd)] *)
Definition py_round (x : Q) (nd : nat) : Q :=
  (inject_Z (round_half_even (x * inject_Z (pow10 nd)))
   / inject_Z (pow10 nd))%Q.

(** Nearest integer to [sqrt v * 10^nd], ties to even, for [v >= 0]: the
    square root is irrational in general, so it is never formed; the
    candidate [n = floor (sqrt (v * 10^(2 nd)))] is compared with the
    midpoint [n + 1/2] through squares. *)
Definition sqrt_scaled (v : Q) (nd : nat) : Z :=
  let w := (v * inject_Z (pow10 nd * pow10 nd))%Q in
  let n := Z.sqrt (Qfloor w) in
  match (4 * w ?= inject_Z ((2 * n + 1) * (2 * n + 1)))%Q with
  | Lt => n
  | Gt => n + 1
  | Eq => if Z.even n then n else n + 1
  end.

(** [round(sqrt(v), nd)] *)
Definition py_round_sqrt (v : Q) (nd : nat) : Q :=
  (inject_Z (sqrt_scaled v nd) / inject_Z (pow10 nd))%Q.

Definition Qsum (l : list Q) : Q := foldr Qplus 0%Q l.

(** [np.mean] *)
Definition np_mean (l : list Q) : Q :=
  (Qsum l / inject_Z (Z.of_nat (length l)))%Q.

(** [np.std] squared: the population variance (ddof = 0). *)
Definition np_var (l : list Q) : Q :=
  let m := np_mean l in
  np_mean (map (fun x => (x - m) * (x - m))%Q l).

(** [np.min], [np.max] of a non-empty list. *)
Definition np_min (l : list Q) : Q :=
  match l with
  | [] => 0%Q
  | x :: l' => foldl Qmin x l'
  end.

Definition np_max (l : list Q) : Q :=
  match l with
  | [] => 0%Q
  | x :: l' => foldl Qmax x l'
  end.

(** ** Text *)

(** [s.rjust(n, "0")] *)
Definition zero_pad (n : nat) (s : string) : string :=
  String.concat "" (replicate (n - String.length s) "0") +:+ s.

(** The digits of [|n| / 10^nd], with sign: the body of a [.{nd}f] format. *)
Definition format_scaled (negative : bool) (n : Z) (nd : nat) : string :=
  let a := Z.abs n in
  (if negative then "-" else "")
  +:+ pretty (a / pow10 nd)
  +:+ match nd with
      | O => ""
      | _ => "." +:+ zero_pad nd (pretty (a mod pow10 nd))
      end.

(** [f"{x:.{nd}f}"] *)
Definition format_f (x : Q) (nd : nat) : string :=
  format_scaled (negb (Qle_bool 0 x))
    (round_half_even (x * inject_Z (pow10 nd))) nd.

(** [f"{sqrt(v):.{nd}f}"] *)
Definition format_sqrt_f (v : Q) (nd : nat) : string :=
  format_scaled false (sqrt_scaled v nd) nd.

(** ** Logging and files *)

Inductive log_record : Type :=
| LogInfo (msg : string)
| LogWarning (msg : string)
| LogError (msg : string).

Inductive file : Type :=
| CsvFile (fieldnames : list string) (rows : list (string * pyval))
| TextFile (content : string).

(** The files written so far, and the paths that cannot be opened for
    writing (opening one raises). *)
Record filesystem : Type := {
  fs_files : gmap string file;
  fs_unwritable : gset string }.

(** [with open(path, "w") as f: f.write(...)] *)
Definition fs_write (fs : filesystem) (path : string) (f : file)
    : res filesystem :=
  if decide (path ∈ fs_unwritable fs)
  then Raise (OSError ("cannot open " +:+ path))
  else Ok {| fs_files := <[path := f]> (fs_files fs);
             fs_unwritable := fs_unwritable fs |}.

(** ** MeanRecallAtKEvaluator (shl_eval_framework.py) *)

Module MeanRecallAtKEvaluator.

(** [self]: the evaluator's [K_values]. *)
Record t : Type := { K_values : list Z }.

(** [__init__] with its default argument, [K_values = [5, 10]]. *)
Definition init_default : t := {| K_values := [5; 10] |}.

(** Identifiers are URLs, of type [str]; the functions themselves only hash
    and compare them, and are written for any such type [A]. *)
Section recall.
Context `{Countable A}.

(** [calculate_recall_at_k], lines 95-126. *)
Definition calculate_recall_at_k
    (predicted ground_truth : list A) (k : Z) : Q :=
  match ground_truth with
  | [] => 1%Q
  | _ :: _ =>
      let top_k : gset A := list_to_set (py_slice_to predicted k) in
      let ground_truth_set : gset A := list_to_set ground_truth in
      let correct := size (top_k ∩ ground_truth_set) in
      (inject_Z (Z.of_nat correct)
       / inject_Z (Z.of_nat (size ground_truth_set)))%Q
  end.

(** One entry of [results['summary']]. *)
Record recall_stats : Type := {
  st_mean : Q;
  st_std : Q;
  st_min : Q;
  st_max : Q }.

(** The [results] dictionary of [evaluate_system]. *)
Record results : Type := {
  queries_evaluated : Z;
  mean_recall_at_k : dict (list Q);
  per_query_recall : dict (dict Q);
  summary : dict recall_stats }.

(** [f'recall@{k}'] *)
Definition metric_key (k : Z) : string := "recall@" +:+ pretty k.

(** Lines 165-168: [if key not in lists: lists[key] = []] and then
    [lists[key].append(recall)]. *)
Definition append_recall
    (lists : dict (list Q)) (key : string) (recall : Q) : dict (list Q) :=
  let lists := if dict_mem lists key then lists else dict_set lists key [] in
  dict_set lists key (default [] (dict_get lists key) ++ [recall]).

(** Line 169: [per_query[query_id][key] = recall] on a
    [defaultdict(dict)]. *)
Definition set_per_query
    (per_query : dict (dict Q)) (query_id key : string) (recall : Q)
    : dict (dict Q) :=
  dict_set per_query query_id
    (dict_set (default [] (dict_get per_query query_id)) key recall).

(** Body of [for k in self.K_values], lines 162-169. *)
Definition record_recall
    (query_id : string) (predicted_urls ground_truth_urls : list A)
    (r : results) (k : Z) : results :=
  let recall := calculate_recall_at_k predicted_urls ground_truth_urls k in
  let key := metric_key k in
  {| queries_evaluated := queries_evaluated r;
     mean_recall_at_k := append_recall (mean_recall_at_k r) key recall;
     per_query_recall := set_per_query (per_query_recall r) query_id key recall;
     summary := summary r |}.

(** Body of [for query_id, ground_truth_urls in ground_truth.items()],
    lines 153-169. *)
Definition evaluate_query
    (self : t) (query_predictions : gmap string (list A))
    (st : results * list log_record) (item : string * list A)
    : results * list log_record :=
  let '(r, log) := st in
  let '(query_id, ground_truth_urls) := item in
  match query_predictions !! query_id with
  | None =>
      (r, log ++ [LogWarning ("No predictions found for query: " +:+ query_id)])
  | Some predicted_urls =>
      let r := {| queries_evaluated := queries_evaluated r + 1;
                  mean_recall_at_k := mean_recall_at_k r;
                  per_query_recall := per_query_recall r;
                  summary := summary r |} in
      (foldl (record_recall query_id predicted_urls ground_truth_urls) r
         (K_values self), log)
  end.

(** The statistics stored for one metric, lines 174-184. *)
Definition stats_of (recalls : list Q) : recall_stats :=
  {| st_mean := py_round (np_mean recalls) 4;
     st_std := py_round_sqrt (np_var recalls) 4;
     st_min := py_round (np_min recalls) 4;
     st_max := py_round (np_max recalls) 4 |}.

(** Body of [for k_metric, recalls in results['mean_recall_at_k'].items()],
    lines 172-187. *)
Definition summarize
    (verbose : bool) (st : dict recall_stats * list log_record)
    (item : string * list Q) : dict recall_stats * list log_record :=
  let '(summ, log) := st in
  let '(k_metric, recalls) := item in
  match recalls with
  | [] => (summ, log)
  | _ :: _ =>
      (dict_set summ k_metric (stats_of recalls),
       if verbose
       then log ++ [LogInfo (k_metric +:+ ": " +:+ format_f (np_mean recalls) 4
                             +:+ " ± " +:+ format_sqrt_f (np_var recalls) 4)]
       else log)
  end.

(** [evaluate_system], lines 128-189: the returned dictionary and the
    records logged. *)
Definition evaluate_system
    (self : t) (query_predictions : gmap string (list A))
    (ground_truth : dict (list A)) (verbose : bool)
    : results * list log_record :=
  let r0 := {| queries_evaluated := 0; mean_recall_at_k := [];
               per_query_recall := []; summary := [] |} in
  let '(r, log) := foldl (evaluate_query self query_predictions) (r0, [])
                     ground_truth in
  let '(summ, log) := foldl (summarize verbose) (summary r, log)
                        (mean_recall_at_k r) in
  ({| queries_evaluated := queries_evaluated r;
      mean_recall_at_k := mean_recall_at_k r;
      per_query_recall := per_query_recall r;
      summary := summ |}, log).

End recall.

(** [url = assessment.get('url') or assessment.get('assessment_url')],
    line 220. *)
Definition assessment_url (assessment : pyval) : res pyval :=
  url ← py_get assessment "url";
  if truthy url then mret url else py_get assessment "assessment_url".

(** Body of [for assessment in assessments], lines 219-225. *)
Fixpoint rows_of_assessments
    (query_display : string) (assessments : list pyval)
    : res (list (string * pyval)) :=
  match assessments with
  | [] => mret []
  | assessment :: rest =>
      url ← assessment_url assessment;
      rows ← rows_of_assessments query_display rest;
      mret (if truthy url then (query_display, url) :: rows else rows)
  end.

(** [query_mapping.get(query_id, query_id) if query_mapping else query_id],
    line 216. *)
Definition query_display
    (query_mapping : option (dict string)) (query_id : string) : string :=
  match query_mapping with
  | None | Some [] => query_id
  | Some m => default query_id (dict_get m query_id)
  end.

(** The [rows] built by lines 212-225. *)
Fixpoint prediction_rows
    (predictions : pydict) (query_mapping : option (dict string))
    : res (list (string * pyval)) :=
  match predictions with
  | [] => mret []
  | (query_id, assessments) :: rest =>
      assessments ← py_iter assessments;
      rows ← rows_of_assessments (query_display query_mapping query_id)
                assessments;
      more ← prediction_rows rest query_mapping;
      mret (rows ++ more)
  end.

(** [generate_predictions_csv], lines 191-239: the value returned (the
    path, or [None]), the file system afterwards and the records logged. *)
Definition generate_predictions_csv
    (fs : filesystem) (output_file : string)
    (predictions : pydict) (query_mapping : option (dict string))
    : option string * filesystem * list log_record :=
  let body :=
    rows ← prediction_rows predictions query_mapping;
    fs' ← fs_write fs output_file
            (CsvFile ["Query"; "Assessment_URL"] rows);
    mret (rows, fs') in
  match body with
  | Ok (rows, fs') =>
      (Some output_file, fs',
       [LogInfo ("Saved " +:+ pretty (Z.of_nat (length rows))
                 +:+ " predictions to " +:+ output_file)])
  | Raise e => (None, fs, [LogError "Failed to save predictions"])
  end.

Definition rule : string := String.concat "" (replicate 80 "=").
Definition dashes : string := String.concat "" (replicate 80 "-").

(** The lines of the report, lines 254-285. *)
Definition report_lines (evaluation_results : results) : list string :=
  [rule;
   "SHL ASSESSMENT RECOMMENDATION SYSTEM - EVALUATION REPORT";
   "Mean Recall@K Metric";
   rule;
   "";
   "SUMMARY";
   dashes;
   "Queries Evaluated: " +:+ pretty (queries_evaluated evaluation_results);
   ""]
  ++ flat_map (fun '(metric, stats) =>
       [metric +:+ ":";
        "  Mean:  " +:+ format_f (st_mean stats) 4;
        "  Std:   " +:+ format_f (st_std stats) 4;
        "  Min:   " +:+ format_f (st_min stats) 4;
        "  Max:   " +:+ format_f (st_max stats) 4;
        ""]) (summary evaluation_results)
  ++ [""; "PER-QUERY RESULTS"; dashes]
  ++ flat_map (fun '(query_id, recalls) =>
       (query_id +:+ ":")
       :: map (fun '(metric, value) =>
                 "  " +:+ metric +:+ ": " +:+ format_f value 4) recalls)
       (per_query_recall evaluation_results)
  ++ [""; rule].

(** [generate_evaluation_report], lines 241-297. *)
Definition generate_evaluation_report
    (fs : filesystem) (evaluation_results : results) (output_file : string)
    : option string * filesystem * list log_record :=
  let content := String.concat "
" (report_lines evaluation_results) in
  match fs_write fs output_file (TextFile content) with
  | Ok fs' =>
      (Some output_file, fs',
       [LogInfo ("Saved evaluation report to " +:+ output_file)])
  | Raise e => (None, fs, [LogError "Failed to generate report"])
  end.

End MeanRecallAtKEvaluator.

(** ** AssessmentRetriever (retriever.py) *)

Module AssessmentRetriever.

(** What [self.collection.query(query_embeddings=[e], n_results=k)] answers
    for its single query: [results['documents'][0]],
    [results['metadatas'][0]] and [results['distances'][0]]. *)
Record query_result : Type := {
  documents : list string;
  metadatas : list pydict;
  distances : list Q }.

(** [self]: the configured [top_k], the embedding generator and the vector
    collection. The last two are external capabilities (a sentence encoder
    and a ChromaDB collection) and stay abstract. *)
Record t : Type := {
  top_k : Z;
  encode_query : string → list Q;
  collection_query : list Q → Z → res query_result }.

(** [build_query_text], lines 73-101. *)
Definition build_query_text
    (job_title : string) (skills : list string) (experience_level : string)
    (additional_context : option string) : string :=
  let query_parts :=
    ["Job Title: " +:+ job_title;
     "Required Skills: " +:+ String.concat ", " skills;
     "Experience Level: " +:+ experience_level] in
  let query_parts :=
    match additional_context with
    | Some c =>
        if truthy (VStr c) then query_parts ++ ["Context: " +:+ c]
        else query_parts
    | None => query_parts
    end in
  String.concat " | " query_parts.

(** The dictionary built for one neighbour by [retrieve], lines 151-168;
    [i] is the index given by [enumerate]. *)
Definition assessment_of_retrieve
    (i : nat) (doc : string) (metadata : pydict) (distance : Q)
    : res pydict :=
  let similarity_score := (1 - distance)%Q in
  name ← subscript metadata "name";
  category ← subscript metadata "category";
  description ← subscript metadata "description";
  skills_measured ← subscript metadata "skills_measured";
  job_suitability ← subscript metadata "job_suitability";
  experience_level ← subscript metadata "experience_level";
  duration ← subscript metadata "duration";
  delivery_method ← subscript metadata "delivery_method";
  mret [("rank", VInt (Z.of_nat i + 1));
        ("name", name);
        ("category", category);
        ("description", description);
        ("skills_measured", skills_measured);
        ("job_suitability", job_suitability);
        ("experience_level", experience_level);
        ("duration", duration);
        ("delivery_method", delivery_method);
        ("similarity_score", VFloat similarity_score);
        ("full_text", VStr doc)].

(** The dictionary built for one neighbour by [retrieve_by_query],
    lines 231-246. *)
Definition assessment_of_query
    (i : nat) (doc : string) (metadata : pydict) (distance : Q)
    : res pydict :=
  let similarity_score := (1 - distance)%Q in
  name ← subscript metadata "name";
  category ← subscript metadata "category";
  description ← subscript metadata "description";
  skills_measured ← subscript metadata "skills_measured";
  job_suitability ← subscript metadata "job_suitability";
  experience_level ← subscript metadata "experience_level";
  duration ← subscript metadata "duration";
  delivery_method ← subscript metadata "delivery_method";
  mret [("rank", VInt (Z.of_nat i + 1));
        ("name", name);
        ("category", category);
        ("description", description);
        ("skills_measured", skills_measured);
        ("job_suitability", job_suitability);
        ("experience_level", experience_level);
        ("duration", duration);
        ("delivery_method", delivery_method);
        ("assessment_url",
         default (VStr "") (dict_get metadata "assessment_url"));
        ("similarity_score", VFloat similarity_score)].

(** [for i, (doc, metadata, distance) in enumerate(zip(...))]: the loop
    appends one dictionary per zipped triple, starting at index [i]. *)
Fixpoint format_results
    (build : nat → string → pydict → Q → res pydict)
    (i : nat) (rows : list (string * pydict * Q)) : res (list pydict) :=
  match rows with
  | [] => mret []
  | (doc, metadata, distance) :: rest =>
      assessment ← build i doc metadata distance;
      assessments ← format_results build (S i) rest;
      mret (assessment :: assessments)
  end.

(** [zip(results['documents'][0], results['metadatas'][0],
    results['distances'][0])]: stops with the shortest list. *)
Definition zip_results (r : query_result) : list (string * pydict * Q) :=
  zip (zip (documents r) (metadatas r)) (distances r).

(** [retrieve], lines 103-174. *)
Definition retrieve
    (self : t) (job_title : string) (skills : list string)
    (experience_level : string) (additional_context : option string)
    (top_k_arg : option Z) : res (list pydict) :=
  let query_text :=
    build_query_text job_title skills experience_level additional_context in
  let query_embedding := encode_query self query_text in
  let k := default (top_k self) top_k_arg in
  results ← collection_query self query_embedding k;
  format_results assessment_of_retrieve 0 (zip_results results).

(** [retrieve_by_query], lines 197-252. *)
Definition retrieve_by_query
    (self : t) (query : string) (top_k_arg : option Z)
    : res (list pydict) :=
  let query_embedding := encode_query self query in
  let k := default (top_k self) top_k_arg in
  results ← collection_query self query_embedding k;
  format_results assessment_of_query 0 (zip_results results).

(** [search], lines 176-195: the results of [retrieve_by_query], each
    given a [score] key by [r['score'] = r.get('similarity_score', 0)].
    The dictionaries are the ones just built and nothing else holds them,
    so the update in place is an update of the returned list. *)
Definition search (self : t) (query : string) (top_k_arg : option Z)
    : res (list pydict) :=
  results ← retrieve_by_query self query top_k_arg;
  mret (map (fun r =>
               dict_set r "score"
                 (default (VInt 0) (dict_get r "similarity_score")))
          results).

End AssessmentRetriever.

(** ** AssessmentRecommender (recommender.py) *)

Module AssessmentRecommender.

(** The arguments of [client.chat.completions.create]. *)
Record chat_request : Type := {
  model : pyval;
  system_content : pyval;
  user_content : string;
  temperature : pyval;
  max_tokens : pyval }.

(** [self]: the [llm] configuration, the retriever and the OpenAI client
    ([None] without an API key). The client is external: a request either
    raises or answers with the [message.content] of each of its choices.
    [repr] is the interpreter's rendering of floats and containers inside
    an f-string. *)
Record t : Type := {
  llm_config : pydict;
  retriever : AssessmentRetriever.t;
  client : option (chat_request → res (list pyval));
  repr : pyval → string }.

(** [f"{v}"] *)
Definition py_str (self : t) (v : pyval) : string :=
  match v with
  | VStr s => s
  | VInt n => pretty n
  | VNone => "None"
  | VBool true => "True"
  | VBool false => "False"
  | _ => repr self v
  end.

(** [f"{v:.2f}"]: defined for numbers only. *)
Definition format_2f (v : pyval) : res string :=
  match v with
  | VFloat x => mret (format_f x 2)
  | VInt n => mret (format_f (inject_Z n) 2)
  | VBool b => mret (format_f (if b then 1 else 0) 2)
  | _ => Raise (TypeError "unsupported format string")
  end.

(** [_format_assessment_for_context], lines 75-94. *)
Definition _format_assessment_for_context (self : t) (assessment : pydict)
    : res string :=
  name ← subscript assessment "name";
  category ← subscript assessment "category";
  description ← subscript assessment "description";
  skills_measured ← subscript assessment "skills_measured";
  job_suitability ← subscript assessment "job_suitability";
  experience_level ← subscript assessment "experience_level";
  duration ← subscript assessment "duration";
  similarity_score ← subscript assessment "similarity_score";
  score ← format_2f similarity_score;
  mret ("
Assessment: " +:+ py_str self name +:+ "
Category: " +:+ py_str self category +:+ "
Description: " +:+ py_str self description +:+ "
Skills Measured: " +:+ py_str self skills_measured +:+ "
Job Suitability: " +:+ py_str self job_suitability +:+ "
Experience Levels: " +:+ py_str self experience_level +:+ "
Duration: " +:+ py_str self duration +:+ "
Relevance Score: " +:+ score +:+ "
").

(** ["\n---\n".join([self._format_assessment_for_context(a) for a in ...])] *)
Definition assessments_context (self : t) (retrieved : list pydict)
    : res string :=
  parts ← mapM (_format_assessment_for_context self) retrieved;
  mret (String.concat "
---
" parts).

(** [_build_llm_prompt], lines 96-144. *)
Definition _build_llm_prompt
    (self : t) (job_title : string) (skills : list string)
    (experience_level : string) (additional_context : option string)
    (retrieved_assessments : list pydict) : res string :=
  context ← assessments_context self retrieved_assessments;
  mret ("You are an expert HR technology consultant specializing in SHL assessment products.

HIRING REQUIREMENTS:
- Job Title: " +:+ job_title +:+ "
- Required Skills: " +:+ String.concat ", " skills +:+ "
- Experience Level: " +:+ experience_level +:+ "
" +:+ match additional_context with
      | Some c =>
          if truthy (VStr c) then "- Additional Context: " +:+ c else ""
      | None => ""
      end +:+ "

AVAILABLE SHL ASSESSMENTS (from catalog):
" +:+ context +:+ "

TASK:
Based ONLY on the assessments provided above, recommend the top 3-5 most suitable SHL assessments for this role. For each recommendation:

1. State the assessment name
2. Explain why it's relevant for this specific role
3. Highlight which skills/competencies it addresses from the requirements
4. Mention any important considerations (duration, experience level match, etc.)

Format your response as a numbered list with clear explanations. Be specific and practical. Only recommend assessments from the provided catalog above.
").

(** The prompt of [recommend_simple], lines 261-282. *)
Definition simple_prompt
    (self : t) (query : string) (retrieved_assessments : list pydict)
    : res string :=
  context ← assessments_context self retrieved_assessments;
  mret ("You are an expert HR technology consultant specializing in SHL assessment products.

HIRING QUERY: " +:+ query +:+ "

AVAILABLE SHL ASSESSMENTS (from catalog):
" +:+ context +:+ "

TASK:
Based ONLY on the assessments provided above, recommend the top 3-5 most suitable SHL assessments. For each recommendation:

1. State the assessment name
2. Explain why it's relevant
3. Highlight key competencies it measures
4. Mention important considerations

Format as a numbered list. Only recommend assessments from the provided catalog.
").

(** [self.client.chat.completions.create(...)] followed by
    [response.choices[0].message.content], lines 198-208 and 284-294. *)
Definition chat_completion
    (self : t) (create : chat_request → res (list pyval)) (prompt : string)
    : res pyval :=
  model ← subscript (llm_config self) "model";
  system_prompt ← subscript (llm_config self) "system_prompt";
  temperature ← subscript (llm_config self) "temperature";
  max_tokens ← subscript (llm_config self) "max_tokens";
  choices ← create {| model := model; system_content := system_prompt;
                      user_content := prompt; temperature := temperature;
                      max_tokens := max_tokens |};
  match choices with
  | [] => Raise (IndexError "list index out of range")
  | content :: _ => mret content
  end.

(** The body of the [try] of [recommend], lines 193-209. *)
Definition generate
    (self : t) (create : chat_request → res (list pyval))
    (job_title : string) (skills : list string) (experience_level : string)
    (additional_context : option string)
    (retrieved_assessments : list pydict) : res pyval :=
  prompt ← _build_llm_prompt self job_title skills experience_level
             additional_context retrieved_assessments;
  chat_completion self create prompt.

(** The body of the [try] of [recommend_simple], lines 261-295. *)
Definition generate_simple
    (self : t) (create : chat_request → res (list pyval))
    (query : string) (retrieved_assessments : list pydict) : res pyval :=
  prompt ← simple_prompt self query retrieved_assessments;
  chat_completion self create prompt.

Definition opt_str (o : option string) : pyval :=
  match o with
  | Some s => VStr s
  | None => VNone
  end.

(** [recommend], lines 146-227; [now] is
    [pd.Timestamp.now().isoformat()]. *)
Definition recommend
    (self : t) (now : string) (job_title : string) (skills : list string)
    (experience_level : string) (additional_context : option string)
    (use_llm : bool) : res pydict :=
  retrieved_assessments ←
    AssessmentRetriever.retrieve (retriever self) job_title skills
      experience_level additional_context None;
  match retrieved_assessments with
  | [] =>
      mret [("job_title", VStr job_title);
            ("skills", VList (map VStr skills));
            ("experience_level", VStr experience_level);
            ("retrieved_assessments", VList []);
            ("recommendations", VList []);
            ("explanation",
             VStr "No suitable assessments found for the given criteria.");
            ("retrieval_count", VInt 0);
            ("llm_recommendations", VNone)]
  | _ :: _ =>
      let llm_response :=
        match use_llm, client self with
        | true, Some create =>
            try_except
              (generate self create job_title skills experience_level
                 additional_context retrieved_assessments)
              VNone
        | _, _ => VNone
        end in
      mret [("job_title", VStr job_title);
            ("skills", VList (map VStr skills));
            ("experience_level", VStr experience_level);
            ("additional_context", opt_str additional_context);
            ("retrieved_assessments", VList (map VDict retrieved_assessments));
            ("llm_recommendations", llm_response);
            ("retrieval_count",
             VInt (Z.of_nat (length retrieved_assessments)));
            ("timestamp", VStr now)]
  end.

(** [recommend_simple], lines 229-306. *)
Definition recommend_simple (self : t) (query : string) (use_llm : bool)
    : res pydict :=
  retrieved_assessments ←
    AssessmentRetriever.retrieve_by_query (retriever self) query None;
  match retrieved_assessments with
  | [] =>
      mret [("query", VStr query);
            ("recommendations", VList []);
            ("explanation", VStr "No suitable assessments found.");
            ("retrieval_count", VInt 0)]
  | _ :: _ =>
      let llm_response :=
        match use_llm, client self with
        | true, Some create =>
            try_except
              (generate_simple self create query retrieved_assessments)
              VNone
        | _, _ => VNone
        end in
      mret [("query", VStr query);
            ("retrieved_assessments", VList (map VDict retrieved_assessments));
            ("llm_recommendations", llm_response);
            ("retrieval_count",
             VInt (Z.of_nat (length retrieved_assessments)))]
  end.

(** A call [self.recommend_simple(query, **kwargs)]: the keywords are bound
    to the signature [(self, query, use_llm=True)]; one that names no
    parameter, or names [query] again, is a [TypeError] raised before the
    body runs. *)
Definition call_recommend_simple
    (self : t) (query : string) (kwargs : pydict) : res pyval :=
  match filter (fun kv => kv.1 ∉ ["query"; "use_llm"]) kwargs with
  | (name, _) :: _ =>
      Raise (TypeError
               ("recommend_simple() got an unexpected keyword argument '"
                +:+ name +:+ "'"))
  | [] =>
      match dict_get kwargs "query" with
      | Some _ =>
          Raise (TypeError
                   "recommend_simple() got multiple values for argument 'query'")
      | None =>
          let use_llm :=
            truthy (default (VBool true) (dict_get kwargs "use_llm")) in
          result ← recommend_simple self query use_llm;
          mret (VDict result)
      end
  end.

End AssessmentRecommender.

(** ** AssessmentParser (parser.py) *)

Module AssessmentParser.

(** [', '.join(v)]: [v] is iterated and every item must be a [str]. *)
Definition py_join (sep : string) (v : pyval) : res string :=
  items ← py_iter v;
  strs ← mapM (fun x => match x with
                        | VStr s => Ok s
                        | _ => Raise (TypeError "sequence item: expected str")
                        end) items;
  mret (String.concat sep strs).

(** [_create_full_text], lines 80-102. *)
Definition _create_full_text (assessment : dict string) : res string :=
  name ← subscript assessment "name";
  category ← subscript assessment "category";
  description ← subscript assessment "description";
  skills_measured ← subscript assessment "skills_measured";
  job_suitability ← subscript assessment "job_suitability";
  experience_level ← subscript assessment "experience_level";
  let parts :=
    ["Assessment: " +:+ name;
     "Category: " +:+ category;
     "Description: " +:+ description;
     "Skills Measured: " +:+ skills_measured;
     "Suitable for: " +:+ job_suitability;
     "Experience Levels: " +:+ experience_level] in
  mret (String.concat " | " parts).

(** [parse_assessment], lines 54-78. [clean_text] (lines 32-52) normalises
    a value to a string with regular expressions over Unicode classes; it
    always returns and is kept abstract. *)
Definition parse_assessment
    (clean_text : pyval → string) (assessment : pydict) : res (dict string) :=
  let get key dflt := default dflt (dict_get assessment key) in
  let name := clean_text (get "name" (VStr "")) in
  let category := clean_text (get "category" (VStr "")) in
  let description := clean_text (get "description" (VStr "")) in
  skills_measured ← py_join ", " (get "skills_measured" (VList []));
  job_suitability ← py_join ", " (get "job_suitability" (VList []));
  experience_level ← py_join ", " (get "experience_level" (VList []));
  let duration := clean_text (get "duration" (VStr "")) in
  let delivery_method := clean_text (get "delivery_method" (VStr "")) in
  let parsed :=
    [("name", name);
     ("category", category);
     ("description", description);
     ("skills_measured", skills_measured);
     ("job_suitability", job_suitability);
     ("experience_level", experience_level);
     ("duration", duration);
     ("delivery_method", delivery_method)] in
  full_text ← _create_full_text parsed;
  mret (dict_set parsed "full_text" full_text).

(** [parse_all], lines 104-124: the rows of the returned [DataFrame], one
    per assessment; the comprehension stops at the first assessment whose
    parsing raises. *)
Definition parse_all
    (clean_text : pyval → string) (assessments : list pydict)
    : res (list (dict string)) :=
  mapM (parse_assessment clean_text) assessments.

End AssessmentParser.

(** ** EvaluationPipeline (shl_eval_framework.py) *)

Module EvaluationPipeline.

(** [self]: the recommender under evaluation and the evaluator. *)
Record t : Type := {
  recommender : AssessmentRecommender.t;
  evaluator : MeanRecallAtKEvaluator.t }.

(** [__init__], lines 305-313. *)
Definition init (recommender : AssessmentRecommender.t) : t :=
  {| recommender := recommender;
     evaluator := MeanRecallAtKEvaluator.init_default |}.

(** A predicted identifier as the evaluator compares it with the
    ground-truth strings: a [str], or something that equals none of them. *)
Definition as_identifier (v : pyval) : option string :=
  match v with
  | VStr s => Some s
  | _ => None
  end.

(** Lines 354-356, on what the call returned:
    [[p.get('url') or p.get('assessment_url') for p in predictions]]. *)
Definition predicted_urls (predictions : pyval) : res (list pyval) :=
  items ← py_iter predictions;
  mapM MeanRecallAtKEvaluator.assessment_url items.

(** [for query_id, urls in ground_truth.items()], lines 351-356:
    [query_predictions] is extended by one entry per query. *)
Fixpoint training_predictions
    (self : t) (ground_truth : dict (list string))
    (query_predictions : pydict) : res pydict :=
  match ground_truth with
  | [] => mret query_predictions
  | (query_id, urls) :: rest =>
      predictions ←
        AssessmentRecommender.call_recommend_simple (recommender self)
          query_id [("top_k", VInt 10)];
      predicted ← predicted_urls predictions;
      training_predictions self rest
        (dict_set query_predictions query_id (VList predicted))
  end.

(** [_generate_test_predictions], lines 387-396, given the loaded test
    queries. *)
Fixpoint _generate_test_predictions
    (self : t) (test_data : dict (list string)) (test_predictions : pydict)
    : res pydict :=
  match test_data with
  | [] => mret test_predictions
  | (query_id, _) :: rest =>
      predictions ←
        AssessmentRecommender.call_recommend_simple (recommender self)
          query_id [("top_k", VInt 10)];
      _generate_test_predictions self rest
        (dict_set test_predictions query_id predictions)
  end.

(** The prediction lists as [evaluate_system] reads them. *)
Definition identifier_lists (query_predictions : pydict)
    : gmap string (list (option string)) :=
  list_to_map
    (omap (fun '(query_id, v) =>
             match v with
             | VList l => Some (query_id, map as_identifier l)
             | _ => None
             end) query_predictions).

(** [run_full_evaluation], lines 315-385. [load_training_data] stands for
    the evaluator's method of that name (lines 42-93), which reads and
    parses a file and returns [{}] on any failure; directories are not
    modelled, so the [mkdir] calls are left out. The value is the returned
    dictionary ([None] for the [{}] of line 345) and the file system
    afterwards. *)
Definition run_full_evaluation
    (self : t) (load_training_data : string → dict (list string))
    (fs : filesystem) (training_data_file : string)
    (test_data_file : option string) (output_dir : string)
    : res (option MeanRecallAtKEvaluator.results * filesystem) :=
  let ground_truth := load_training_data training_data_file in
  match ground_truth with
  | [] => mret (None, fs)
  | _ :: _ =>
      query_predictions ← training_predictions self ground_truth [];
      let '(results, _) :=
        MeanRecallAtKEvaluator.evaluate_system (evaluator self)
          (identifier_lists query_predictions)
          (map (fun '(q, urls) => (q, map Some urls)) ground_truth) true in
      let '(_, fs, _) :=
        MeanRecallAtKEvaluator.generate_predictions_csv fs
          (output_dir +:+ "/training_predictions.csv") query_predictions
          None in
      fs ←
        match test_data_file with
        | Some test_file =>
            if truthy (VStr test_file) then
              test_predictions ←
                _generate_test_predictions self (load_training_data test_file)
                  [];
              mret (MeanRecallAtKEvaluator.generate_predictions_csv fs
                      (output_dir +:+ "/test_predictions.csv")
                      test_predictions None).1.2
            else mret fs
        | None => mret fs
        end;
      let '(_, fs, _) :=
        MeanRecallAtKEvaluator.generate_evaluation_report fs results
          (output_dir +:+ "/evaluation_report.txt") in
      mret (Some results, fs)
  end.

End EvaluationPipeline.

(** ** SystemEvaluator (evaluate.py) *)

Module SystemEvaluator.

(** Assessment names are only hashed and compared; the metrics are written
    for any such type [A]. *)
Section metrics.
Context `{Countable A}.

(** One entry of [results], lines 199-209 (without the benchmark's own
    [id] and [job_title]). *)
Record benchmark_result : Type := {
  precision : Q;
  recall : Q;
  f1_score : Q;
  expected_count : Z;
  retrieved_count : Z;
  matched_count : Z;
  matched_assessments : gset A }.

(** Lines 188-209 of [evaluate_retrieval_precision]: the metrics of one
    benchmark, from its expected names and the names retrieved for it. *)
Definition retrieval_metrics
    (expected_assessments retrieved_names : list A) : benchmark_result :=
  let expected : gset A := list_to_set expected_assessments in
  let retrieved : gset A := list_to_set retrieved_names in
  let len (s : gset A) : Q := inject_Z (Z.of_nat (size s)) in
  let '(precision, recall, f1) :=
    if decide (0 < size retrieved)%nat then
      let precision := (len (expected ∩ retrieved) / len retrieved)%Q in
      let recall :=
        if decide (0 < size expected)%nat
        then (len (expected ∩ retrieved) / len expected)%Q
        else 0%Q in
      let f1 :=
        if Qlt_le_dec 0 (precision + recall)
        then (2 * (precision * recall) / (precision + recall))%Q
        else 0%Q in
      (precision, recall, f1)
    else (0%Q, 0%Q, 0%Q) in
  {| precision := precision;
     recall := recall;
     f1_score := f1;
     expected_count := Z.of_nat (size expected);
     retrieved_count := Z.of_nat (size retrieved);
     matched_count := Z.of_nat (size (expected ∩ retrieved));
     matched_assessments := expected ∩ retrieved |}.

(** The [summary] of [evaluate_retrieval_precision], lines 217-223. *)
Record retrieval_summary : Type := {
  average_precision : Q;
  average_recall : Q;
  average_f1_score : Q;
  total_benchmarks : Z;
  detailed_results : list benchmark_result }.

(** Lines 211-223: the averages are the means of the columns of
    [pd.DataFrame(results)]; without any benchmark the frame has no
    column and [df['precision']] raises. *)
Definition summarize_retrieval (results : list benchmark_result)
    : res retrieval_summary :=
  match results with
  | [] => Raise (KeyError "precision")
  | _ :: _ =>
      mret {| average_precision := np_mean (map precision results);
              average_recall := np_mean (map recall results);
              average_f1_score := np_mean (map f1_score results);
              total_benchmarks := Z.of_nat (length results);
              detailed_results := results |}
  end.

End metrics.

End SystemEvaluator.

(** ** The HTTP endpoints (api_simple.py, api_server.py) *)

(** What a handler reads of Flask's [request]: the method, the arguments
    of the query string, and for a body whether it is JSON and what
    [get_json()] returns or raises. *)
Module flask.

Record request : Type := {
  method : string;
  args : dict string;
  is_json : bool;
  get_json : res pyval }.

End flask.

(** [obj.get(key, dflt)] *)
Definition py_get_default (obj : pyval) (key : string) (dflt : pyval)
    : res pyval :=
  match obj with
  | VDict d => Ok (default dflt (dict_get d key))
  | _ => Raise (AttributeError "object has no attribute 'get'")
  end.

(** [int(v)]: a number is truncated towards zero; the text of an integer
    is read by [int_literal], which stays abstract. *)
Definition py_int (int_literal : string → option Z) (v : pyval) : res Z :=
  match v with
  | VInt n => Ok n
  | VBool b => Ok (if b then 1 else 0)
  | VFloat x => Ok (Z.quot (Qnum x) (Z.pos (Qden x)))
  | VStr s =>
      match int_literal s with
      | Some n => Ok n
      | None => Raise (ValueError "invalid literal for int() with base 10")
      end
  | _ => Raise (TypeError "int() argument must be a string or a real number")
  end.

(** [v.strip()]: a method of [str]; which characters count as white space
    is left to [strip]. *)
Definition py_strip (strip : string → string) (v : pyval) : res string :=
  match v with
  | VStr s => Ok (strip s)
  | _ => Raise (AttributeError "object has no attribute 'strip'")
  end.

(** [round(v, nd)] for a positive [nd]: an [int] is returned as it is. *)
Definition py_round_val (v : pyval) (nd : nat) : res pyval :=
  match v with
  | VFloat x => Ok (VFloat (py_round x nd))
  | VInt n => Ok (VInt n)
  | VBool b => Ok (VInt (if b then 1 else 0))
  | _ => Raise (TypeError "type doesn't define __round__ method")
  end.

(** [v[:k]] *)
Definition py_slice_val (v : pyval) (k : Z) : res (list pyval) :=
  match v with
  | VList l => Ok (py_slice_to l k)
  | VStr s =>
      Ok (py_slice_to
            (map (fun c => VStr (String c EmptyString))
               (String.list_ascii_of_string s)) k)
  | _ => Raise (TypeError "object cannot be sliced")
  end.

(** [obj.name] on a module-level object that is [None] when its
    construction failed at import. *)
Definition attribute_of {T} (obj : option T) (name : string) : res T :=
  match obj with
  | Some o => Ok o
  | None =>
      Raise (AttributeError
               ("'NoneType' object has no attribute '" +:+ name +:+ "'"))
  end.

Module api_simple.

Section handlers.
(** [str.strip], the integer literals [int] accepts and [str(e)] of an
    exception. *)
Context (strip : string → string) (int_literal : string → option Z)
        (exn_text : pyexn → string).

(** One entry of [recommendations], lines 103-112. *)
Definition format_recommendation (r : pydict) : res pydict :=
  let get key dflt := default dflt (dict_get r key) in
  relevance_score ← py_round_val (get "score" (VInt 0)) 4;
  mret [("assessment_name", get "name" (VStr "Unknown"));
        ("assessment_url", get "assessment_url" (VStr ""));
        ("category", get "category" (VStr "Unknown"));
        ("description", get "description" (VStr ""));
        ("skills_measured", get "skills_measured" (VStr ""));
        ("job_suitability", get "job_suitability" (VStr ""));
        ("duration", get "duration" (VStr "Variable"));
        ("relevance_score", relevance_score)].

(** The handler of [/recommend], lines 62-131: the JSON body and the
    status of the response. [retriever] is the module's global, [None]
    when the retriever could not be built. *)
Definition recommend
    (retriever : option AssessmentRetriever.t) (request : flask.request)
    : pydict * Z :=
  let handled : res (pydict * Z) :=
    '(query, limit) ←
      (if String.eqb (flask.method request) "GET" then
         let query :=
           strip (default "" (dict_get (flask.args request) "query")) in
         limit ← py_int int_literal
                   (from_option VStr (VInt 5)
                      (dict_get (flask.args request) "limit"));
         mret (query, limit)
       else
         data ← flask.get_json request;
         let data := py_or data (VDict []) in
         query ← py_get_default data "query" (VStr "");
         query ← py_strip strip query;
         limit ← py_get_default data "limit" (VInt 5);
         limit ← py_int int_literal limit;
         mret (query, limit));
    if negb (truthy (VStr query)) then
      mret ([("success", VBool false);
             ("error", VStr "Query parameter is required");
             ("example", VStr "?query=Java developer&limit=5")], 400)
    else
      let limit := Z.max 5 (Z.min limit 10) in
      retriever ← attribute_of retriever "search";
      results ← AssessmentRetriever.search retriever query (Some limit);
      match results with
      | [] =>
          mret ([("success", VBool false);
                 ("error", VStr "No assessments found");
                 ("query", VStr query)], 404)
      | _ :: _ =>
          recommendations ← mapM format_recommendation results;
          mret ([("success", VBool true);
                 ("query", VStr query);
                 ("recommendation_count",
                  VInt (Z.of_nat (length recommendations)));
                 ("recommendations", VList (map VDict recommendations));
                 ("metadata",
                  VDict [("retrieval_method", VStr "semantic_similarity");
                         ("embedding_model", VStr "all-MiniLM-L6-v2");
                         ("total_assessments", VInt 65)])], 200)
      end in
  match handled with
  | Ok response => response
  | Raise e => ([("success", VBool false); ("error", VStr (exn_text e))], 500)
  end.

End handlers.

End api_simple.

Module api_server.

(** [APIResponse.error_response], lines 89-96. *)
Definition error_response (message : string) (code : Z) : pydict :=
  [("success", VBool false); ("error", VStr message); ("code", VInt code)].

(** One entry of [formatted_recs], lines 65-74. *)
Definition format_recommendation (rec : pyval) : res pydict :=
  match rec with
  | VDict d =>
      let get key dflt := default dflt (dict_get d key) in
      mret [("assessment_url", get "url" (get "assessment_url" (VStr "")));
            ("assessment_name", get "name" (get "assessment_name" (VStr "")));
            ("adaptive_support", get "adaptive_support" (VStr "Unknown"));
            ("description", get "description" (VStr ""));
            ("duration", get "duration_minutes" (get "duration" (VInt 0)));
            ("remote_support", get "remote_support" (VStr "Unknown"));
            ("test_type", get "test_type" (VStr "Unknown"));
            ("relevance_score",
             get "relevance_score" (get "score" (VInt 0)))]
  | _ => Raise (AttributeError "object has no attribute 'get'")
  end.

(** [APIResponse.recommendation_response], lines 45-87. *)
Definition recommendation_response
    (query : string) (recommendations : pyval) (success : bool)
    : res pydict :=
  first_ten ← py_slice_val recommendations 10;
  formatted_recs ← mapM format_recommendation first_ten;
  mret [("success", VBool success);
        ("query", VStr query);
        ("recommendation_count", VInt (Z.of_nat (length formatted_recs)));
        ("recommendations", VList (map VDict formatted_recs));
        ("metadata",
         VDict [("min_recommendations", VInt 5);
                ("max_recommendations", VInt 10);
                ("retrieval_method", VStr "semantic_similarity");
                ("embedding_model", VStr "all-MiniLM-L6-v2")])].

Section handlers.
Context (strip : string → string) (int_literal : string → option Z)
        (exn_text : pyexn → string).

(** Lines 175-187: the query and the limit read from the request; a body
    that is not JSON is answered at once ([inl]). *)
Definition read_request (request : flask.request)
    : res (pydict * Z + string * Z) :=
  if String.eqb (flask.method request) "GET" then
    let query :=
      strip (default "" (dict_get (flask.args request) "query")) in
    limit ← py_int int_literal
              (from_option VStr (VInt 5)
                 (dict_get (flask.args request) "limit"));
    mret (inr (query, limit))
  else if negb (flask.is_json request) then
    mret (inl (error_response "Request must be JSON" 400, 400))
  else
    data ← flask.get_json request;
    query ← py_get_default data "query" (VStr "");
    query ← py_strip strip query;
    limit ← py_get_default data "limit" (VInt 5);
    limit ← py_int int_literal limit;
    mret (inr (query, limit)).

(** Lines 189-207: the answer to a query. [recommender] is the module's
    global, [None] when the engine could not be built. *)
Definition answer
    (recommender : option AssessmentRecommender.t) (query : string)
    (limit : Z) : res (pydict * Z) :=
  if negb (truthy (VStr query)) then
    mret (error_response "Query cannot be empty" 400, 400)
  else
    let limit := Z.min limit 10 in
    let limit := Z.max limit 5 in
    recommender ← attribute_of recommender "recommend_simple";
    recommendations ←
      AssessmentRecommender.call_recommend_simple recommender query
        [("top_k", VInt limit)];
    if negb (truthy recommendations) then
      mret (error_response
              ("No assessments found matching query: " +:+ query) 404,
            404)
    else
      response ← recommendation_response query recommendations true;
      mret (response, 200).

(** The handler of [/recommend], lines 135-213: the JSON body and the
    status of the response. *)
Definition recommend_assessments
    (recommender : option AssessmentRecommender.t) (request : flask.request)
    : pydict * Z :=
  let handled : res (pydict * Z) :=
    parsed ← read_request request;
    match parsed with
    | inl response => mret response
    | inr (query, limit) => answer recommender query limit
    end in
  match handled with
  | Ok response => response
  | Raise (ValueError _ as e) =>
      (error_response ("Invalid parameters: " +:+ exn_text e) 400, 400)
  | Raise e => (error_response (exn_text e) 500, 500)
  end.

End handlers.

End api_server.

(** The spec's wording of Recall@K, on lists: the distinct items among the
    first [k] predictions that are relevant, over the distinct relevant
    items. *)
Definition recall_at_k_spec
    (predicted ground_truth : list string) (k : Z) : Q :=
  let topK := remove_dups (take (Z.to_nat k) predicted) in
  let relevant := remove_dups ground_truth in
  let hits := filter (fun u => u ∈ ground_truth) topK in
  (inject_Z (Z.of_nat (length hits))
   / inject_Z (Z.of_nat (length relevant)))%Q.

(** The ground-truth queries [evaluate_system] evaluates: those with an
    entry in the predictions; and the others. *)
Definition evaluated_queries {A} (query_predictions : gmap string (list A))
    (ground_truth : dict (list A)) : dict (list A) :=
  filter (fun item => is_Some (query_predictions !! item.1)) ground_truth.

Definition missing_queries {A} (query_predictions : gmap string (list A))
    (ground_truth : dict (list A)) : dict (list A) :=
  filter (fun item => query_predictions !! item.1 = None) ground_truth.

(** The recall at cut-off [k] of every evaluated query, in ground-truth
    order: the "per-query recall values at that K". *)
Definition per_query_recalls `{Countable A}
    (query_predictions : gmap string (list A))
    (ground_truth : dict (list A)) (k : Z) : list Q :=
  omap (fun '(query_id, urls) =>
          predicted ← query_predictions !! query_id;
          Some (MeanRecallAtKEvaluator.calculate_recall_at_k predicted urls k))
    ground_truth.

(** The record logged for a ground-truth query without predictions. *)
Definition warning_for {A} (item : string * list A) : log_record :=
  LogWarning ("No predictions found for query: " +:+ item.1).

(** [l] with every item repeated [m] times in place, and the number of
    times a cut-off is listed in [K_values]: a cut-off listed [m] times
    has every recall appended [m] times to its list. *)
Definition repeat_each {A} (m : nat) (l : list A) : list A :=
  flat_map (replicate m) l.

Definition occurrences (k : Z) (Ks : list Z) : nat :=
  length (filter (eq k) Ks).

(** A value of the closed unit interval. *)
Definition in_unit (x : Q) : Prop := (0 <= x <= 1)%Q.

(** All four statistics of a summary entry lie in the unit interval. *)
Definition stats_in_unit (s : MeanRecallAtKEvaluator.recall_stats) : Prop :=
  in_unit (MeanRecallAtKEvaluator.st_mean s)
  ∧ in_unit (MeanRecallAtKEvaluator.st_std s)
  ∧ in_unit (MeanRecallAtKEvaluator.st_min s)
  ∧ in_unit (MeanRecallAtKEvaluator.st_max s).

(** Every recall stored in [mean_recall_at_k], resp. [per_query_recall],
    lies in the unit interval. *)
Definition lists_in_unit (lists : dict (list Q)) : Prop :=
  Forall (fun entry => Forall in_unit entry.2) lists.

Definition per_query_in_unit (per_query : dict (dict Q)) : Prop :=
  Forall (fun entry => Forall (fun kv => in_unit kv.2) entry.2) per_query.

(** The [similarity_score] of a result dictionary, and the scores of a
    result list in rank order. *)
Definition score_of (assessment : pydict) : option Q :=
  match dict_get assessment "similarity_score" with
  | Some (VFloat x) => Some x
  | _ => None
  end.

Definition similarity_scores (assessments : list pydict) : list Q :=
  omap score_of assessments.

(** The contract of the vector index (spec 4.2): a query for [k]
    neighbours answers with at most [k] of them, by ascending distance. *)
Definition index_contract (self : AssessmentRetriever.t) : Prop :=
  ∀ embedding k r,
    AssessmentRetriever.collection_query self embedding k = Ok r →
    Z.of_nat (length (AssessmentRetriever.distances r)) ≤ k
    ∧ Sorted Qle (AssessmentRetriever.distances r).

(** The metadata fields both retrieval functions subscript. *)
Definition metadata_fields : list string :=
  ["name"; "category"; "description"; "skills_measured"; "job_suitability";
   "experience_level"; "duration"; "delivery_method"].

Definition complete_metadata (metadata : pydict) : Prop :=
  Forall (fun key => is_Some (dict_get metadata key)) metadata_fields.

(** What the two per-neighbour builders put in the dictionary. *)
Definition faithful
    (build : nat → string → pydict → Q → res pydict) : Prop :=
  ∀ i doc metadata distance assessment,
    build i doc metadata distance = Ok assessment →
    dict_get assessment "rank" = Some (VInt (Z.of_nat i + 1))
    ∧ dict_get assessment "similarity_score"
      = Some (VFloat (1 - distance)%Q)
    ∧ Forall (fun key => dict_get assessment key = dict_get metadata key)
        metadata_fields.

Definition succeeds
    (build : nat → string → pydict → Q → res pydict) : Prop :=
  ∀ i doc metadata distance,
    complete_metadata metadata →
    ∃ assessment, build i doc metadata distance = Ok assessment.

(** Every neighbour the index returned is in the result list, at its
    position, with rank = position + 1, score = 1 - distance and the
    metadata fields copied. *)
Definition neighbours_formatted
    (r : AssessmentRetriever.query_result) (result : list pydict) : Prop :=
  let rows := AssessmentRetriever.zip_results r in
  length result = length rows
  ∧ length rows
    = Nat.min
        (Nat.min (length (AssessmentRetriever.documents r))
           (length (AssessmentRetriever.metadatas r)))
        (length (AssessmentRetriever.distances r))
  ∧ ∀ j doc metadata distance,
      rows !! j = Some (doc, metadata, distance) →
      ∃ assessment,
        result !! j = Some assessment
        ∧ dict_get assessment "rank" = Some (VInt (Z.of_nat j + 1))
        ∧ dict_get assessment "similarity_score"
          = Some (VFloat (1 - distance)%Q)
        ∧ Forall (fun key => dict_get assessment key = dict_get metadata key)
            metadata_fields.

(** Predictions as [generate_predictions_csv] expects them, a list of
    assessment dictionaries per query, as Python values. *)
Definition typed_predictions (predictions : dict (list pydict)) : pydict :=
  map (fun '(query_id, assessments) =>
         (query_id, VList (map VDict assessments))) predictions.

(** The identifier exported for an assessment: its [url], or else its
    [assessment_url]; an assessment is exported when that value is truthy
    (present and not empty). *)
Definition url_of (assessment : pydict) : pyval :=
  py_or (default VNone (dict_get assessment "url"))
        (default VNone (dict_get assessment "assessment_url")).

Definition has_url (assessment : pydict) : Prop :=
  truthy (url_of assessment) = true.

(** The rows of the export: query by query in the order of the map, and
    within a query the identifiers of its assessments in list (rank)
    order, leaving out the assessments without one. *)
Definition expected_rows
    (predictions : dict (list pydict)) (query_mapping : option (dict string))
    : list (string * pyval) :=
  flat_map (fun '(query_id, assessments) =>
              map (fun a =>
                     (MeanRecallAtKEvaluator.query_display query_mapping
                        query_id, url_of a))
                (filter has_url assessments))
    predictions.

(** The (query, recommended-item) pairs of a predictions map. *)
Definition prediction_pairs (predictions : dict (list pydict))
    : list (string * pydict) :=
  flat_map (fun '(query_id, assessments) =>
              map (fun a => (query_id, a)) assessments) predictions.

Definition empty_filesystem : filesystem :=
  {| fs_files := ∅; fs_unwritable := ∅ |}.

(** The template of the spec for [full_text], on six field values. *)
Definition full_text_template
    (name category description skills job_suitability experience_level
     : string) : string :=
  "Assessment: " +:+ name
  +:+ " | Category: " +:+ category
  +:+ " | Description: " +:+ description
  +:+ " | Skills Measured: " +:+ skills
  +:+ " | Suitable for: " +:+ job_suitability
  +:+ " | Experience Levels: " +:+ experience_level.

(** The [TypeError] of a call of [recommend_simple] with [top_k]. *)
Definition unexpected_top_k : pyexn :=
  TypeError "recommend_simple() got an unexpected keyword argument 'top_k'".

(** The numbers stored under [key] in the dictionaries of a list, in list
    order. *)
Definition float_field (key : string) (assessment : pydict) : option Q :=
  match dict_get assessment key with
  | Some (VFloat x) => Some x
  | _ => None
  end.

Definition float_fields (key : string) (assessments : list pydict) : list Q :=
  omap (float_field key) assessments.

Definition is_dict (v : pyval) : bool :=
  match v with
  | VDict _ => true
  | _ => false
  end.

(** Predictions as [run_full_evaluation] hands them to
    [generate_predictions_csv] (lines 354-367): per query the list of the
    predicted URLs themselves. *)
Definition url_lists (predictions : dict (list string)) : pydict :=
  map (fun '(query_id, urls) => (query_id, VList (map VStr urls))) predictions.

(** A value [', '.join] accepts: an iterable whose items are all strings;
    and an assessment whose three list fields, where present, are such
    values. *)
Definition joinable (v : pyval) : Prop :=
  ∃ strs, py_iter v = Ok (map VStr strs).

(** The test [', '.join] makes of each item. *)
Definition str_item (x : pyval) : res string :=
  match x with
  | VStr s => Ok s
  | _ => Raise (TypeError "sequence item: expected str")
  end.

Definition list_fields : list string :=
  ["skills_measured"; "job_suitability"; "experience_level"].

Definition joinable_lists (assessment : pydict) : Prop :=
  Forall (fun key => joinable (default (VList []) (dict_get assessment key)))
    list_fields.

(** The columns of a parsed assessment. *)
Definition parsed_columns : list string :=
  ["name"; "category"; "description"; "skills_measured"; "job_suitability";
   "experience_level"; "duration"; "delivery_method"; "full_text"].

(** ** Sample data *)

Definition sample_metadata (name : string) : pydict :=
  [("name", VStr name);
   ("category", VStr "Cognitive");
   ("description", VStr "Numerical reasoning");
   ("skills_measured", VStr "numeracy");
   ("job_suitability", VStr "Analyst");
   ("experience_level", VStr "Mid");
   ("duration", VStr "30 minutes");
   ("delivery_method", VStr "Online");
   ("assessment_url", VStr ("https://catalog.example/" +:+ name))].

(** A three-record collection answering every query with the same
    neighbours, cut to the number asked for. *)
Definition sample_retriever : AssessmentRetriever.t :=
  {| AssessmentRetriever.top_k := 2;
     AssessmentRetriever.encode_query := fun _ => [1 # 2; 1 # 3]%Q;
     AssessmentRetriever.collection_query := fun _ k =>
       if decide (0 < k) then
         Ok {| AssessmentRetriever.documents :=
                 take (Z.to_nat k) ["doc A"; "doc B"; "doc C"];
               AssessmentRetriever.metadatas :=
                 take (Z.to_nat k)
                   [sample_metadata "A"; sample_metadata "B";
                    sample_metadata "C"];
               AssessmentRetriever.distances :=
                 take (Z.to_nat k) [1 # 10; 3 # 10; 6 # 5]%Q |}
       else Raise (ValueError "n_results must be positive") |}.

(** A recommender whose generation client raises on every request. *)
Definition sample_recommender : AssessmentRecommender.t :=
  {| AssessmentRecommender.llm_config :=
       [("model", VStr "m"); ("system_prompt", VStr "s");
        ("temperature", VFloat (3 # 10)); ("max_tokens", VInt 1000)];
     AssessmentRecommender.retriever := sample_retriever;
     AssessmentRecommender.client :=
       Some (fun _ => Raise (RuntimeError "quota exceeded"));
     AssessmentRecommender.repr := fun _ => "" |}.

(** A recommender whose generation client answers every request with one
    choice. *)
Definition answering_recommender : AssessmentRecommender.t :=
  {| AssessmentRecommender.llm_config :=
       AssessmentRecommender.llm_config sample_recommender;
     AssessmentRecommender.retriever := sample_retriever;
     AssessmentRecommender.client :=
       Some (fun _ => Ok [VStr "1. A: measures numeracy"]);
     AssessmentRecommender.repr := fun _ => "" |}.

(** [GET /recommend?query=...&limit=...] *)
Definition get_request (query limit : string) : flask.request :=
  {| flask.method := "GET";
     flask.args := [("query", query); ("limit", limit)];
     flask.is_json := false;
     flask.get_json := Ok VNone |}.

(** * Part II: properties *)

Example recall_third :
  (MeanRecallAtKEvaluator.calculate_recall_at_k
     ["a"; "b"; "c"] ["a"; "c"; "z"] 2 == 1 # 3)%Q.
Proof. vm_compute. reflexivity. Qed.

(** ** Recall@K *)

Section recall_facts.
Context `{Countable A}.
Implicit Types l g predicted ground_truth : list A.

Lemma py_slice_to_nonneg l (k : Z) :
  0 ≤ k → py_slice_to l k = take (Z.to_nat k) l.
Proof. intros Hk. unfold py_slice_to. by rewrite decide_True. Qed.

Lemma py_slice_to_all l (k : Z) :
  Z.of_nat (length l) ≤ k → py_slice_to l k = l.
Proof.
  intros Hk. rewrite py_slice_to_nonneg by lia. apply take_ge. lia.
Qed.

(** Counting through sets and counting on duplicate-free lists agree. *)
Lemma size_inter_list_to_set l g :
  size ((list_to_set l : gset A) ∩ list_to_set g)
  = length (filter (fun u => u ∈ g) (remove_dups l)).
Proof.
  rewrite <- (size_list_to_set (C := gset A)).
  - f_equal. apply set_eq. intros u.
    rewrite elem_of_intersection, !elem_of_list_to_set, list_elem_of_filter,
      elem_of_remove_dups.
    tauto.
  - apply NoDup_filter, NoDup_remove_dups.
Qed.

Lemma size_list_to_set_remove_dups g :
  size (list_to_set g : gset A) = length (remove_dups g).
Proof.
  rewrite <- (size_list_to_set (C := gset A)) by apply NoDup_remove_dups.
  f_equal. apply set_eq. intros u.
  by rewrite !elem_of_list_to_set, elem_of_remove_dups.
Qed.

(** Recall only reads the set of items in the prefix. *)
Lemma recall_prefix_set predicted predicted' ground_truth (k k' : Z) :
  (∀ u, u ∈ py_slice_to predicted' k' ↔ u ∈ py_slice_to predicted k) →
  MeanRecallAtKEvaluator.calculate_recall_at_k predicted' ground_truth k'
  = MeanRecallAtKEvaluator.calculate_recall_at_k predicted ground_truth k.
Proof.
  intros Hset. unfold MeanRecallAtKEvaluator.calculate_recall_at_k.
  destruct ground_truth as [|g0 g]; [done|].
  replace (list_to_set (py_slice_to predicted' k') : gset A)
    with (list_to_set (py_slice_to predicted k) : gset A); [done|].
  apply set_eq. intros u. by rewrite !elem_of_list_to_set.
Qed.

End recall_facts.

Example recall_duplicates :
  (MeanRecallAtKEvaluator.calculate_recall_at_k ["a"; "a"; "b"] ["a"; "b"] 2
   == 1 # 2)%Q.
Proof. vm_compute. reflexivity. Qed.

Example recall_k_beyond_length :
  (MeanRecallAtKEvaluator.calculate_recall_at_k ["a"; "b"] ["a"; "b"] 5
   == 1)%Q.
Proof. vm_compute. reflexivity. Qed.

(** A negative [k] is outside the rank cut-offs the metric is defined for;
    the slice then drops [-k] items from the end of the list. *)
Lemma recall_negative_k `{Countable A}
    (predicted ground_truth : list A) (k : Z) :
  k < 0 →
  MeanRecallAtKEvaluator.calculate_recall_at_k predicted ground_truth k
  = MeanRecallAtKEvaluator.calculate_recall_at_k predicted ground_truth
      (Z.max 0 (Z.of_nat (length predicted) + k)).
Proof.
  intros Hk. apply recall_prefix_set. intros u.
  rewrite (py_slice_to_nonneg predicted (Z.max 0 _)) by lia.
  unfold py_slice_to. rewrite decide_False by lia.
  by replace (Z.to_nat (Z.max 0 (Z.of_nat (length predicted) + k)))
    with (Z.to_nat (Z.of_nat (length predicted) + k)) by lia.
Qed.

Example recall_negative_k_sample :
  (MeanRecallAtKEvaluator.calculate_recall_at_k ["a"; "b"] ["b"] (-1) == 0)%Q.
Proof. vm_compute. reflexivity. Qed.

(** C1. For a non-empty ground truth and a cut-off [k >= 0],
    [calculate_recall_at_k] is the number of distinct relevant items among
    the first [k] predictions over the number of distinct relevant items;
    it depends on the prefix only as a set, so repeated predictions count
    once (["a";"a";"b"] against ["a";"b"] at k = 2 gives 1/2); and a [k]
    beyond the length of the list uses the whole list (["a";"b"] against
    ["a";"b"] at k = 5 gives 1). *)
Theorem calculate_recall_at_k_correct
    (predicted ground_truth : list string) (k : Z) :
  ground_truth ≠ [] →
  0 ≤ k →
  MeanRecallAtKEvaluator.calculate_recall_at_k predicted ground_truth k
  = recall_at_k_spec predicted ground_truth k
  ∧ (∀ predicted' : list string,
       (∀ u, u ∈ take (Z.to_nat k) predicted'
             ↔ u ∈ take (Z.to_nat k) predicted) →
       MeanRecallAtKEvaluator.calculate_recall_at_k predicted' ground_truth k
       = MeanRecallAtKEvaluator.calculate_recall_at_k predicted ground_truth k)
  ∧ (Z.of_nat (length predicted) ≤ k →
     MeanRecallAtKEvaluator.calculate_recall_at_k predicted ground_truth k
     = recall_at_k_spec predicted ground_truth (Z.of_nat (length predicted)))
  ∧ (MeanRecallAtKEvaluator.calculate_recall_at_k
       ["a"; "a"; "b"] ["a"; "b"] 2 == 1 # 2)%Q
  ∧ (MeanRecallAtKEvaluator.calculate_recall_at_k
       ["a"; "b"] ["a"; "b"] 5 == 1)%Q.
Proof.
  intros Hgt Hk.
  assert (Hspec : ∀ p (j : Z), 0 ≤ j →
    MeanRecallAtKEvaluator.calculate_recall_at_k p ground_truth j
    = recall_at_k_spec p ground_truth j).
  { intros p j Hj.
    unfold MeanRecallAtKEvaluator.calculate_recall_at_k, recall_at_k_spec.
    destruct ground_truth as [|g0 g]; [done|].
    rewrite py_slice_to_nonneg by done.
    by rewrite size_inter_list_to_set, size_list_to_set_remove_dups. }
  split; [by apply Hspec|].
  split.
  { intros predicted' Hset. apply recall_prefix_set.
    by rewrite !py_slice_to_nonneg. }
  split.
  { intros Hlen.
    rewrite <- (Hspec predicted (Z.of_nat (length predicted))) by lia.
    apply recall_prefix_set. by rewrite !py_slice_to_all by lia. }
  split; [apply recall_duplicates | apply recall_k_beyond_length].
Qed.

Lemma calculate_recall_at_k_correct_witness :
  MeanRecallAtKEvaluator.calculate_recall_at_k
    ["a"; "b"; "c"] ["a"; "c"; "z"] 2
  = recall_at_k_spec ["a"; "b"; "c"] ["a"; "c"; "z"] 2.
Proof.
  refine (proj1 (calculate_recall_at_k_correct
                   ["a"; "b"; "c"] ["a"; "c"; "z"] 2 _ _));
    [discriminate | lia].
Defined.

(** C2. With an empty ground truth, [calculate_recall_at_k] returns exactly
    1.0, whatever the predictions and [k]. *)
Theorem calculate_recall_at_k_empty_ground_truth
    (predicted : list string) (k : Z) :
  MeanRecallAtKEvaluator.calculate_recall_at_k predicted [] k = 1%Q.
Proof. reflexivity. Qed.

(** ** Dictionaries *)

Section dict_facts.
Context {V : Type}.
Implicit Types d : dict V.

Lemma dict_get_set d key key' (v : V) :
  dict_get (dict_set d key v) key'
  = if decide (key = key') then Some v else dict_get d key'.
Proof.
  induction d as [|[k w] d IH]; simpl.
  - destruct (String.eqb_spec key key'); by case_decide.
  - destruct (String.eqb_spec k key) as [->|Hk]; simpl.
    + destruct (String.eqb_spec key key'); by case_decide.
    + rewrite IH. destruct (String.eqb_spec k key'); [|done].
      subst. by rewrite decide_False by done.
Qed.

Lemma dict_get_set_eq d key (v : V) :
  dict_get (dict_set d key v) key = Some v.
Proof. rewrite dict_get_set. by rewrite decide_True. Qed.

Lemma dict_get_set_ne d key key' (v : V) :
  key ≠ key' → dict_get (dict_set d key v) key' = dict_get d key'.
Proof. intros. rewrite dict_get_set. by rewrite decide_False. Qed.

Lemma dict_get_None d key :
  dict_get d key = None ↔ key ∉ d.*1.
Proof.
  induction d as [|[k w] d IH]; simpl.
  - split; [intros _; apply not_elem_of_nil | done].
  - rewrite not_elem_of_cons.
    destruct (String.eqb_spec k key) as [->|Hk].
    + split; [done | by intros [? _]].
    + rewrite IH. split; [intros; split; [congruence | done] | by intros [_ ?]].
Qed.

Lemma dict_get_Some_elem d key (v : V) :
  dict_get d key = Some v → (key, v) ∈ d.
Proof.
  induction d as [|[k w] d IH]; simpl; [done|].
  destruct (String.eqb_spec k key) as [->|Hk].
  - intros [= ->]. apply list_elem_of_here.
  - intros. apply list_elem_of_further. auto.
Qed.

Lemma dict_set_keys_NoDup d key (v : V) :
  NoDup d.*1 → NoDup (dict_set d key v).*1.
Proof.
  induction d as [|[k w] d IH]; simpl.
  - intros _. apply NoDup_singleton.
  - rewrite NoDup_cons. intros [Hk Hd].
    destruct (String.eqb_spec k key) as [->|Hne]; simpl.
    + by apply NoDup_cons.
    + apply NoDup_cons. split; [|by apply IH].
      rewrite <- dict_get_None in *. by rewrite dict_get_set_ne.
Qed.

Lemma dict_set_Forall (P : string * V → Prop) d key (v : V) :
  Forall P d → (∀ k, P (k, v)) → Forall P (dict_set d key v).
Proof.
  intros Hd Hv. induction Hd as [|[k w] d Hkw Hd IH]; simpl.
  - by apply Forall_singleton.
  - destruct (String.eqb_spec k key); apply Forall_cons; auto.
Qed.

End dict_facts.

Lemma metric_key_inj :
  Inj eq eq MeanRecallAtKEvaluator.metric_key.
Proof.
  intros k k' Heq. unfold MeanRecallAtKEvaluator.metric_key in Heq.
  apply String.app_inj in Heq. by apply pretty_Z_inj in Heq.
Qed.

(** ** evaluate_system: the two loops *)

Section evaluate_system_facts.
Import MeanRecallAtKEvaluator.
Context `{Countable A}.
Implicit Types (self : t) (r : results) (log : list log_record).
Implicit Types (preds : gmap string (list A)) (gt : dict (list A)).

Lemma dict_get_append_recall (lists : dict (list Q)) key key' (x : Q) :
  dict_get (append_recall lists key x) key'
  = if decide (key = key')
    then Some (default [] (dict_get lists key) ++ [x])
    else dict_get lists key'.
Proof.
  unfold append_recall, dict_mem.
  destruct (dict_get lists key) as [xs|] eqn:Hget.
  - rewrite dict_get_set, Hget. done.
  - rewrite dict_get_set, dict_get_set_eq. case_decide; [done|].
    by rewrite dict_get_set_ne.
Qed.

Lemma append_recall_keys_NoDup (lists : dict (list Q)) key (x : Q) :
  NoDup lists.*1 → NoDup (append_recall lists key x).*1.
Proof.
  intros Hl. unfold append_recall.
  apply dict_set_keys_NoDup. destruct (dict_mem lists key); [done|].
  by apply dict_set_keys_NoDup.
Qed.

(** The inner loop, component by component. *)
Lemma inner_loop_lists query_id (predicted urls : list A) r (Ks : list Z) :
  mean_recall_at_k (foldl (record_recall query_id predicted urls) r Ks)
  = foldl (fun lists k =>
             append_recall lists (metric_key k)
               (calculate_recall_at_k predicted urls k))
      (mean_recall_at_k r) Ks.
Proof. revert r. induction Ks as [|k Ks IH]; intros r; [done|]. apply IH. Qed.

Lemma inner_loop_per_query query_id (predicted urls : list A) r (Ks : list Z) :
  per_query_recall (foldl (record_recall query_id predicted urls) r Ks)
  = foldl (fun per_query k =>
             set_per_query per_query query_id (metric_key k)
               (calculate_recall_at_k predicted urls k))
      (per_query_recall r) Ks.
Proof. revert r. induction Ks as [|k Ks IH]; intros r; [done|]. apply IH. Qed.

Lemma inner_loop_count query_id (predicted urls : list A) r (Ks : list Z) :
  queries_evaluated (foldl (record_recall query_id predicted urls) r Ks)
  = queries_evaluated r.
Proof.
  revert r. induction Ks as [|k Ks IH]; intros r; [done|].
  simpl. by rewrite IH.
Qed.

Lemma inner_loop_summary query_id (predicted urls : list A) r (Ks : list Z) :
  summary (foldl (record_recall query_id predicted urls) r Ks) = summary r.
Proof.
  revert r. induction Ks as [|k Ks IH]; intros r; [done|].
  simpl. by rewrite IH.
Qed.

Lemma append_loop_key (f : Z → Q) (Ks : list Z) lists k :
  dict_get (foldl (fun lists k => append_recall lists (metric_key k) (f k))
              lists Ks) (metric_key k)
  = match occurrences k Ks with
    | O => dict_get lists (metric_key k)
    | S m =>
        Some (default [] (dict_get lists (metric_key k))
              ++ replicate (S m) (f k))
    end.
Proof.
  revert lists. induction Ks as [|k0 Ks IH]; intros lists; [done|].
  simpl. rewrite IH, dict_get_append_recall.
  unfold occurrences. rewrite filter_cons.
  destruct (decide (k = k0)) as [<-|Hne].
  - rewrite decide_True by done. simpl.
    destruct (length (filter (eq k) Ks)) as [|m]; [done|].
    simpl. by rewrite <- app_assoc.
  - rewrite decide_False; [done|].
    intros Heq. apply metric_key_inj in Heq. by subst.
Qed.

Lemma append_loop_keys_NoDup (f : Z → Q) (Ks : list Z) lists :
  NoDup lists.*1 →
  NoDup (foldl (fun lists k => append_recall lists (metric_key k) (f k))
           lists Ks).*1.
Proof.
  revert lists. induction Ks as [|k0 Ks IH]; intros lists Hl; [done|].
  simpl. by apply IH, append_recall_keys_NoDup.
Qed.

(** The outer loop. *)
Lemma outer_loop_log self preds gt r log :
  (foldl (evaluate_query self preds) (r, log) gt).2
  = log ++ map warning_for (missing_queries preds gt).
Proof.
  revert r log. induction gt as [|[q urls] gt IH]; intros r log; simpl.
  { by rewrite app_nil_r. }
  unfold missing_queries. rewrite filter_cons. simpl.
  case_decide as Hq.
  - rewrite Hq, IH. simpl. by rewrite <- app_assoc.
  - destruct (preds !! q) as [predicted|]; [apply IH | done].
Qed.

Lemma outer_loop_evaluated self preds gt r log log' :
  (foldl (evaluate_query self preds) (r, log) gt).1
  = (foldl (evaluate_query self preds) (r, log')
       (evaluated_queries preds gt)).1.
Proof.
  revert r log log'. induction gt as [|[q urls] gt IH]; intros r log log'.
  { done. }
  unfold evaluated_queries. rewrite filter_cons. simpl.
  case_decide as Hq.
  - destruct Hq as [predicted Hq]. simpl. rewrite Hq. apply IH.
  - destruct (preds !! q) as [predicted|]; [|apply IH].
    destruct Hq. eauto.
Qed.

Lemma outer_loop_count self preds gt r log :
  queries_evaluated (foldl (evaluate_query self preds) (r, log) gt).1
  = queries_evaluated r + Z.of_nat (length (evaluated_queries preds gt)).
Proof.
  revert r log. induction gt as [|[q urls] gt IH]; intros r log; simpl.
  { lia. }
  unfold evaluated_queries. rewrite filter_cons. simpl.
  case_decide as Hq.
  - destruct Hq as [predicted Hq]. rewrite Hq, IH, inner_loop_count. simpl.
    unfold evaluated_queries. lia.
  - destruct (preds !! q) as [predicted|]; [|apply IH].
    destruct Hq. eauto.
Qed.

Lemma set_per_query_loop_other (f : Z → Q) (Ks : list Z)
    (per_query : dict (dict Q)) q q' :
  q ≠ q' →
  dict_get (foldl (fun per_query k =>
                     set_per_query per_query q (metric_key k) (f k))
              per_query Ks) q'
  = dict_get per_query q'.
Proof.
  intros Hne. revert per_query.
  induction Ks as [|k Ks IH]; intros per_query; [done|].
  simpl. rewrite IH. unfold set_per_query. by rewrite dict_get_set_ne.
Qed.

Lemma outer_loop_per_query_missing self preds gt r log q :
  preds !! q = None →
  dict_get (per_query_recall (foldl (evaluate_query self preds) (r, log) gt).1)
    q
  = dict_get (per_query_recall r) q.
Proof.
  intros Hq. revert r log.
  induction gt as [|[q' urls] gt IH]; intros r log; [done|].
  simpl. destruct (preds !! q') as [predicted|] eqn:Hq'.
  - rewrite IH, inner_loop_per_query, set_per_query_loop_other; [done|].
    intros ->. congruence.
  - apply IH.
Qed.

Lemma outer_loop_summary self preds gt r log :
  summary (foldl (evaluate_query self preds) (r, log) gt).1 = summary r.
Proof.
  revert r log. induction gt as [|[q urls] gt IH]; intros r log; [done|].
  simpl. destruct (preds !! q) as [predicted|]; [|apply IH].
  by rewrite IH, inner_loop_summary.
Qed.

Lemma outer_loop_keys_NoDup self preds gt r log :
  NoDup (mean_recall_at_k r).*1 →
  NoDup (mean_recall_at_k
           (foldl (evaluate_query self preds) (r, log) gt).1).*1.
Proof.
  revert r log. induction gt as [|[q urls] gt IH]; intros r log Hr; [done|].
  simpl. destruct (preds !! q) as [predicted|]; [|by apply IH].
  apply IH. rewrite inner_loop_lists. by apply append_loop_keys_NoDup.
Qed.

Lemma repeat_each_0 {B} (l : list B) : repeat_each 0 l = [].
Proof. induction l as [|x l IH]; [done|]. apply IH. Qed.

Lemma outer_loop_lists self preds gt r log k :
  dict_get
    (mean_recall_at_k (foldl (evaluate_query self preds) (r, log) gt).1)
    (metric_key k)
  = match repeat_each (occurrences k (K_values self))
            (per_query_recalls preds gt k) with
    | [] => dict_get (mean_recall_at_k r) (metric_key k)
    | recalls =>
        Some (default [] (dict_get (mean_recall_at_k r) (metric_key k))
              ++ recalls)
    end.
Proof.
  revert r log. induction gt as [|[q urls] gt IH]; intros r log; [done|].
  simpl. destruct (preds !! q) as [predicted|] eqn:Hq; simpl; [|apply IH].
  rewrite IH, inner_loop_lists, append_loop_key. simpl.
  destruct (occurrences k (K_values self)) as [|m].
  { by rewrite !repeat_each_0. }
  unfold repeat_each. simpl.
  destruct (flat_map _ (per_query_recalls preds gt k)) as [|x xs]; simpl.
  - by rewrite app_nil_r.
  - by rewrite <- app_assoc.
Qed.

(** The summary loop. *)
Lemma summary_loop_log verbose (summ : dict recall_stats) log
    (lists : dict (list Q)) :
  foldl (summarize verbose) (summ, log) lists
  = ((foldl (summarize verbose) (summ, []) lists).1,
     log ++ (foldl (summarize verbose) (summ, []) lists).2).
Proof.
  revert summ log. induction lists as [|[key recalls] lists IH];
    intros summ log; simpl.
  { by rewrite app_nil_r. }
  destruct recalls as [|x xs]; [apply IH|].
  rewrite IH. rewrite (IH _ (if verbose then _ else _)). simpl.
  f_equal. destruct verbose; simpl; [|done]. by rewrite <- app_assoc.
Qed.

Lemma summary_loop_lookup verbose (summ : dict recall_stats) log
    (lists : dict (list Q)) key :
  NoDup lists.*1 →
  dict_get (foldl (summarize verbose) (summ, log) lists).1 key
  = match dict_get lists key with
    | Some (x :: xs) => Some (stats_of (x :: xs))
    | _ => dict_get summ key
    end.
Proof.
  revert summ log. induction lists as [|[key0 recalls] lists IH];
    intros summ log Hnd; [done|].
  simpl in Hnd. apply NoDup_cons in Hnd as [Hkey0 Hnd].
  apply dict_get_None in Hkey0. simpl.
  destruct recalls as [|x xs]; rewrite IH by done;
    destruct (String.eqb_spec key0 key) as [->|Hne].
  - by rewrite Hkey0.
  - done.
  - by rewrite Hkey0, dict_get_set_eq.
  - by rewrite dict_get_set_ne.
Qed.

(** [evaluate_system] as the composition of its two loops. *)
Lemma evaluate_system_unfold self preds gt verbose :
  evaluate_system self preds gt verbose
  = let r0 := {| queries_evaluated := 0; mean_recall_at_k := [];
                 per_query_recall := []; summary := [] |} in
    let st := foldl (evaluate_query self preds) (r0, []) gt in
    let st' := foldl (summarize verbose) (summary st.1, st.2)
                 (mean_recall_at_k st.1) in
    ({| queries_evaluated := queries_evaluated st.1;
        mean_recall_at_k := mean_recall_at_k st.1;
        per_query_recall := per_query_recall st.1;
        summary := st'.1 |}, st'.2).
Proof.
  unfold evaluate_system. simpl.
  destruct (foldl (evaluate_query self preds) _ gt) as [r log]. simpl.
  by destruct (foldl (summarize verbose) _ _) as [summ log'].
Qed.

End evaluate_system_facts.

Lemma missing_of_evaluated {A} (preds : gmap string (list A))
    (gt : dict (list A)) :
  missing_queries preds (evaluated_queries preds gt) = [].
Proof.
  unfold missing_queries, evaluated_queries.
  induction gt as [|[q urls] gt IH]; [done|].
  rewrite filter_cons. case_decide as Hq; [|done].
  rewrite filter_cons. simpl in *. case_decide as Hq'; [|done].
  rewrite Hq' in Hq. by destruct Hq.
Qed.

(** C5. A ground-truth query without an entry in the predictions is logged
    as a warning and left out: the returned results are those of evaluating
    only the queries that have predictions, the log is one warning per
    missing query followed by the log of that evaluation,
    [queries_evaluated] counts the queries with predictions, and
    [per_query_recall] has no entry for a missing query. The function is
    total, so the remaining queries are always evaluated. *)
Theorem evaluate_system_skips_missing_queries
    (self : MeanRecallAtKEvaluator.t)
    (query_predictions : gmap string (list string))
    (ground_truth : dict (list string)) (verbose : bool) :
  let run := MeanRecallAtKEvaluator.evaluate_system self query_predictions in
  let evaluated := evaluated_queries query_predictions ground_truth in
  let missing := missing_queries query_predictions ground_truth in
  (run ground_truth verbose).1 = (run evaluated verbose).1
  ∧ (run ground_truth verbose).2
    = map warning_for missing ++ (run evaluated verbose).2
  ∧ missing_queries query_predictions evaluated = []
  ∧ MeanRecallAtKEvaluator.queries_evaluated (run ground_truth verbose).1
    = Z.of_nat (length evaluated)
  ∧ (∀ query_id,
       query_predictions !! query_id = None →
       dict_get
         (MeanRecallAtKEvaluator.per_query_recall (run ground_truth verbose).1)
         query_id = None).
Proof.
  intros run evaluated missing. subst run evaluated missing.
  rewrite !evaluate_system_unfold. simpl.
  set (r0 := {| MeanRecallAtKEvaluator.queries_evaluated := 0;
                MeanRecallAtKEvaluator.mean_recall_at_k := [];
                MeanRecallAtKEvaluator.per_query_recall := [];
                MeanRecallAtKEvaluator.summary := [] |}).
  rewrite !(outer_loop_log self query_predictions _ r0 []).
  rewrite missing_of_evaluated. simpl.
  rewrite (outer_loop_evaluated self query_predictions ground_truth r0 [] []).
  set (r := (foldl _ (r0, []) (evaluated_queries _ _)).1).
  rewrite (summary_loop_log verbose _ (map _ _)).
  repeat split.
  - subst r. rewrite <- (outer_loop_evaluated _ _ ground_truth r0 [] []).
    by rewrite outer_loop_count.
  - intros q Hq. subst r.
    rewrite <- (outer_loop_evaluated _ _ ground_truth r0 [] []).
    by rewrite outer_loop_per_query_missing.
Qed.

Example evaluate_system_sample :
  let run :=
    MeanRecallAtKEvaluator.evaluate_system MeanRecallAtKEvaluator.init_default
      ({[ "q1" := ["a"; "b"; "c"]; "q2" := ["x"] ]}
         : gmap string (list string))
      [("q1", ["a"; "c"; "z"]); ("q3", ["k"]); ("q2", ["x"; "y"])] true in
  MeanRecallAtKEvaluator.queries_evaluated run.1 = 2
  ∧ MeanRecallAtKEvaluator.per_query_recall run.1
    = [("q1", [("recall@5", 2 # 3); ("recall@10", 2 # 3)]);
       ("q2", [("recall@5", 1 # 2); ("recall@10", 1 # 2)])]%Q
  ∧ run.2 = [LogWarning "No predictions found for query: q3";
             LogInfo "recall@5: 0.5833 ± 0.0833";
             LogInfo "recall@10: 0.5833 ± 0.0833"].
Proof. by vm_compute. Qed.

(** ** Rounding and statistics *)

Section numeric_facts.
Local Open Scope Q_scope.

#[global] Instance in_unit_proper : Proper (Qeq ==> iff) in_unit.
Proof. intros x y Hxy. unfold in_unit. by rewrite Hxy. Qed.

Lemma pow10_pos nd : (0 < pow10 nd)%Z.
Proof. unfold pow10. apply Z.pow_pos_nonneg; lia. Qed.

Lemma inject_Z_pow10_pos nd : 0 < inject_Z (pow10 nd).
Proof.
  change 0 with (inject_Z 0). rewrite <- Zlt_Qlt. apply pow10_pos.
Qed.

(** [round_half_even] is within one half of its argument. *)
Lemma round_half_even_nearest x :
  inject_Z (round_half_even x) - (1 # 2) <= x
  <= inject_Z (round_half_even x) + (1 # 2).
Proof.
  unfold round_half_even.
  pose proof (Qfloor_le x) as Hlo. pose proof (Qlt_floor x) as Hhi.
  rewrite inject_Z_plus in Hhi. change (inject_Z 1) with 1 in Hhi.
  destruct (x - inject_Z (Qfloor x) ?= 1 # 2) eqn:Hc.
  - apply Qeq_alt in Hc.
    destruct (Z.even _); rewrite ?inject_Z_plus;
      change (inject_Z 1) with 1; lra.
  - apply Qlt_alt in Hc. lra.
  - apply Qgt_alt in Hc. rewrite inject_Z_plus.
    change (inject_Z 1) with 1. lra.
Qed.

Lemma round_half_even_bounds x (a b : Z) :
  inject_Z a <= x <= inject_Z b → (a ≤ round_half_even x ≤ b)%Z.
Proof.
  intros [Ha Hb]. pose proof (round_half_even_nearest x) as [Hlo Hhi].
  split.
  - assert (inject_Z a < inject_Z (round_half_even x + 1)) as Hlt.
    { rewrite inject_Z_plus. change (inject_Z 1) with 1. lra. }
    rewrite <- Zlt_Qlt in Hlt. lia.
  - assert (inject_Z (round_half_even x) < inject_Z (b + 1)) as Hlt.
    { rewrite inject_Z_plus. change (inject_Z 1) with 1. lra. }
    rewrite <- Zlt_Qlt in Hlt. lia.
Qed.

Lemma Qdiv_in_unit (a b : Z) :
  (0 ≤ a ≤ b)%Z → (0 < b)%Z → in_unit (inject_Z a / inject_Z b).
Proof.
  intros [Ha Hab] Hb.
  assert (0 < inject_Z b).
  { change 0 with (inject_Z 0). by rewrite <- Zlt_Qlt. }
  split.
  - apply Qle_shift_div_l; [done|]. rewrite Qmult_0_l.
    change 0 with (inject_Z 0). by rewrite <- Zle_Qle.
  - apply Qle_shift_div_r; [done|]. rewrite Qmult_1_l. by rewrite <- Zle_Qle.
Qed.

Lemma py_round_in_unit x nd : in_unit x → in_unit (py_round x nd).
Proof.
  intros [H0 H1]. unfold py_round.
  pose proof (inject_Z_pow10_pos nd) as HP.
  apply Qdiv_in_unit; [|apply pow10_pos].
  apply round_half_even_bounds. change (inject_Z 0) with 0. split; nra.
Qed.

(** [sqrt_scaled v nd] is within one half of [sqrt (v * 10^(2 nd))],
    stated through squares. *)
Lemma sqrt_scaled_nearest v nd :
  0 <= v →
  let n := sqrt_scaled v nd in
  let w := v * inject_Z (pow10 nd * pow10 nd) in
  (0 ≤ n)%Z
  ∧ 4 * w <= inject_Z ((2 * n + 1) * (2 * n + 1))
  ∧ (n = 0%Z ∨ inject_Z ((2 * n - 1) * (2 * n - 1)) <= 4 * w).
Proof.
  intros Hv. cbv zeta. unfold sqrt_scaled.
  set (w := v * inject_Z (pow10 nd * pow10 nd)).
  assert (0 <= w) as Hw.
  { subst w. rewrite inject_Z_mult.
    pose proof (inject_Z_pow10_pos nd). nra. }
  assert (0 ≤ Qfloor w)%Z as Hf.
  { change 0%Z with (Qfloor 0). by apply Qfloor_resp_le. }
  pose proof (Z.sqrt_spec _ Hf) as Hs. cbv zeta in Hs.
  destruct Hs as [Hs1 Hs2].
  pose proof (Z.sqrt_nonneg (Qfloor w)) as Hs0.
  set (s := Z.sqrt (Qfloor w)) in *.
  assert (inject_Z (s * s) <= w) as Hlo.
  { eapply Qle_trans; [|apply Qfloor_le]. by rewrite <- Zle_Qle. }
  assert (w < inject_Z ((s + 1) * (s + 1))) as Hhi.
  { eapply Qlt_le_trans; [apply Qlt_floor|]. rewrite <- Zle_Qle. lia. }
  assert (s = 0%Z ∨ inject_Z ((2 * s - 1) * (2 * s - 1)) <= 4 * w) as Hlow_s.
  { destruct (decide (s = 0%Z)) as [|Hne]; [by left|right].
    apply Qle_trans with (inject_Z (4 * (s * s))).
    - rewrite <- Zle_Qle. nia.
    - rewrite inject_Z_mult. change (inject_Z 4) with 4. lra. }
  assert (4 * w <= inject_Z ((2 * (s + 1) + 1) * (2 * (s + 1) + 1))) as Hup_s1.
  { apply Qle_trans with (inject_Z (4 * ((s + 1) * (s + 1)))).
    - rewrite inject_Z_mult. change (inject_Z 4) with 4. lra.
    - rewrite <- Zle_Qle. nia. }
  assert (((2 * (s + 1) - 1) * (2 * (s + 1) - 1))%Z
          = ((2 * s + 1) * (2 * s + 1))%Z) as Hmid by lia.
  destruct (4 * w ?= inject_Z ((2 * s + 1) * (2 * s + 1))) eqn:Hc.
  - apply Qeq_alt in Hc. destruct (Z.even s).
    + split; [lia|]. split; [|exact Hlow_s]. rewrite Hc. apply Qle_refl.
    + split; [lia|]. split; [exact Hup_s1|]. right.
      rewrite Hmid, Hc. apply Qle_refl.
  - apply Qlt_alt in Hc. split; [lia|]. split; [|exact Hlow_s].
    by apply Qlt_le_weak.
  - apply Qgt_alt in Hc. split; [lia|]. split; [exact Hup_s1|]. right.
    rewrite Hmid. by apply Qlt_le_weak.
Qed.

(** [py_round] and [py_round_sqrt] are within half a unit of the last
    decimal of [x], resp. of the square root of [v]. *)
Lemma py_round_nearest x nd :
  let h := 1 / (2 * inject_Z (pow10 nd)) in
  py_round x nd - h <= x <= py_round x nd + h.
Proof.
  cbv zeta. unfold py_round.
  pose proof (inject_Z_pow10_pos nd) as HP.
  pose proof (round_half_even_nearest (x * inject_Z (pow10 nd))) as [Hlo Hhi].
  set (P := inject_Z (pow10 nd)) in *.
  set (R := inject_Z (round_half_even (x * P))) in *.
  assert (~ P == 0) as HP0 by lra.
  split.
  - assert (R / P - 1 / (2 * P) == (R - (1 # 2)) / P) as -> by (by field).
    by apply Qle_shift_div_r.
  - assert (R / P + 1 / (2 * P) == (R + (1 # 2)) / P) as -> by (by field).
    by apply Qle_shift_div_l.
Qed.

Lemma py_round_sqrt_nearest v nd :
  0 <= v →
  let s := py_round_sqrt v nd in
  let h := 1 / (2 * inject_Z (pow10 nd)) in
  0 <= s
  ∧ v <= (s + h) * (s + h)
  ∧ (s == 0 ∨ (s - h) * (s - h) <= v).
Proof.
  intros Hv. cbv zeta. unfold py_round_sqrt.
  pose proof (inject_Z_pow10_pos nd) as HP.
  pose proof (sqrt_scaled_nearest v nd Hv) as Hn. cbv zeta in Hn.
  destruct Hn as (Hn0 & Hup & Hlow).
  rewrite (inject_Z_mult (pow10 nd) (pow10 nd)) in Hup, Hlow.
  set (P := inject_Z (pow10 nd)) in *.
  assert (~ P == 0) as HP0 by lra.
  assert (0 < 4 * (P * P)) as HPP by nra.
  set (n := sqrt_scaled v nd) in *.
  assert (0 <= inject_Z n) as HN.
  { change 0 with (inject_Z 0). by rewrite <- Zle_Qle. }
  split; [|split].
  - apply Qle_shift_div_l; [done|]. by rewrite Qmult_0_l.
  - assert ((inject_Z n / P + 1 / (2 * P)) * (inject_Z n / P + 1 / (2 * P))
            == inject_Z ((2 * n + 1) * (2 * n + 1)) / (4 * (P * P))) as ->.
    { rewrite !inject_Z_mult, !inject_Z_plus, inject_Z_mult.
      change (inject_Z 2) with 2. change (inject_Z 1) with 1. by field. }
    apply Qle_shift_div_l; [done|]. lra.
  - destruct Hlow as [Hz|Hlow]; [left|right].
    + rewrite Hz. unfold Qdiv. apply Qmult_0_l.
    + assert ((inject_Z n / P - 1 / (2 * P)) * (inject_Z n / P - 1 / (2 * P))
              == inject_Z ((2 * n - 1) * (2 * n - 1)) / (4 * (P * P))) as ->.
      { unfold Z.sub. rewrite !inject_Z_mult, !inject_Z_plus, inject_Z_mult.
        rewrite inject_Z_opp.
        change (inject_Z 2) with 2. change (inject_Z 1) with 1. by field. }
      apply Qle_shift_div_r; [done|]. lra.
Qed.

End numeric_facts.
Section statistics_facts.
Local Open Scope Q_scope.

Lemma py_round_sqrt_in_unit v nd : in_unit v → in_unit (py_round_sqrt v nd).
Proof.
  intros [H0 H1]. unfold py_round_sqrt.
  pose proof (sqrt_scaled_nearest v nd H0) as Hn. cbv zeta in Hn.
  destruct Hn as (Hn0 & _ & Hlow).
  pose proof (pow10_pos nd) as HP.
  apply Qdiv_in_unit; [|done]. split; [done|].
  destruct Hlow as [->|Hlow]; [lia|].
  assert (inject_Z ((2 * sqrt_scaled v nd - 1) * (2 * sqrt_scaled v nd - 1))
          <= inject_Z (4 * (pow10 nd * pow10 nd))) as Hle.
  { eapply Qle_trans; [apply Hlow|].
    rewrite (inject_Z_mult 4). change (inject_Z 4) with 4.
    assert (0 < inject_Z (pow10 nd * pow10 nd)).
    { change 0 with (inject_Z 0). rewrite <- Zlt_Qlt. nia. }
    nra. }
  rewrite <- Zle_Qle in Hle. nia.
Qed.

Lemma py_round_sqrt_zero v nd : v == 0 → py_round_sqrt v nd == 0.
Proof.
  intros Hv. unfold py_round_sqrt, sqrt_scaled.
  set (w := v * inject_Z (pow10 nd * pow10 nd)).
  assert (w == 0) as Hw by (subst w; rewrite Hv; apply Qmult_0_l).
  assert (Qfloor w = 0%Z) as -> by (by rewrite Hw).
  change (Z.sqrt 0) with 0%Z.
  assert ((4 * w ?= inject_Z ((2 * 0 + 1) * (2 * 0 + 1))) = Lt) as ->.
  { apply Qlt_alt. rewrite Hw. reflexivity. }
  unfold Qdiv. apply Qmult_0_l.
Qed.

Lemma Qsum_bounds (l : list Q) :
  Forall in_unit l → 0 <= Qsum l <= inject_Z (Z.of_nat (length l)).
Proof.
  induction 1 as [|x l [Hx0 Hx1] _ [IH0 IH1]]; simpl.
  - split; apply Qle_refl.
  - rewrite Nat2Z.inj_succ, <- Z.add_1_r, inject_Z_plus.
    change (inject_Z 1) with 1. split; lra.
Qed.

Lemma np_mean_in_unit (l : list Q) :
  l ≠ [] → Forall in_unit l → in_unit (np_mean l).
Proof.
  intros Hne Hl. unfold np_mean.
  pose proof (Qsum_bounds l Hl) as [H0 H1].
  assert (0 < inject_Z (Z.of_nat (length l))) as Hn.
  { change 0 with (inject_Z 0). rewrite <- Zlt_Qlt.
    destruct l; [done|simpl; lia]. }
  split.
  - apply Qle_shift_div_l; [done|]. by rewrite Qmult_0_l.
  - apply Qle_shift_div_r; [done|]. by rewrite Qmult_1_l.
Qed.

Lemma foldl_Qmin_in_unit (l : list Q) x :
  in_unit x → Forall in_unit l → in_unit (foldl Qmin x l).
Proof.
  intros Hx Hl. revert x Hx.
  induction Hl as [|y l Hy _ IH]; intros x Hx; [done|].
  simpl. apply IH. apply Q.min_case; [|done..].
  intros a b Hab. by rewrite Hab.
Qed.

Lemma foldl_Qmax_in_unit (l : list Q) x :
  in_unit x → Forall in_unit l → in_unit (foldl Qmax x l).
Proof.
  intros Hx Hl. revert x Hx.
  induction Hl as [|y l Hy _ IH]; intros x Hx; [done|].
  simpl. apply IH. apply Q.max_case; [|done..].
  intros a b Hab. by rewrite Hab.
Qed.

Lemma np_min_in_unit (l : list Q) :
  l ≠ [] → Forall in_unit l → in_unit (np_min l).
Proof.
  intros Hne Hl. destruct Hl as [|x l Hx Hl]; [done|].
  by apply foldl_Qmin_in_unit.
Qed.

Lemma np_max_in_unit (l : list Q) :
  l ≠ [] → Forall in_unit l → in_unit (np_max l).
Proof.
  intros Hne Hl. destruct Hl as [|x l Hx Hl]; [done|].
  by apply foldl_Qmax_in_unit.
Qed.

Lemma Qsquare_nonneg (a : Q) : 0 <= a * a.
Proof. nra. Qed.

Lemma Qsquare_diff_unit (x m : Q) :
  in_unit x → in_unit m → (x - m) * (x - m) <= 1.
Proof.
  intros [??] [??]. assert (-1 <= x - m <= 1) as [??] by lra.
  generalize dependent (x - m). intros d ??.
  assert (0 <= (1 - d) * (1 + d)) by (apply Qmult_le_0_compat; lra). lra.
Qed.

Lemma np_var_in_unit (l : list Q) :
  l ≠ [] → Forall in_unit l → in_unit (np_var l).
Proof.
  intros Hne Hl. unfold np_var.
  pose proof (np_mean_in_unit l Hne Hl) as Hm.
  apply np_mean_in_unit.
  - by destruct l.
  - apply Forall_map. eapply Forall_impl; [exact Hl|].
    intros x Hx. split; [apply Qsquare_nonneg | by apply Qsquare_diff_unit].
Qed.

(** The mean of equal values is that value, and their variance is zero. *)
Lemma Qsum_const (l : list Q) c :
  Forall (fun x => x == c) l →
  Qsum l == inject_Z (Z.of_nat (length l)) * c.
Proof.
  induction 1 as [|x l Hx _ IH]; simpl.
  - by rewrite Qmult_0_l.
  - rewrite Nat2Z.inj_succ, <- Z.add_1_r, inject_Z_plus.
    change (inject_Z 1) with 1. rewrite IH, Hx. ring.
Qed.

Lemma np_mean_const (l : list Q) c :
  l ≠ [] → Forall (fun x => x == c) l → np_mean l == c.
Proof.
  intros Hne Hl. unfold np_mean. rewrite (Qsum_const l c Hl).
  field. intros Hz. change 0 with (inject_Z 0) in Hz.
  apply inject_Z_injective in Hz. destruct l; [done|discriminate].
Qed.

Lemma np_var_const (l : list Q) c :
  l ≠ [] → Forall (fun x => x == c) l → np_var l == 0.
Proof.
  intros Hne Hl. unfold np_var. apply np_mean_const.
  - by destruct l.
  - apply Forall_map. eapply Forall_impl; [exact Hl|].
    intros x Hx. cbv beta. rewrite (np_mean_const l c Hne Hl), Hx. ring.
Qed.

End statistics_facts.

(** ** Statistics of a list whose items are repeated *)

Section repeat_facts.
Local Open Scope Q_scope.

Lemma round_half_even_proper x y :
  x == y → round_half_even x = round_half_even y.
Proof.
  intros Hxy. unfold round_half_even.
  rewrite (Qfloor_comp x y Hxy).
  assert ((x - inject_Z (Qfloor y) ?= 1 # 2)
          = (y - inject_Z (Qfloor y) ?= 1 # 2)) as ->; [|done].
  apply Qcompare_comp; [|done]. by rewrite Hxy.
Qed.

Lemma py_round_proper x y nd : x == y → py_round x nd = py_round y nd.
Proof.
  intros Hxy. unfold py_round.
  rewrite (round_half_even_proper (x * _) (y * inject_Z (pow10 nd))); [done|].
  by rewrite Hxy.
Qed.

Lemma py_round_sqrt_proper x y nd :
  x == y → py_round_sqrt x nd = py_round_sqrt y nd.
Proof.
  intros Hxy. unfold py_round_sqrt, sqrt_scaled.
  set (M := inject_Z (pow10 nd * pow10 nd)).
  assert (x * M == y * M) as HM by (by rewrite Hxy).
  rewrite (Qfloor_comp _ _ HM).
  set (n := Z.sqrt (Qfloor (y * M))).
  assert ((4 * (x * M) ?= inject_Z ((2 * n + 1) * (2 * n + 1)))
          = (4 * (y * M) ?= inject_Z ((2 * n + 1) * (2 * n + 1)))) as ->;
    [|done].
  apply Qcompare_comp; [|done]. by rewrite HM.
Qed.

Lemma Qsum_proper (l l' : list Q) : Forall2 Qeq l l' → Qsum l == Qsum l'.
Proof.
  induction 1 as [|x y l l' Hxy _ IH]; simpl; [done|]. by rewrite Hxy, IH.
Qed.

Lemma np_mean_proper (l l' : list Q) :
  Forall2 Qeq l l' → np_mean l == np_mean l'.
Proof.
  intros Hl. unfold np_mean.
  by rewrite (Qsum_proper l l' Hl), (Forall2_length _ _ _ Hl).
Qed.

Lemma repeat_each_cons {B} (m : nat) (x : B) (l : list B) :
  repeat_each m (x :: l) = replicate m x ++ repeat_each m l.
Proof. done. Qed.

Lemma map_repeat_each {B C} (f : B → C) (m : nat) (l : list B) :
  map f (repeat_each m l) = repeat_each m (map f l).
Proof.
  induction l as [|x l IH]; [done|].
  change (map f (x :: l)) with (f x :: map f l).
  rewrite !repeat_each_cons, map_app, IH. f_equal.
  clear IH. induction m as [|m IHm]; simpl; [done | by f_equal].
Qed.

Lemma length_repeat_each {B} (m : nat) (l : list B) :
  length (repeat_each m l) = (m * length l)%nat.
Proof.
  induction l as [|x l IH]; [simpl; lia|].
  rewrite repeat_each_cons, length_app, length_replicate, IH. simpl. lia.
Qed.

Lemma Qsum_app (l l' : list Q) : Qsum (l ++ l') == Qsum l + Qsum l'.
Proof.
  induction l as [|x l IH]; simpl; [by rewrite Qplus_0_l|].
  rewrite IH. ring.
Qed.

Lemma Qsum_replicate (m : nat) (x : Q) :
  Qsum (replicate m x) == inject_Z (Z.of_nat m) * x.
Proof.
  induction m as [|m IH]; [by rewrite Qmult_0_l|].
  rewrite Nat2Z.inj_succ, <- Z.add_1_r, inject_Z_plus.
  change (inject_Z 1) with 1. simpl. rewrite IH. ring.
Qed.

Lemma Qsum_repeat_each (m : nat) (l : list Q) :
  Qsum (repeat_each m l) == inject_Z (Z.of_nat m) * Qsum l.
Proof.
  induction l as [|x l IH]; [simpl; by rewrite Qmult_0_r|].
  rewrite repeat_each_cons, Qsum_app, Qsum_replicate, IH. simpl. ring.
Qed.

Lemma np_mean_repeat_each (m : nat) (l : list Q) :
  l ≠ [] → np_mean (repeat_each (S m) l) == np_mean l.
Proof.
  intros Hne. unfold np_mean.
  rewrite Qsum_repeat_each, length_repeat_each, Nat2Z.inj_mul, inject_Z_mult.
  field. split.
  - intros Hz. change 0 with (inject_Z 0) in Hz.
    apply inject_Z_injective in Hz. destruct l; [done|discriminate].
  - intros Hz. change 0 with (inject_Z 0) in Hz.
    apply inject_Z_injective in Hz. discriminate.
Qed.

Lemma np_var_repeat_each (m : nat) (l : list Q) :
  l ≠ [] → np_var (repeat_each (S m) l) == np_var l.
Proof.
  intros Hne. unfold np_var.
  rewrite map_repeat_each, np_mean_repeat_each by (by destruct l).
  apply np_mean_proper. apply Forall2_fmap, Forall_Forall2_diag.
  apply Forall_forall. intros x _. cbv beta.
  by rewrite (np_mean_repeat_each m l Hne).
Qed.

(** Minimum and maximum: folding an idempotent, associative operation. *)
Section fold_idempotent.
Variable op : Q → Q → Q.
Hypothesis op_proper : Proper (Qeq ==> Qeq ==> Qeq) op.
Hypothesis op_id : ∀ x, op x x == x.
Hypothesis op_assoc : ∀ x y z, op x (op y z) == op (op x y) z.

Lemma foldl_op_proper (l : list Q) x y :
  x == y → foldl op x l == foldl op y l.
Proof.
  revert x y. induction l as [|a l IH]; intros x y Hxy; [done|].
  simpl. apply IH. by rewrite Hxy.
Qed.

Lemma foldl_op_replicate (m : nat) x a :
  foldl op x (replicate (S m) a) == op x a.
Proof.
  revert x. induction m as [|m IH]; intros x; [done|].
  change (foldl op x (replicate (S (S m)) a))
    with (foldl op (op x a) (replicate (S m) a)).
  by rewrite IH, <- op_assoc, op_id.
Qed.

Lemma foldl_op_repeat_each (m : nat) (l : list Q) x :
  foldl op x (repeat_each (S m) l) == foldl op x l.
Proof.
  revert x. induction l as [|a l IH]; intros x; [done|].
  rewrite repeat_each_cons, foldl_app.
  change (foldl op x (a :: l)) with (foldl op (op x a) l).
  rewrite <- IH. apply foldl_op_proper, foldl_op_replicate.
Qed.

Lemma fold_first_repeat_each (m : nat) (a : Q) (l : list Q) :
  foldl op a (replicate m a ++ repeat_each (S m) l) == foldl op a l.
Proof.
  rewrite foldl_app, <- (foldl_op_repeat_each m l a).
  apply foldl_op_proper. destruct m as [|m]; [done|].
  by rewrite foldl_op_replicate, op_id.
Qed.

End fold_idempotent.

Lemma np_min_repeat_each (m : nat) (l : list Q) :
  np_min (repeat_each (S m) l) == np_min l.
Proof.
  destruct l as [|a l]; [done|]. rewrite repeat_each_cons. simpl.
  apply fold_first_repeat_each;
    [apply Q.min_compat | apply Q.min_id | apply Q.min_assoc].
Qed.

Lemma np_max_repeat_each (m : nat) (l : list Q) :
  np_max (repeat_each (S m) l) == np_max l.
Proof.
  destruct l as [|a l]; [done|]. rewrite repeat_each_cons. simpl.
  apply fold_first_repeat_each;
    [apply Q.max_compat | apply Q.max_id | apply Q.max_assoc].
Qed.

Lemma stats_of_repeat_each (m : nat) (l : list Q) :
  l ≠ [] →
  MeanRecallAtKEvaluator.stats_of (repeat_each (S m) l)
  = MeanRecallAtKEvaluator.stats_of l.
Proof.
  intros Hne. unfold MeanRecallAtKEvaluator.stats_of.
  rewrite (py_round_proper _ _ 4 (np_mean_repeat_each m l Hne)).
  rewrite (py_round_sqrt_proper _ _ 4 (np_var_repeat_each m l Hne)).
  rewrite (py_round_proper _ _ 4 (np_min_repeat_each m l)).
  by rewrite (py_round_proper _ _ 4 (np_max_repeat_each m l)).
Qed.

End repeat_facts.

Lemma recall_in_unit `{Countable A} (predicted ground_truth : list A) (k : Z) :
  in_unit
    (MeanRecallAtKEvaluator.calculate_recall_at_k predicted ground_truth k).
Proof.
  unfold MeanRecallAtKEvaluator.calculate_recall_at_k.
  destruct ground_truth as [|g0 g]; [by split|].
  set (top := list_to_set (py_slice_to predicted k) : gset A).
  set (gts := list_to_set (g0 :: g) : gset A).
  apply Qdiv_in_unit.
  - split; [lia|]. apply inj_le, subseteq_size, intersection_subseteq_r.
  - assert (size gts ≠ 0%nat); [|lia].
    intros Hz. apply size_empty_inv in Hz.
    assert (g0 ∈ gts) as Hin.
    { subst gts. apply elem_of_list_to_set, list_elem_of_here. }
    rewrite Hz in Hin. by apply not_elem_of_empty in Hin.
Qed.

(** ** evaluate_system: every stored recall lies in [0,1] *)

Section unit_interval_facts.
Import MeanRecallAtKEvaluator.
Context `{Countable A}.

Lemma stats_of_in_unit (recalls : list Q) :
  recalls ≠ [] →
  Forall in_unit recalls → stats_in_unit (stats_of recalls).
Proof.
  intros Hne Hl. unfold stats_in_unit, stats_of. simpl.
  split; [by apply py_round_in_unit, np_mean_in_unit|].
  split; [by apply py_round_sqrt_in_unit, np_var_in_unit|].
  split; [by apply py_round_in_unit, np_min_in_unit|].
  by apply py_round_in_unit, np_max_in_unit.
Qed.

Lemma dict_get_Forall {V} (P : V → Prop) (d : dict V) key v :
  Forall (fun entry => P entry.2) d → dict_get d key = Some v → P v.
Proof.
  intros Hd Hget. apply dict_get_Some_elem in Hget.
  rewrite Forall_forall in Hd. by apply (Hd (key, v)).
Qed.

Lemma append_recall_in_unit (lists : dict (list Q)) key (x : Q) :
  lists_in_unit lists →
  in_unit x → lists_in_unit (append_recall lists key x).
Proof.
  intros Hl Hx. unfold append_recall, dict_mem.
  destruct (dict_get lists key) as [xs|] eqn:Hget.
  - apply dict_set_Forall; [done|]. intros ?. simpl.
    rewrite Hget. simpl.
    apply Forall_app. split; [|by apply Forall_singleton].
    by apply (dict_get_Forall (Forall in_unit) lists key).
  - rewrite dict_get_set_eq. simpl.
    apply dict_set_Forall; [|intros ?; by apply Forall_singleton].
    apply dict_set_Forall; [done|]. intros ?. apply Forall_nil_2.
Qed.

Lemma set_per_query_in_unit (per_query : dict (dict Q)) q key (x : Q) :
  per_query_in_unit per_query → in_unit x →
  per_query_in_unit (set_per_query per_query q key x).
Proof.
  intros Hp Hx. unfold set_per_query.
  apply dict_set_Forall; [done|]. intros ?. simpl.
  apply dict_set_Forall; [|done].
  destruct (dict_get per_query q) as [inner|] eqn:Hget; simpl.
  - by apply (dict_get_Forall (Forall (fun kv => in_unit kv.2)) per_query q).
  - apply Forall_nil_2.
Qed.

Lemma inner_loop_in_unit q (predicted urls : list A) r (Ks : list Z) :
  lists_in_unit (mean_recall_at_k r) →
  per_query_in_unit (per_query_recall r) →
  let r' := foldl (record_recall q predicted urls) r Ks in
  lists_in_unit (mean_recall_at_k r')
  ∧ per_query_in_unit (per_query_recall r').
Proof.
  revert r. induction Ks as [|k Ks IH]; intros r Hl Hp; [done|].
  simpl. apply IH; simpl.
  - apply append_recall_in_unit; [done | apply recall_in_unit].
  - apply set_per_query_in_unit; [done | apply recall_in_unit].
Qed.

Lemma outer_loop_in_unit self (preds : gmap string (list A))
    (gt : dict (list A)) r log :
  lists_in_unit (mean_recall_at_k r) →
  per_query_in_unit (per_query_recall r) →
  let r' := (foldl (evaluate_query self preds) (r, log) gt).1 in
  lists_in_unit (mean_recall_at_k r')
  ∧ per_query_in_unit (per_query_recall r').
Proof.
  revert r log. induction gt as [|[q urls] gt IH]; intros r log Hl Hp; [done|].
  simpl. destruct (preds !! q) as [predicted|]; [|by apply IH].
  apply IH; by apply inner_loop_in_unit.
Qed.

Lemma summary_loop_in_unit verbose (summ : dict recall_stats) log
    (lists : dict (list Q)) :
  lists_in_unit lists →
  Forall (fun entry => stats_in_unit entry.2) summ →
  Forall (fun entry => stats_in_unit entry.2)
    (foldl (summarize verbose) (summ, log) lists).1.
Proof.
  intros Hl. revert summ log.
  induction Hl as [|[key recalls] lists Hr _ IH]; intros summ log Hs; [done|].
  simpl. destruct recalls as [|x xs]; [by apply IH|].
  apply IH. apply dict_set_Forall; [done|]. intros ?.
  by apply stats_of_in_unit.
Qed.

End unit_interval_facts.

Lemma occurrences_elem (k : Z) (Ks : list Z) :
  k ∈ Ks → ∃ m, occurrences k Ks = S m.
Proof.
  intros Hk. unfold occurrences.
  destruct (filter (eq k) Ks) as [|k' l] eqn:Hf; [|by eexists].
  assert (k ∈ filter (eq k) Ks) as Hin by (by apply list_elem_of_filter).
  rewrite Hf in Hin. by apply elem_of_nil in Hin.
Qed.




(** ** Retrieval *)

Section retrieval_facts.
Import AssessmentRetriever.

Lemma res_bind_Ok {A B} (m : res A) (f : A → res B) (b : B) :
  m ≫= f = Ok b → ∃ a, m = Ok a ∧ f a = Ok b.
Proof. destruct m as [a|e]; [eauto | done]. Qed.

Ltac invert_binds H :=
  repeat (apply res_bind_Ok in H as (? & ? & H)).

Ltac solve_subscripts :=
  repeat match goal with
  | H : subscript _ _ = Ok _ |- _ =>
      unfold subscript in H;
      match type of H with
      | match ?o with _ => _ end = _ =>
          let E := fresh "E" in
          destruct o eqn:E; [injection H as <- | discriminate H]
      end
  end.

Lemma assessment_of_retrieve_faithful : faithful assessment_of_retrieve.
Proof.
  intros i doc metadata distance assessment Hb.
  unfold assessment_of_retrieve in Hb. invert_binds Hb.
  injection Hb as <-. solve_subscripts.
  split; [done|]. split; [done|]. by repeat constructor.
Qed.

Lemma assessment_of_query_faithful : faithful assessment_of_query.
Proof.
  intros i doc metadata distance assessment Hb.
  unfold assessment_of_query in Hb. invert_binds Hb.
  injection Hb as <-. solve_subscripts.
  split; [done|]. split; [done|]. by repeat constructor.
Qed.

Ltac use_fields H :=
  repeat match type of H with
  | Forall _ (_ :: _) =>
      let Hk := fresh "Hk" in
      apply Forall_cons in H as [[? Hk] H];
      unfold subscript; rewrite Hk; simpl
  end.

Lemma assessment_of_retrieve_succeeds : succeeds assessment_of_retrieve.
Proof.
  intros i doc metadata distance Hm.
  unfold complete_metadata, metadata_fields in Hm.
  unfold assessment_of_retrieve. use_fields Hm. eauto.
Qed.

Lemma assessment_of_query_succeeds : succeeds assessment_of_query.
Proof.
  intros i doc metadata distance Hm.
  unfold complete_metadata, metadata_fields in Hm.
  unfold assessment_of_query. use_fields Hm. eauto.
Qed.

(** The formatting loop keeps every row, in order. *)
Lemma format_results_rows build i rows result :
  format_results build i rows = Ok result →
  Forall2 (fun '(j, (doc, metadata, distance)) assessment =>
             build j doc metadata distance = Ok assessment)
    (zip (seq i (length rows)) rows) result.
Proof.
  revert i result. induction rows as [|[[doc md] dist] rows IH];
    intros i result Hf; simpl in Hf.
  { injection Hf as <-. constructor. }
  invert_binds Hf. injection Hf as <-. simpl.
  constructor; [done|]. by apply IH.
Qed.

Lemma format_results_total build i rows :
  succeeds build →
  Forall (fun row => complete_metadata row.1.2) rows →
  ∃ result, format_results build i rows = Ok result.
Proof.
  intros Hb Hrows. revert i.
  induction Hrows as [|[[doc md] dist] rows Hmd _ IH]; intros i; simpl.
  { by eexists. }
  destruct (Hb i doc md dist Hmd) as [a ->].
  destruct (IH (S i)) as [result ->]. simpl. by eexists.
Qed.

Lemma format_results_length build i rows result :
  format_results build i rows = Ok result → length result = length rows.
Proof.
  intros Hf. apply format_results_rows, Forall2_length in Hf.
  rewrite length_zip_with, length_seq in Hf. lia.
Qed.

Lemma format_results_lookup build i rows result j doc metadata distance :
  format_results build i rows = Ok result →
  rows !! j = Some (doc, metadata, distance) →
  ∃ assessment,
    result !! j = Some assessment
    ∧ build (i + j)%nat doc metadata distance = Ok assessment.
Proof.
  intros Hf Hj. apply format_results_rows in Hf.
  assert (zip (seq i (length rows)) rows !! j
          = Some ((i + j)%nat, (doc, metadata, distance))) as Hz.
  { apply lookup_zip_with_Some. eexists _, _. split; [done|]. split; [|done].
    apply lookup_seq. split; [done|]. by eapply lookup_lt_Some. }
  destruct (Forall2_lookup_l _ _ _ _ _ Hf Hz) as (a & Ha & Hb).
  by exists a.
Qed.

Lemma format_results_scores build i rows result :
  faithful build →
  format_results build i rows = Ok result →
  similarity_scores result = map (fun row => (1 - row.2)%Q) rows.
Proof.
  intros Hb Hf. apply format_results_rows in Hf.
  revert i result Hf. induction rows as [|[[doc md] dist] rows IH];
    intros i result Hf; simpl in Hf.
  { by inv Hf. }
  inv Hf. simpl. unfold similarity_scores. simpl.
  match goal with H : build _ _ _ _ = Ok _ |- _ =>
    apply Hb in H as (_ & Hs & _) end.
  unfold score_of at 1. rewrite Hs. simpl. f_equal. by eapply IH.
Qed.

Lemma zip_results_distances r :
  (zip_results r).*2 `prefix_of` distances r.
Proof.
  unfold zip_results. generalize (zip (documents r) (metadatas r)).
  intros l. revert l. induction (distances r) as [|d ds IH]; intros l.
  - destruct l; simpl; apply prefix_nil.
  - destruct l as [|x l]; simpl; [apply prefix_nil|].
    apply prefix_cons, IH.
Qed.

Lemma Sorted_prefix {A} (R : relation A) (l1 l2 : list A) :
  l1 `prefix_of` l2 → Sorted R l2 → Sorted R l1.
Proof.
  intros [k ->]. induction l1 as [|x l1 IH]; simpl; [constructor|].
  intros Hs. apply Sorted_inv in Hs as [Hs Hhd].
  constructor; [by apply IH|].
  destruct l1; simpl in *; [constructor|]. inv Hhd. by constructor.
Qed.

Lemma scores_non_increasing build r result :
  faithful build →
  Sorted Qle (distances r) →
  format_results build 0 (zip_results r) = Ok result →
  length (similarity_scores result) = length result
  ∧ Sorted (flip Qle) (similarity_scores result).
Proof.
  intros Hb Hsorted Hf.
  rewrite (format_results_scores build 0 _ result Hb Hf).
  split.
  - rewrite length_map. symmetry. by eapply format_results_length.
  - replace (map (fun row => (1 - row.2)%Q) (zip_results r))
      with ((fun d => (1 - d)%Q) <$> (zip_results r).*2)
      by (by rewrite <- list_fmap_compose).
    eapply Sorted_fmap;
      [|eapply Sorted_prefix; [apply zip_results_distances | done]].
    intros x y Hxy. unfold flip. lra.
Qed.

End retrieval_facts.

Lemma sample_index_contract : index_contract sample_retriever.
Proof.
  intros embedding k r. simpl. case_decide as Hk; [|done].
  intros [= <-]. simpl. split.
  - rewrite length_take. simpl. lia.
  - destruct (Z.to_nat k) as [|[|[|n]]]; simpl; rewrite ?take_nil;
      repeat first [apply Sorted_nil | apply Sorted_cons
                   | apply HdRel_nil | apply HdRel_cons]; by vm_compute.
Qed.

Lemma retrieval_in_order
    (build : nat → string → pydict → Q → res pydict)
    (r : AssessmentRetriever.query_result) :
  faithful build → succeeds build →
  Forall complete_metadata (AssessmentRetriever.metadatas r) →
  ∃ result,
    AssessmentRetriever.format_results build 0
      (AssessmentRetriever.zip_results r) = Ok result
    ∧ neighbours_formatted r result.
Proof.
  intros Hfaithful Hsucceeds Hmd.
  destruct (format_results_total build 0 (AssessmentRetriever.zip_results r))
    as [result Hres]; [done| |].
  { apply Forall_forall. intros [[doc md] dist] Hin. simpl.
    rewrite Forall_forall in Hmd. apply Hmd.
    unfold AssessmentRetriever.zip_results in Hin.
    apply elem_of_zip_l in Hin. simpl in Hin.
    by apply elem_of_zip_r in Hin. }
  exists result. split; [done|]. unfold neighbours_formatted. cbv zeta.
  split; [by eapply format_results_length|].
  split.
  { unfold AssessmentRetriever.zip_results. by rewrite !length_zip_with. }
  intros j doc md dist Hj.
  destruct (format_results_lookup _ _ _ _ _ _ _ _ Hres Hj) as (a & Ha & Hb).
  exists a. split; [done|]. by apply Hfaithful in Hb.
Qed.

(** C3. Against an index that answers a query for [k] neighbours with at
    most [k] of them by ascending distance, the list returned by
    [retrieve] (and by [retrieve_by_query]) has at most [k] entries, every
    entry carries a score, and the scores are non-increasing from rank 1
    to the last rank; [k] is the [top_k] argument, or the configured one
    when the argument is [None]. *)
Theorem retrieve_at_most_k_non_increasing
    (self : AssessmentRetriever.t) (job_title : string)
    (skills : list string) (experience_level : string)
    (additional_context : option string) (query : string)
    (top_k : option Z) :
  index_contract self →
  let k := default (AssessmentRetriever.top_k self) top_k in
  (∀ result,
     AssessmentRetriever.retrieve self job_title skills experience_level
       additional_context top_k = Ok result →
     Z.of_nat (length result) ≤ k
     ∧ length (similarity_scores result) = length result
     ∧ Sorted (flip Qle) (similarity_scores result))
  ∧ (∀ result,
       AssessmentRetriever.retrieve_by_query self query top_k = Ok result →
       Z.of_nat (length result) ≤ k
       ∧ length (similarity_scores result) = length result
       ∧ Sorted (flip Qle) (similarity_scores result)).
Proof.
  intros Hindex k.
  assert (∀ build embedding result,
            faithful build →
            (AssessmentRetriever.collection_query self embedding k
               ≫= fun r =>
                  AssessmentRetriever.format_results build 0
                    (AssessmentRetriever.zip_results r)) = Ok result →
            Z.of_nat (length result) ≤ k
            ∧ length (similarity_scores result) = length result
            ∧ Sorted (flip Qle) (similarity_scores result)) as Hboth.
  { intros build embedding result Hbuild Hres.
    apply res_bind_Ok in Hres as (r & Hr & Hres).
    destruct (Hindex _ _ _ Hr) as [Hlen Hsorted].
    split; [|by eapply scores_non_increasing].
    rewrite (format_results_length _ _ _ _ Hres).
    pose proof (prefix_length _ _ (zip_results_distances r)) as Hp.
    rewrite length_fmap in Hp. lia. }
  split; intros result Hres.
  - by eapply Hboth; [apply assessment_of_retrieve_faithful|].
  - by eapply Hboth; [apply assessment_of_query_faithful|].
Qed.

Lemma retrieve_at_most_k_non_increasing_witness :
  ∃ result,
    AssessmentRetriever.retrieve sample_retriever "Analyst" ["Excel"] "Mid"
      None (Some 2) = Ok result
    ∧ length result = 2%nat
    ∧ Z.of_nat (length result) ≤ 2
    ∧ length (similarity_scores result) = length result
    ∧ Sorted (flip Qle) (similarity_scores result).
Proof.
  eexists. split; [by vm_compute|]. split; [done|].
  refine (proj1 (retrieve_at_most_k_non_increasing sample_retriever
                   "Analyst" ["Excel"] "Mid" None "" (Some 2)
                   sample_index_contract) _ _).
  by vm_compute.
Defined.

(** C4. [retrieve] and [retrieve_by_query] turn the neighbours the index
    returned into the result list one for one and in the index's order:
    the entry at position [j] has rank [j + 1], score [1 - distance] and
    the neighbour's metadata fields. Nothing is filtered by score: the
    result is as long as the neighbour list, whatever the distances. (The
    neighbours' metadata must carry the catalogue fields the functions
    subscript.) *)
Theorem retrieve_ranks_scores_no_filter
    (self : AssessmentRetriever.t) (job_title : string)
    (skills : list string) (experience_level : string)
    (additional_context : option string) (query : string)
    (top_k : option Z) :
  let k := default (AssessmentRetriever.top_k self) top_k in
  let query_text :=
    AssessmentRetriever.build_query_text job_title skills experience_level
      additional_context in
  (∀ r,
     AssessmentRetriever.collection_query self
       (AssessmentRetriever.encode_query self query_text) k = Ok r →
     Forall complete_metadata (AssessmentRetriever.metadatas r) →
     ∃ result,
       AssessmentRetriever.retrieve self job_title skills experience_level
         additional_context top_k = Ok result
       ∧ neighbours_formatted r result)
  ∧ (∀ r,
       AssessmentRetriever.collection_query self
         (AssessmentRetriever.encode_query self query) k = Ok r →
       Forall complete_metadata (AssessmentRetriever.metadatas r) →
       ∃ result,
         AssessmentRetriever.retrieve_by_query self query top_k = Ok result
         ∧ neighbours_formatted r result).
Proof.
  intros k query_text. split; intros r Hr Hmd.
  - unfold AssessmentRetriever.retrieve. fold query_text k. rewrite Hr.
    apply retrieval_in_order;
      [apply assessment_of_retrieve_faithful
      |apply assessment_of_retrieve_succeeds | done].
  - unfold AssessmentRetriever.retrieve_by_query. fold k. rewrite Hr.
    apply retrieval_in_order;
      [apply assessment_of_query_faithful
      |apply assessment_of_query_succeeds | done].
Qed.

Lemma retrieve_ranks_scores_no_filter_witness :
  ∃ r result,
    AssessmentRetriever.collection_query sample_retriever
      (AssessmentRetriever.encode_query sample_retriever "sales manager") 3
    = Ok r
    ∧ AssessmentRetriever.retrieve_by_query sample_retriever "sales manager"
        (Some 3) = Ok result
    ∧ length result = 3%nat
    ∧ similarity_scores result = [9 # 10; 7 # 10; -1 # 5]%Q
    ∧ neighbours_formatted r result.
Proof.
  eexists. 
  destruct (proj2 (retrieve_ranks_scores_no_filter sample_retriever
                     "" [] "" None "sales manager" (Some 3)) _ eq_refl)
    as (result & Hres & Hfmt).
  { by repeat constructor; vm_compute; eauto. }
  exists result. split; [done|]. split; [done|].
  vm_compute in Hres. injection Hres as <-.
  split; [done|]. split; [by vm_compute | done].
Defined.

(** ** Recommendation *)

(** A client that raises makes the generation step raise, whatever the
    prompt and the configuration. *)
Lemma chat_completion_raises
    (self : AssessmentRecommender.t) create (prompt : string) :
  (∀ request, ∃ e, create request = Raise e) →
  ∃ e, AssessmentRecommender.chat_completion self create prompt = Raise e.
Proof.
  intros Hcreate. unfold AssessmentRecommender.chat_completion.
  repeat match goal with
  | |- ∃ e, (subscript ?d ?k ≫= _) = Raise e =>
      destruct (subscript d k); simpl; [|by eexists]
  end.
  match goal with
  | |- ∃ e, (create ?request ≫= _) = Raise e =>
      destruct (Hcreate request) as [e ->]
  end.
  by eexists.
Qed.

Lemma generate_raises
    (self : AssessmentRecommender.t) create job_title skills experience_level
    additional_context query retrieved :
  (∀ request, ∃ e, create request = Raise e) →
  (∃ e, AssessmentRecommender.generate self create job_title skills
          experience_level additional_context retrieved = Raise e)
  ∧ (∃ e, AssessmentRecommender.generate_simple self create query retrieved
          = Raise e).
Proof.
  intros Hcreate.
  unfold AssessmentRecommender.generate, AssessmentRecommender.generate_simple.
  split.
  - destruct (AssessmentRecommender._build_llm_prompt _ _ _ _ _ _)
      as [prompt|e]; simpl; [|by eexists].
    by apply chat_completion_raises.
  - destruct (AssessmentRecommender.simple_prompt _ _ _)
      as [prompt|e]; simpl; [|by eexists].
    by apply chat_completion_raises.
Qed.

(** C7. When the generation step of [recommend] raises, whatever the
    exception, [recommend] still returns, with the retrieved list
    unchanged under [retrieved_assessments] and [llm_recommendations] set
    to [None]; the same holds for [recommend_simple] whenever its
    generation step runs, that is, when something was retrieved. The
    generation step does raise whenever the external call does. *)
Theorem generation_failure_keeps_retrieval
    (self : AssessmentRecommender.t)
    (create : AssessmentRecommender.chat_request → res (list pyval)) :
  AssessmentRecommender.client self = Some create →
  (∀ now job_title skills experience_level additional_context retrieved e,
     AssessmentRetriever.retrieve (AssessmentRecommender.retriever self)
       job_title skills experience_level additional_context None
     = Ok retrieved →
     AssessmentRecommender.generate self create job_title skills
       experience_level additional_context retrieved = Raise e →
     ∃ response,
       AssessmentRecommender.recommend self now job_title skills
         experience_level additional_context true = Ok response
       ∧ dict_get response "retrieved_assessments"
         = Some (VList (map VDict retrieved))
       ∧ dict_get response "retrieval_count"
         = Some (VInt (Z.of_nat (length retrieved)))
       ∧ dict_get response "llm_recommendations" = Some VNone)
  ∧ (∀ query retrieved e,
       AssessmentRetriever.retrieve_by_query
         (AssessmentRecommender.retriever self) query None = Ok retrieved →
       retrieved ≠ [] →
       AssessmentRecommender.generate_simple self create query retrieved
       = Raise e →
       ∃ response,
         AssessmentRecommender.recommend_simple self query true = Ok response
         ∧ dict_get response "retrieved_assessments"
           = Some (VList (map VDict retrieved))
         ∧ dict_get response "retrieval_count"
           = Some (VInt (Z.of_nat (length retrieved)))
         ∧ dict_get response "llm_recommendations" = Some VNone)
  ∧ ((∀ request, ∃ e, create request = Raise e) →
     ∀ job_title skills experience_level additional_context query retrieved,
       (∃ e, AssessmentRecommender.generate self create job_title skills
               experience_level additional_context retrieved = Raise e)
       ∧ (∃ e, AssessmentRecommender.generate_simple self create query
                 retrieved = Raise e)).
Proof.
  intros Hclient. split; [|split]; [| |intros; by apply generate_raises].
  - intros now job_title skills experience_level additional_context
      retrieved e Hretrieved Hgenerate.
    unfold AssessmentRecommender.recommend.
    rewrite Hretrieved, Hclient. simpl.
    destruct retrieved as [|a retrieved]; [by eexists|].
    rewrite Hgenerate. by eexists.
  - intros query retrieved e Hretrieved Hne Hgenerate.
    unfold AssessmentRecommender.recommend_simple.
    rewrite Hretrieved, Hclient. simpl.
    destruct retrieved as [|a retrieved]; [done|].
    rewrite Hgenerate. by eexists.
Qed.

Lemma generation_failure_keeps_retrieval_witness :
  ∃ retrieved response,
    AssessmentRetriever.retrieve_by_query sample_retriever "sales manager"
      None = Ok retrieved
    ∧ length retrieved = 2%nat
    ∧ AssessmentRecommender.recommend_simple sample_recommender
        "sales manager" true = Ok response
    ∧ dict_get response "retrieved_assessments"
      = Some (VList (map VDict retrieved))
    ∧ dict_get response "retrieval_count"
      = Some (VInt (Z.of_nat (length retrieved)))
    ∧ dict_get response "llm_recommendations" = Some VNone.
Proof.
  eexists.
  destruct (proj1 (proj2 (generation_failure_keeps_retrieval
                            sample_recommender _ eq_refl))
              "sales manager" _ (RuntimeError "quota exceeded") eq_refl)
    as (response & Hresponse);
    [done | by vm_compute |].
  exists response. split; [done|]. split; [done|]. exact Hresponse.
Defined.

(** ** Prediction export *)

Section export_facts.
Import MeanRecallAtKEvaluator.

Lemma assessment_url_dict (assessment : pydict) :
  assessment_url (VDict assessment) = Ok (url_of assessment).
Proof.
  unfold assessment_url, url_of, py_or. simpl.
  by destruct (truthy (default VNone (dict_get assessment "url"))).
Qed.

Lemma rows_of_assessments_dicts display (assessments : list pydict) :
  rows_of_assessments display (map VDict assessments)
  = Ok (map (fun a => (display, url_of a)) (filter has_url assessments)).
Proof.
  induction assessments as [|a assessments IH]; [done|].
  simpl. rewrite assessment_url_dict. simpl. rewrite IH. simpl.
  rewrite filter_cons. case_decide as Hurl; unfold has_url in Hurl.
  - by rewrite Hurl.
  - by destruct (truthy (url_of a)).
Qed.

Lemma prediction_rows_typed
    (predictions : dict (list pydict)) (query_mapping : option (dict string)) :
  prediction_rows (typed_predictions predictions) query_mapping
  = Ok (expected_rows predictions query_mapping).
Proof.
  induction predictions as [|[query_id assessments] predictions IH]; [done|].
  simpl. rewrite rows_of_assessments_dicts. simpl. by rewrite IH.
Qed.

End export_facts.

(** C8 (amended). [generate_predictions_csv] writes a table with the two
    columns [Query] and [Assessment_URL] holding, query after query in the
    order of the predictions map and within a query in the order of its
    list, one row per recommended item that has a non-empty [url] or
    [assessment_url]; items without one produce no row. (A table that
    cannot be written leaves the files unchanged and [None] is
    returned.) *)
Theorem generate_predictions_csv_rows
    (fs : filesystem) (output_file : string)
    (predictions : dict (list pydict))
    (query_mapping : option (dict string)) :
  let rows := expected_rows predictions query_mapping in
  let '(returned, fs', log) :=
    MeanRecallAtKEvaluator.generate_predictions_csv fs output_file
      (typed_predictions predictions) query_mapping in
  if decide (output_file ∈ fs_unwritable fs)
  then returned = None ∧ fs' = fs
  else
    returned = Some output_file
    ∧ fs_files fs' !! output_file
      = Some (CsvFile ["Query"; "Assessment_URL"] rows)
    ∧ (∀ path, path ≠ output_file →
               fs_files fs' !! path = fs_files fs !! path)
    ∧ length rows
      = length (filter (fun pair => has_url pair.2)
                  (prediction_pairs predictions)).
Proof.
  unfold MeanRecallAtKEvaluator.generate_predictions_csv.
  rewrite prediction_rows_typed. simpl. unfold fs_write.
  case_decide as Hw; simpl; [done|].
  split; [done|]. split; [by rewrite lookup_insert_eq|].
  split; [intros path Hpath; by rewrite lookup_insert_ne|].
  unfold expected_rows, prediction_pairs.
  induction predictions as [|[query_id assessments] predictions IH]; [done|].
  simpl. rewrite filter_app, !length_app, IH. f_equal.
  rewrite length_map. clear IH.
  induction assessments as [|a assessments IH]; [done|].
  simpl. rewrite !filter_cons. simpl.
  case_decide; simpl; by rewrite IH.
Qed.

(** The items returned by the structured [retrieve] have neither key, so a
    map holding two of them for a query is exported with no row at all. *)
Lemma export_drops_items_without_url :
  ∃ retrieved fs' log,
    AssessmentRetriever.retrieve sample_retriever "Analyst" ["Excel"] "Mid"
      None None = Ok retrieved
    ∧ length (prediction_pairs [("analyst", retrieved)]) = 2%nat
    ∧ MeanRecallAtKEvaluator.generate_predictions_csv empty_filesystem
        "predictions.csv" (typed_predictions [("analyst", retrieved)]) None
      = (Some "predictions.csv", fs', log)
    ∧ fs_files fs' !! "predictions.csv"
      = Some (CsvFile ["Query"; "Assessment_URL"] []).
Proof.
  eexists. eexists. eexists.
  split; [by vm_compute|]. split; [done|]. split; [by vm_compute|].
  by vm_compute.
Qed.

(** ** Catalogue text *)

Lemma create_full_text_template
    (assessment : dict string)
    (name category description skills jobs levels : string) :
  dict_get assessment "name" = Some name →
  dict_get assessment "category" = Some category →
  dict_get assessment "description" = Some description →
  dict_get assessment "skills_measured" = Some skills →
  dict_get assessment "job_suitability" = Some jobs →
  dict_get assessment "experience_level" = Some levels →
  AssessmentParser._create_full_text assessment
  = Ok (full_text_template name category description skills jobs levels).
Proof.
  intros Hn Hc Hd Hs Hj Hl.
  unfold AssessmentParser._create_full_text, subscript.
  rewrite Hn, Hc, Hd, Hs, Hj, Hl. by vm_compute.
Qed.

(** C9. The record built by [parse_assessment] carries a [full_text] equal
    to the template "Assessment: <name> | Category: <category> |
    Description: <description> | Skills Measured: <skills> | Suitable
    for: <jobSuitability> | Experience Levels: <experienceLevel>"
    instantiated with the record's own six fields, in that order; and
    [_create_full_text] returns that template on any record carrying the
    six fields. *)
Theorem full_text_follows_template
    (clean_text : pyval → string) (assessment : pydict)
    (parsed : dict string) :
  AssessmentParser.parse_assessment clean_text assessment = Ok parsed →
  (∃ name category description skills jobs levels,
     dict_get parsed "name" = Some name
     ∧ dict_get parsed "category" = Some category
     ∧ dict_get parsed "description" = Some description
     ∧ dict_get parsed "skills_measured" = Some skills
     ∧ dict_get parsed "job_suitability" = Some jobs
     ∧ dict_get parsed "experience_level" = Some levels
     ∧ dict_get parsed "full_text"
       = Some (full_text_template name category description skills jobs
                 levels)
     ∧ AssessmentParser._create_full_text parsed
       = Ok (full_text_template name category description skills jobs
               levels)).
Proof.
  unfold AssessmentParser.parse_assessment. intros Hparse.
  apply res_bind_Ok in Hparse as (skills & _ & Hparse).
  apply res_bind_Ok in Hparse as (jobs & _ & Hparse).
  apply res_bind_Ok in Hparse as (levels & _ & Hparse).
  apply res_bind_Ok in Hparse as (full_text & Hfull & Hparse).
  injection Hparse as <-.
  erewrite create_full_text_template in Hfull by reflexivity.
  apply (f_equal (fun r => match r with Ok t => t | Raise _ => "" end))
    in Hfull.
  cbv beta iota in Hfull. subst full_text.
  do 6 eexists. do 7 (split; [reflexivity|]).
  by apply create_full_text_template.
Qed.

Lemma full_text_follows_template_witness :
  ∃ parsed,
    AssessmentParser.parse_assessment
      (fun v => match v with VStr s => s | _ => "" end)
      [("name", VStr "Numerical Reasoning");
       ("category", VStr "Cognitive");
       ("description", VStr "Measures numeracy");
       ("skills_measured", VList [VStr "numeracy"; VStr "data"]);
       ("job_suitability", VList [VStr "Analyst"]);
       ("experience_level", VList [VStr "Entry"; VStr "Mid"])] = Ok parsed
    ∧ dict_get parsed "full_text"
      = Some "Assessment: Numerical Reasoning | Category: Cognitive | Description: Measures numeracy | Skills Measured: numeracy, data | Suitable for: Analyst | Experience Levels: Entry, Mid".
Proof.
  match goal with
  | |- ∃ parsed, ?parse = Ok parsed ∧ _ =>
      destruct parse as [parsed|] eqn:Hparse; [|by vm_compute in Hparse]
  end.
  exists parsed. split; [done|].
  destruct (full_text_follows_template _ _ _ Hparse)
    as (name & category & description & skills & jobs & levels
        & Hn & Hc & Hd & Hs & Hj & Hl & Hfull & _).
  vm_compute in Hparse. injection Hparse as <-.
  vm_compute in Hn, Hc, Hd, Hs, Hj, Hl.
  injection Hn as <-. injection Hc as <-. injection Hd as <-.
  injection Hs as <-. injection Hj as <-. injection Hl as <-.
  exact Hfull.
Defined.

(** ** The evaluation pipeline *)

Lemma call_with_top_k (self : AssessmentRecommender.t) (query : string) :
  AssessmentRecommender.call_recommend_simple self query [("top_k", VInt 10)]
  = Raise unexpected_top_k.
Proof. reflexivity. Qed.

(** What [recommend_simple] returns is a dictionary whose first key is
    [query]. *)
Lemma recommend_simple_returns_dict
    (self : AssessmentRecommender.t) (query : string) (use_llm : bool)
    (response : pydict) :
  AssessmentRecommender.recommend_simple self query use_llm = Ok response →
  ∃ rest, response = ("query", VStr query) :: rest.
Proof.
  unfold AssessmentRecommender.recommend_simple. intros Hr.
  apply res_bind_Ok in Hr as (retrieved & _ & Hr).
  destruct retrieved; injection Hr as <-; by eexists.
Qed.

(** C10. With at least one ground-truth query loaded,
    [run_full_evaluation] raises the [TypeError] of calling
    [recommend_simple] with the keyword [top_k], which its signature
    [(query, use_llm)] does not have: every such call raises, so does the
    loop over the test queries, and no result is produced. Moreover what
    [recommend_simple] returns is a dictionary: iterating it yields its
    keys, strings without a [get] method, so the pipeline's comprehension
    over the returned value raises [AttributeError]. *)
Theorem pipeline_prediction_interface_fails
    (self : EvaluationPipeline.t)
    (load_training_data : string → dict (list string))
    (fs : filesystem) (training_data_file : string)
    (test_data_file : option string) (output_dir : string) :
  load_training_data training_data_file ≠ [] →
  EvaluationPipeline.run_full_evaluation self load_training_data fs
    training_data_file test_data_file output_dir = Raise unexpected_top_k
  ∧ (∀ query,
       AssessmentRecommender.call_recommend_simple
         (EvaluationPipeline.recommender self) query [("top_k", VInt 10)]
       = Raise unexpected_top_k)
  ∧ (∀ test_data test_predictions,
       test_data ≠ [] →
       EvaluationPipeline._generate_test_predictions self test_data
         test_predictions = Raise unexpected_top_k)
  ∧ (∀ query use_llm response,
       AssessmentRecommender.recommend_simple
         (EvaluationPipeline.recommender self) query use_llm = Ok response →
       EvaluationPipeline.predicted_urls (VDict response)
       = Raise (AttributeError "object has no attribute 'get'")).
Proof.
  intros Hloaded. split.
  { unfold EvaluationPipeline.run_full_evaluation.
    destruct (load_training_data training_data_file)
      as [|[query_id urls] ground_truth]; [done|].
    reflexivity. }
  split; [intros query; apply call_with_top_k|].
  split.
  { intros [|[query_id urls] test_data] test_predictions Hne; [done|].
    reflexivity. }
  intros query use_llm response Hresponse.
  apply recommend_simple_returns_dict in Hresponse as [rest ->].
  reflexivity.
Qed.

Lemma pipeline_prediction_interface_fails_witness :
  EvaluationPipeline.run_full_evaluation
    (EvaluationPipeline.init sample_recommender)
    (fun _ => [("sales manager", ["https://catalog.example/A"])])
    empty_filesystem "training.csv" None "evaluation_results"
  = Raise unexpected_top_k.
Proof.
  refine (proj1 (pipeline_prediction_interface_fails
                   (EvaluationPipeline.init sample_recommender)
                   (fun _ => [("sales manager", ["https://catalog.example/A"])])
                   empty_filesystem "training.csv" None "evaluation_results"
                   _)).
  discriminate.
Defined.

(** ** Recall@K as a function of the cut-off *)

Section recall_order_facts.
Context `{Countable A}.
Implicit Types predicted ground_truth : list A.

Lemma Qdiv_Z_le (a b c : Z) :
  (a ≤ b)%Z → (0 < c)%Z →
  (inject_Z a / inject_Z c <= inject_Z b / inject_Z c)%Q.
Proof.
  intros Hab Hc. unfold Qdiv. apply Qmult_le_compat_r.
  - by rewrite <- Zle_Qle.
  - apply Qinv_le_0_compat. change 0%Q with (inject_Z 0).
    rewrite <- Zle_Qle. lia.
Qed.

Lemma Qdiv_Z_eq (a b c : Z) :
  (0 < b)%Z → (inject_Z a / inject_Z b == inject_Z c)%Q ↔ a = (c * b)%Z.
Proof.
  intros Hb. destruct b as [|p|p]; [lia| |lia].
  unfold Qdiv, Qeq, Qmult, Qinv, inject_Z. simpl. lia.
Qed.

Lemma size_ground_truth_pos g0 (g : list A) :
  (0 < Z.of_nat (size (list_to_set (g0 :: g) : gset A)))%Z.
Proof.
  assert (size (list_to_set (g0 :: g) : gset A) ≠ 0%nat); [|lia].
  intros Hz. apply size_empty_inv in Hz.
  assert (g0 ∈ (list_to_set (g0 :: g) : gset A)) as Hin.
  { apply elem_of_list_to_set, list_elem_of_here. }
  rewrite Hz in Hin. by apply not_elem_of_empty in Hin.
Qed.

(** A prefix that holds more of the items gives at least the recall. *)
Lemma recall_prefix_subset predicted predicted' ground_truth (k k' : Z) :
  (∀ u, u ∈ py_slice_to predicted k → u ∈ py_slice_to predicted' k') →
  (MeanRecallAtKEvaluator.calculate_recall_at_k predicted ground_truth k
   <= MeanRecallAtKEvaluator.calculate_recall_at_k predicted' ground_truth k')%Q.
Proof.
  intros Hsub. unfold MeanRecallAtKEvaluator.calculate_recall_at_k.
  destruct ground_truth as [|g0 g]; [apply Qle_refl|].
  apply Qdiv_Z_le; [|apply size_ground_truth_pos].
  apply inj_le, subseteq_size. intros u.
  rewrite !elem_of_intersection, !elem_of_list_to_set.
  intros [Hu Hg]. split; [by apply Hsub | done].
Qed.

Lemma py_slice_to_mono predicted (k k' : Z) u :
  0 ≤ k ≤ k' → u ∈ py_slice_to predicted k → u ∈ py_slice_to predicted k'.
Proof.
  intros Hk. rewrite !py_slice_to_nonneg by lia.
  intros Hu. apply list_elem_of_lookup in Hu as [i Hi].
  apply lookup_take_Some in Hi as [Hi Hlt].
  apply list_elem_of_lookup. exists i. apply lookup_take_Some. split; [done|lia].
Qed.

Lemma recall_one predicted g0 (g : list A) (k : Z) :
  (MeanRecallAtKEvaluator.calculate_recall_at_k predicted (g0 :: g) k == 1)%Q
  ↔ ∀ u, u ∈ g0 :: g → u ∈ py_slice_to predicted k.
Proof.
  unfold MeanRecallAtKEvaluator.calculate_recall_at_k.
  change 1%Q with (inject_Z 1).
  rewrite Qdiv_Z_eq by apply size_ground_truth_pos.
  set (top := list_to_set (py_slice_to predicted k) : gset A).
  set (gts := list_to_set (g0 :: g) : gset A).
  split.
  - intros Hsize u Hu.
    assert (top ∩ gts = gts) as Heq.
    { apply set_subseteq_size_eq; [apply intersection_subseteq_r | lia]. }
    assert (u ∈ top ∩ gts) as Hin.
    { rewrite Heq. subst gts. by apply elem_of_list_to_set. }
    apply elem_of_intersection in Hin as [Hin _].
    subst top. by apply elem_of_list_to_set in Hin.
  - intros Hall. assert (top ∩ gts = gts) as ->; [|lia].
    apply set_eq. intros u. rewrite elem_of_intersection. subst top gts.
    rewrite !elem_of_list_to_set. split; [by intros [_ ?] | intros Hu].
    split; [by apply Hall | done].
Qed.

Lemma recall_zero predicted g0 (g : list A) (k : Z) :
  (MeanRecallAtKEvaluator.calculate_recall_at_k predicted (g0 :: g) k == 0)%Q
  ↔ ∀ u, u ∈ g0 :: g → u ∉ py_slice_to predicted k.
Proof.
  unfold MeanRecallAtKEvaluator.calculate_recall_at_k.
  change 0%Q with (inject_Z 0).
  rewrite Qdiv_Z_eq by apply size_ground_truth_pos.
  set (top := list_to_set (py_slice_to predicted k) : gset A).
  set (gts := list_to_set (g0 :: g) : gset A).
  split.
  - intros Hsize u Hu Htop.
    assert (top ∩ gts = ∅) as Heq by (apply leibniz_equiv, size_empty_inv; lia).
    assert (u ∈ top ∩ gts) as Hin.
    { apply elem_of_intersection. subst top gts.
      by rewrite !elem_of_list_to_set. }
    rewrite Heq in Hin. by apply not_elem_of_empty in Hin.
  - intros Hnone. assert (top ∩ gts = ∅) as ->; [|by rewrite size_empty].
    apply set_eq. intros u. rewrite elem_of_intersection. subst top gts.
    rewrite !elem_of_list_to_set. split; [|by intros ?%not_elem_of_empty].
    intros [Ht Hg]. by destruct (Hnone u Hg).
Qed.

End recall_order_facts.

(** X1. Recall never decreases when the cut-off grows: for
    [0 <= k <= k'], the recall at [k] is at most the recall at [k']
    ([recall@5 <= recall@10] for the default cut-offs). *)
Theorem recall_monotone_in_k
    (predicted ground_truth : list string) (k k' : Z) :
  0 ≤ k ≤ k' →
  (MeanRecallAtKEvaluator.calculate_recall_at_k predicted ground_truth k
   <= MeanRecallAtKEvaluator.calculate_recall_at_k predicted ground_truth k')%Q.
Proof.
  intros Hk. apply recall_prefix_subset. intros u. by apply py_slice_to_mono.
Qed.

Lemma recall_monotone_in_k_witness :
  (MeanRecallAtKEvaluator.calculate_recall_at_k
     ["a"; "b"; "c"] ["c"; "a"] 1
   <= MeanRecallAtKEvaluator.calculate_recall_at_k
        ["a"; "b"; "c"] ["c"; "a"] 3)%Q.
Proof. apply recall_monotone_in_k. lia. Defined.

(** X2. For a non-empty ground truth the recall is 1 exactly when every
    relevant item is among the predictions kept by the cut-off, and 0
    exactly when none is. *)
Theorem recall_one_iff_all_found
    (predicted ground_truth : list string) (k : Z) :
  ground_truth ≠ [] →
  ((MeanRecallAtKEvaluator.calculate_recall_at_k predicted ground_truth k
    == 1)%Q
   ↔ ∀ u, u ∈ ground_truth → u ∈ py_slice_to predicted k)
  ∧ ((MeanRecallAtKEvaluator.calculate_recall_at_k predicted ground_truth k
      == 0)%Q
     ↔ ∀ u, u ∈ ground_truth → u ∉ py_slice_to predicted k).
Proof.
  destruct ground_truth as [|g0 g]; [done|]. intros _.
  split; [apply recall_one | apply recall_zero].
Qed.

Lemma recall_one_iff_all_found_witness :
  (MeanRecallAtKEvaluator.calculate_recall_at_k
     ["a"; "b"; "c"] ["b"; "a"] 2 == 1)%Q.
Proof.
  apply (proj1 (recall_one_iff_all_found ["a"; "b"; "c"] ["b"; "a"] 2
                  ltac:(discriminate))).
  intros u Hu. vm_compute.
  apply elem_of_cons in Hu as [->|Hu];
    [apply list_elem_of_further, list_elem_of_here|].
  apply elem_of_cons in Hu as [->|Hu]; [apply list_elem_of_here|].
  by apply elem_of_nil in Hu.
Defined.

(** ** Order facts about rounding and the statistics *)

Section order_facts.
Local Open Scope Q_scope.

Lemma round_half_even_mono x y :
  x <= y → (round_half_even x ≤ round_half_even y)%Z.
Proof.
  intros Hxy.
  destruct (Z_le_gt_dec (round_half_even x) (round_half_even y)) as [|Hgt];
    [done|].
  pose proof (round_half_even_nearest x) as [Hx _].
  pose proof (round_half_even_nearest y) as [_ Hy].
  assert (inject_Z (round_half_even y) + 1 <= inject_Z (round_half_even x))
    as Hz.
  { change 1 with (inject_Z 1). rewrite <- inject_Z_plus, <- Zle_Qle. lia. }
  assert (x == y) as Heq by (apply Qle_antisym; lra).
  apply round_half_even_proper in Heq. lia.
Qed.

Lemma py_round_mono x y nd : x <= y → py_round x nd <= py_round y nd.
Proof.
  intros Hxy. unfold py_round.
  pose proof (inject_Z_pow10_pos nd) as HP.
  apply Qdiv_Z_le; [|apply pow10_pos].
  apply round_half_even_mono. apply Qmult_le_compat_r; lra.
Qed.

Lemma Qsum_mono (l l' : list Q) : Forall2 Qle l l' → Qsum l <= Qsum l'.
Proof. induction 1; simpl; [apply Qle_refl | lra]. Qed.

Lemma length_pos_Q {B} (l : list B) :
  l ≠ [] → 0 < inject_Z (Z.of_nat (length l)).
Proof.
  intros Hne. change 0 with (inject_Z 0). rewrite <- Zlt_Qlt.
  destruct l; [done | simpl; lia].
Qed.

Lemma np_mean_mono (l l' : list Q) :
  Forall2 Qle l l' → np_mean l <= np_mean l'.
Proof.
  intros Hl. unfold np_mean. rewrite <- (Forall2_length _ _ _ Hl).
  destruct l as [|x l].
  { inv Hl. apply Qle_refl. }
  pose proof (length_pos_Q (x :: l) ltac:(done)) as Hn.
  apply Qmult_le_compat_r; [by apply Qsum_mono|].
  apply Qinv_le_0_compat. lra.
Qed.

Lemma foldl_Qmin_mono (l l' : list Q) x x' :
  x <= x' → Forall2 Qle l l' → foldl Qmin x l <= foldl Qmin x' l'.
Proof.
  intros Hx Hl. revert x x' Hx.
  induction Hl as [|y y' l l' Hy _ IH]; intros x x' Hx; [done|].
  simpl. apply IH. by apply Q.min_le_compat.
Qed.

Lemma foldl_Qmax_mono (l l' : list Q) x x' :
  x <= x' → Forall2 Qle l l' → foldl Qmax x l <= foldl Qmax x' l'.
Proof.
  intros Hx Hl. revert x x' Hx.
  induction Hl as [|y y' l l' Hy _ IH]; intros x x' Hx; [done|].
  simpl. apply IH. by apply Q.max_le_compat.
Qed.

Lemma np_min_mono (l l' : list Q) : Forall2 Qle l l' → np_min l <= np_min l'.
Proof.
  destruct 1; simpl; [apply Qle_refl | by apply foldl_Qmin_mono].
Qed.

Lemma np_max_mono (l l' : list Q) : Forall2 Qle l l' → np_max l <= np_max l'.
Proof.
  destruct 1; simpl; [apply Qle_refl | by apply foldl_Qmax_mono].
Qed.

(** The minimum is below, the maximum above every item. *)
Lemma foldl_Qmin_lower (l : list Q) x :
  foldl Qmin x l <= x ∧ Forall (fun y => foldl Qmin x l <= y) l.
Proof.
  revert x. induction l as [|a l IH]; intros x; simpl.
  { split; [apply Qle_refl | constructor]. }
  destruct (IH (Qmin x a)) as [Hm Hl].
  pose proof (Q.le_min_l x a). pose proof (Q.le_min_r x a).
  split; [lra|]. constructor; [lra | done].
Qed.

Lemma foldl_Qmax_upper (l : list Q) x :
  x <= foldl Qmax x l ∧ Forall (fun y => y <= foldl Qmax x l) l.
Proof.
  revert x. induction l as [|a l IH]; intros x; simpl.
  { split; [apply Qle_refl | constructor]. }
  destruct (IH (Qmax x a)) as [Hm Hl].
  pose proof (Q.le_max_l x a). pose proof (Q.le_max_r x a).
  split; [lra|]. constructor; [lra | done].
Qed.

Lemma Qsum_lower (l : list Q) c :
  Forall (fun y => c <= y) l →
  inject_Z (Z.of_nat (length l)) * c <= Qsum l.
Proof.
  induction 1 as [|x l Hx _ IH]; simpl.
  - rewrite Qmult_0_l. apply Qle_refl.
  - rewrite Nat2Z.inj_succ, <- Z.add_1_r, inject_Z_plus.
    change (inject_Z 1) with 1. lra.
Qed.

Lemma Qsum_upper (l : list Q) c :
  Forall (fun y => y <= c) l →
  Qsum l <= inject_Z (Z.of_nat (length l)) * c.
Proof.
  induction 1 as [|x l Hx _ IH]; simpl.
  - rewrite Qmult_0_l. apply Qle_refl.
  - rewrite Nat2Z.inj_succ, <- Z.add_1_r, inject_Z_plus.
    change (inject_Z 1) with 1. lra.
Qed.

Lemma np_min_le_mean (l : list Q) : l ≠ [] → np_min l <= np_mean l.
Proof.
  intros Hne. pose proof (length_pos_Q l Hne) as Hn.
  destruct l as [|x l]; [done|].
  unfold np_mean. apply Qle_shift_div_l; [done|].
  rewrite Qmult_comm. apply Qsum_lower. simpl.
  destruct (foldl_Qmin_lower l x) as [Hx Hl]. by constructor.
Qed.

Lemma np_mean_le_max (l : list Q) : l ≠ [] → np_mean l <= np_max l.
Proof.
  intros Hne. pose proof (length_pos_Q l Hne) as Hn.
  destruct l as [|x l]; [done|].
  unfold np_mean. apply Qle_shift_div_r; [done|].
  rewrite Qmult_comm. apply Qsum_upper. simpl.
  destruct (foldl_Qmax_upper l x) as [Hx Hl]. by constructor.
Qed.

Lemma np_var_nonneg (l : list Q) : l ≠ [] → 0 <= np_var l.
Proof.
  intros Hne. unfold np_var.
  set (sq := map _ l).
  assert (sq ≠ []) as Hsq by (subst sq; by destruct l).
  pose proof (length_pos_Q sq Hsq) as Hn.
  unfold np_mean. apply Qle_shift_div_l; [done|]. rewrite Qmult_0_l.
  assert (Forall (fun y => 0 <= y) sq) as Hall.
  { subst sq. apply Forall_map, Forall_forall. intros x _.
    apply Qsquare_nonneg. }
  pose proof (Qsum_lower sq 0 Hall) as Hs. lra.
Qed.

End order_facts.

(** ** evaluate_system: what the dictionaries hold *)

Section evaluate_system_entries.
Import MeanRecallAtKEvaluator.
Context `{Countable A}.
Implicit Types (self : t) (r : results) (log : list log_record).
Implicit Types (preds : gmap string (list A)) (gt : dict (list A)).

Lemma set_metric_loop (f : Z → Q) (Ks : list Z) (d : dict Q) k :
  dict_get (foldl (fun d k => dict_set d (metric_key k) (f k)) d Ks)
    (metric_key k)
  = if decide (k ∈ Ks) then Some (f k) else dict_get d (metric_key k).
Proof.
  revert d. induction Ks as [|k0 Ks IH]; intros d; cbn [foldl].
  { by rewrite decide_False by apply not_elem_of_nil. }
  rewrite IH. destruct (decide (k ∈ Ks)) as [Hin|Hnin].
  { rewrite decide_True; [done | by apply list_elem_of_further]. }
  rewrite dict_get_set. destruct (decide (k = k0)) as [->|Hne].
  - rewrite decide_True by done.
    by rewrite decide_True by apply list_elem_of_here.
  - rewrite decide_False
      by (intros Heq; apply metric_key_inj in Heq; congruence).
    rewrite decide_False; [done|]. rewrite elem_of_cons. tauto.
Qed.

Lemma set_per_query_loop_same (f : Z → Q) (Ks : list Z)
    (per_query : dict (dict Q)) q :
  dict_get (foldl (fun per_query k =>
                     set_per_query per_query q (metric_key k) (f k))
              per_query Ks) q
  = match Ks with
    | [] => dict_get per_query q
    | _ :: _ =>
        Some (foldl (fun d k => dict_set d (metric_key k) (f k))
                (default [] (dict_get per_query q)) Ks)
    end.
Proof.
  revert per_query. induction Ks as [|k Ks IH]; intros per_query; [done|].
  simpl. rewrite IH. unfold set_per_query.
  rewrite !dict_get_set_eq. by destruct Ks.
Qed.

Lemma outer_loop_per_query_other self preds gt r log q :
  q ∉ gt.*1 →
  dict_get (per_query_recall (foldl (evaluate_query self preds) (r, log) gt).1)
    q
  = dict_get (per_query_recall r) q.
Proof.
  revert r log. induction gt as [|[q' urls] gt IH]; intros r log Hq; [done|].
  simpl in Hq. apply not_elem_of_cons in Hq as [Hne Hq].
  simpl. destruct (preds !! q') as [predicted|]; [|by apply IH].
  rewrite IH by done.
  rewrite inner_loop_per_query, set_per_query_loop_other; done.
Qed.

Lemma outer_loop_per_query_entry self preds gt r log q urls predicted :
  NoDup gt.*1 → (q, urls) ∈ gt → preds !! q = Some predicted →
  K_values self ≠ [] →
  dict_get (per_query_recall (foldl (evaluate_query self preds) (r, log) gt).1)
    q
  = Some (foldl (fun d k =>
                   dict_set d (metric_key k)
                     (calculate_recall_at_k predicted urls k))
            (default [] (dict_get (per_query_recall r) q)) (K_values self)).
Proof.
  intros Hnd Hin Hq HK. revert r log.
  induction gt as [|[q' urls'] gt IH]; intros r log.
  { by apply elem_of_nil in Hin. }
  simpl in Hnd. apply NoDup_cons in Hnd as [Hq' Hnd].
  apply elem_of_cons in Hin as [[= <- <-]|Hin]; simpl.
  - rewrite Hq. rewrite outer_loop_per_query_other by done.
    rewrite inner_loop_per_query, set_per_query_loop_same.
    by destruct (K_values self).
  - assert (q' ≠ q) as Hne.
    { intros ->. apply Hq'. apply list_elem_of_fmap. by exists (q, urls). }
    destruct (preds !! q') as [predicted'|]; [|by apply IH].
    rewrite IH by done. do 3 f_equal.
    rewrite inner_loop_per_query. by apply set_per_query_loop_other.
Qed.

(** Every entry of the summary is the statistics of a non-empty list. *)
Lemma summary_loop_Forall (P : recall_stats → Prop) verbose
    (summ : dict recall_stats) log (lists : dict (list Q)) :
  (∀ x xs, P (stats_of (x :: xs))) →
  Forall (fun entry => P entry.2) summ →
  Forall (fun entry => P entry.2)
    (foldl (summarize verbose) (summ, log) lists).1.
Proof.
  intros HP. revert summ log.
  induction lists as [|[key recalls] lists IH]; intros summ log Hs; [done|].
  simpl. destruct recalls as [|x xs]; [by apply IH|].
  apply IH. apply dict_set_Forall; [done|]. intros ?. apply HP.
Qed.

Lemma summary_lookup_inv self preds gt verbose k s :
  dict_get (summary (evaluate_system self preds gt verbose).1) (metric_key k)
  = Some s →
  per_query_recalls preds gt k ≠ []
  ∧ s = stats_of (per_query_recalls preds gt k).
Proof.
  rewrite evaluate_system_unfold. simpl.
  rewrite summary_loop_lookup
    by (apply outer_loop_keys_NoDup; simpl; apply NoDup_nil_2).
  rewrite outer_loop_lists, outer_loop_summary. simpl.
  destruct (occurrences k (K_values self)) as [|m].
  { by rewrite repeat_each_0. }
  destruct (per_query_recalls preds gt k) as [|x xs] eqn:Hrec; [done|].
  rewrite <- (stats_of_repeat_each m (x :: xs)) by done.
  destruct (repeat_each (S m) (x :: xs)) as [|y ys] eqn:Hrep; [done|].
  intros [= <-]. done.
Qed.

Lemma per_query_recalls_mono preds gt (k k' : Z) :
  0 ≤ k ≤ k' →
  Forall2 Qle (per_query_recalls preds gt k) (per_query_recalls preds gt k').
Proof.
  intros Hk. induction gt as [|[q urls] gt IH]; [constructor|].
  simpl. destruct (preds !! q) as [predicted|]; simpl; [|done].
  constructor; [|done].
  apply recall_prefix_subset. intros u. by apply py_slice_to_mono.
Qed.

End evaluate_system_entries.

(** X3. [per_query_recall] holds, for every ground-truth query that has
    predictions and every configured cut-off [k], the recall of that
    query's predictions against its ground truth at [k], under the key
    [recall@k]. (The keys of the ground-truth dictionary are distinct.) *)
Theorem per_query_recall_entries
    (self : MeanRecallAtKEvaluator.t)
    (query_predictions : gmap string (list string))
    (ground_truth : dict (list string)) (verbose : bool)
    (query_id : string) (urls predicted : list string) (k : Z) :
  NoDup ground_truth.*1 →
  (query_id, urls) ∈ ground_truth →
  query_predictions !! query_id = Some predicted →
  k ∈ MeanRecallAtKEvaluator.K_values self →
  ∃ recalls,
    dict_get
      (MeanRecallAtKEvaluator.per_query_recall
         (MeanRecallAtKEvaluator.evaluate_system self query_predictions
            ground_truth verbose).1) query_id = Some recalls
    ∧ dict_get recalls (MeanRecallAtKEvaluator.metric_key k)
      = Some (MeanRecallAtKEvaluator.calculate_recall_at_k predicted urls k).
Proof.
  intros Hnd Hin Hq Hk. rewrite evaluate_system_unfold. simpl.
  erewrite outer_loop_per_query_entry; [|done..|].
  - eexists. split; [done|]. rewrite set_metric_loop.
    by rewrite decide_True.
  - intros HK. rewrite HK in Hk. by apply elem_of_nil in Hk.
Qed.

Lemma per_query_recall_entries_witness :
  ∃ recalls,
    dict_get
      (MeanRecallAtKEvaluator.per_query_recall
         (MeanRecallAtKEvaluator.evaluate_system
            MeanRecallAtKEvaluator.init_default
            ({[ "q1" := ["a"; "b"; "c"]; "q2" := ["x"] ]}
               : gmap string (list string))
            [("q1", ["a"; "c"; "z"]); ("q3", ["k"]); ("q2", ["x"; "y"])]
            true).1) "q2" = Some recalls
    ∧ dict_get recalls (MeanRecallAtKEvaluator.metric_key 10)
      = Some (MeanRecallAtKEvaluator.calculate_recall_at_k
                ["x"] ["x"; "y"] 10).
Proof.
  apply per_query_recall_entries.
  - by apply (bool_decide_unpack _).
  - do 2 apply list_elem_of_further. apply list_elem_of_here.
  - by vm_compute.
  - apply list_elem_of_further, list_elem_of_here.
Defined.




(** ** search *)

Section search_facts.
Import AssessmentRetriever.

(** The [score] stored by [search] reads as the [similarity_score]. *)
Lemma float_field_score (r : pydict) :
  float_field "score"
    (dict_set r "score" (default (VInt 0) (dict_get r "similarity_score")))
  = score_of r.
Proof.
  unfold float_field, score_of. rewrite dict_get_set_eq.
  by destruct (dict_get r "similarity_score") as [[]|].
Qed.

Lemma omap_cons_unfold {B C} (f : B → option C) (x : B) (l : list B) :
  omap f (x :: l)
  = match f x with Some y => y :: omap f l | None => omap f l end.
Proof. done. Qed.

Lemma lookup_map {B C} (f : B → C) (l : list B) (i : nat) :
  map f l !! i = f <$> l !! i.
Proof. revert i. induction l as [|x l IH]; intros [|i]; simpl; auto. Qed.

Lemma search_scores (retrieved : list pydict) :
  float_fields "score"
    (map (fun r =>
            dict_set r "score"
              (default (VInt 0) (dict_get r "similarity_score"))) retrieved)
  = similarity_scores retrieved.
Proof.
  unfold float_fields, similarity_scores.
  induction retrieved as [|r retrieved IH]; [done|].
  cbn [map]. by rewrite !omap_cons_unfold, float_field_score, IH.
Qed.

(** Every dictionary built by [retrieve_by_query] carries a score. *)
Lemma format_results_scored build i rows result :
  faithful build →
  format_results build i rows = Ok result →
  Forall (fun r => ∃ x, dict_get r "similarity_score" = Some (VFloat x))
    result.
Proof.
  intros Hb Hf. apply format_results_rows in Hf.
  induction Hf as [|[j [[doc md] dist]] r ? ? Hr _ IH]; constructor; [|done].
  apply Hb in Hr as (_ & Hs & _). by eexists.
Qed.

(** What the index contract gives for the free-form retrieval. *)
Lemma retrieve_by_query_bounds self query top_k_arg result :
  index_contract self →
  retrieve_by_query self query top_k_arg = Ok result →
  Z.of_nat (length result) ≤ default (top_k self) top_k_arg
  ∧ length (similarity_scores result) = length result
  ∧ Sorted (flip Qle) (similarity_scores result).
Proof.
  intros Hindex Hres. unfold retrieve_by_query in Hres.
  apply res_bind_Ok in Hres as (r & Hr & Hres).
  destruct (Hindex _ _ _ Hr) as [Hlen Hsorted].
  split; [|by eapply scores_non_increasing;
             [apply assessment_of_query_faithful|..]].
  rewrite (format_results_length _ _ _ _ Hres).
  pose proof (prefix_length _ _ (zip_results_distances r)) as Hp.
  rewrite length_fmap in Hp. lia.
Qed.

End search_facts.

(** X6. [search] is [retrieve_by_query] with one more key: it fails
    exactly when the retrieval fails, with the same exception, and
    otherwise returns the same dictionaries in the same order, each
    extended by [score], equal to its [similarity_score]; every other key
    is unchanged. *)
Theorem search_adds_score
    (self : AssessmentRetriever.t) (query : string) (top_k : option Z) :
  match AssessmentRetriever.retrieve_by_query self query top_k with
  | Raise e => AssessmentRetriever.search self query top_k = Raise e
  | Ok retrieved =>
      ∃ results,
        AssessmentRetriever.search self query top_k = Ok results
        ∧ length results = length retrieved
        ∧ ∀ j r,
            retrieved !! j = Some r →
            ∃ r' x,
              results !! j = Some r'
              ∧ dict_get r "similarity_score" = Some (VFloat x)
              ∧ dict_get r' "score" = Some (VFloat x)
              ∧ ∀ key, key ≠ "score" → dict_get r' key = dict_get r key
  end.
Proof.
  unfold AssessmentRetriever.search.
  destruct (AssessmentRetriever.retrieve_by_query self query top_k)
    as [retrieved|e] eqn:Hres; [|done].
  eexists. split; [done|]. split; [by rewrite length_map|].
  intros j r Hj.
  unfold AssessmentRetriever.retrieve_by_query in Hres.
  apply res_bind_Ok in Hres as (raw & _ & Hres).
  apply (format_results_scored _ _ _ _ assessment_of_query_faithful) in Hres.
  rewrite Forall_forall in Hres.
  destruct (Hres r) as [x Hx]; [by eapply list_elem_of_lookup_2|].
  eexists _, x. split; [by rewrite lookup_map, Hj|].
  split; [done|]. split.
  - by rewrite dict_get_set_eq, Hx.
  - intros key Hkey. by rewrite dict_get_set_ne.
Qed.

(** X7. Against an index that answers a query for [k] neighbours with at
    most [k] of them by ascending distance, [search] returns at most [k]
    results, each with a numeric [score], and the scores do not increase
    along the list. *)
Theorem search_at_most_k_by_score
    (self : AssessmentRetriever.t) (query : string) (top_k : option Z)
    (results : list pydict) :
  index_contract self →
  AssessmentRetriever.search self query top_k = Ok results →
  Z.of_nat (length results) ≤ default (AssessmentRetriever.top_k self) top_k
  ∧ length (float_fields "score" results) = length results
  ∧ Sorted (flip Qle) (float_fields "score" results).
Proof.
  intros Hindex Hsearch. unfold AssessmentRetriever.search in Hsearch.
  apply res_bind_Ok in Hsearch as (retrieved & Hres & Hsearch).
  injection Hsearch as <-.
  rewrite search_scores, length_map.
  by eapply retrieve_by_query_bounds.
Qed.

Lemma search_at_most_k_by_score_witness :
  ∃ results,
    AssessmentRetriever.search sample_retriever "sales manager" (Some 3)
    = Ok results
    ∧ float_fields "score" results = [9 # 10; 7 # 10; -1 # 5]%Q
    ∧ Z.of_nat (length results) ≤ 3
    ∧ length (float_fields "score" results) = length results
    ∧ Sorted (flip Qle) (float_fields "score" results).
Proof.
  eexists. split; [by vm_compute|]. split; [by vm_compute|].
  refine (search_at_most_k_by_score sample_retriever "sales manager"
            (Some 3) _ sample_index_contract _).
  by vm_compute.
Defined.

(** ** recommend and recommend_simple as wholes *)

(** X8. [recommend] fails exactly when the retrieval fails, with the
    retrieval's exception. Whenever the retrieval succeeds it returns,
    whatever [use_llm], the client and the configuration are, a
    dictionary holding the request, the retrieved list under
    [retrieved_assessments], its length under [retrieval_count], and an
    entry [llm_recommendations]. *)
Theorem recommend_fails_only_in_retrieval
    (self : AssessmentRecommender.t) (now job_title : string)
    (skills : list string) (experience_level : string)
    (additional_context : option string) (use_llm : bool) :
  match
    AssessmentRetriever.retrieve (AssessmentRecommender.retriever self)
      job_title skills experience_level additional_context None
  with
  | Raise e =>
      AssessmentRecommender.recommend self now job_title skills
        experience_level additional_context use_llm = Raise e
  | Ok retrieved =>
      ∃ response,
        AssessmentRecommender.recommend self now job_title skills
          experience_level additional_context use_llm = Ok response
        ∧ dict_get response "job_title" = Some (VStr job_title)
        ∧ dict_get response "skills" = Some (VList (map VStr skills))
        ∧ dict_get response "experience_level" = Some (VStr experience_level)
        ∧ dict_get response "retrieved_assessments"
          = Some (VList (map VDict retrieved))
        ∧ dict_get response "retrieval_count"
          = Some (VInt (Z.of_nat (length retrieved)))
        ∧ is_Some (dict_get response "llm_recommendations")
  end.
Proof.
  unfold AssessmentRecommender.recommend.
  destruct (AssessmentRetriever.retrieve _ _ _ _ _ _) as [retrieved|e];
    [|done].
  destruct retrieved as [|a retrieved]; eexists; (split; [done|]);
    by repeat split.
Qed.

(** X9. [recommend_simple] fails exactly when the retrieval fails.
    Otherwise its dictionary holds the query and the number of retrieved
    assessments; the list itself is there under [retrieved_assessments]
    only when something was retrieved, so that
    [result.get('retrieved_assessments', [])] is the retrieved list in
    both cases while [result['retrieved_assessments']] needs a non-empty
    retrieval. *)
Theorem recommend_simple_result
    (self : AssessmentRecommender.t) (query : string) (use_llm : bool) :
  match
    AssessmentRetriever.retrieve_by_query
      (AssessmentRecommender.retriever self) query None
  with
  | Raise e =>
      AssessmentRecommender.recommend_simple self query use_llm = Raise e
  | Ok retrieved =>
      ∃ response,
        AssessmentRecommender.recommend_simple self query use_llm
        = Ok response
        ∧ dict_get response "query" = Some (VStr query)
        ∧ dict_get response "retrieval_count"
          = Some (VInt (Z.of_nat (length retrieved)))
        ∧ default (VList []) (dict_get response "retrieved_assessments")
          = VList (map VDict retrieved)
        ∧ (is_Some (dict_get response "retrieved_assessments")
           ↔ retrieved ≠ [])
        ∧ (subscript response "retrieved_assessments"
           = if decide (retrieved = [])
             then Raise (KeyError "retrieved_assessments")
             else Ok (VList (map VDict retrieved)))
  end.
Proof.
  unfold AssessmentRecommender.recommend_simple.
  destruct (AssessmentRetriever.retrieve_by_query _ _ _) as [retrieved|e];
    [|done].
  destruct retrieved as [|a retrieved]; eexists; (split; [done|]);
    do 3 (split; [done|]); (split; [|done]).
  - split; [by intros [? [=]] | done].
  - split; [done | by eexists].
Qed.

(** X10. Without generation, that is with [use_llm = False] or without a
    client, the answer of [recommend] and of [recommend_simple] depends on
    the retriever only, and [llm_recommendations] is [None] (for
    [recommend_simple]: [None] or absent). *)
Theorem recommend_without_llm
    (self self' : AssessmentRecommender.t) (use_llm : bool) :
  AssessmentRecommender.retriever self = AssessmentRecommender.retriever self' →
  use_llm = false ∨ AssessmentRecommender.client self = None →
  (∀ now job_title skills experience_level additional_context,
     AssessmentRecommender.recommend self now job_title skills
       experience_level additional_context use_llm
     = AssessmentRecommender.recommend self' now job_title skills
         experience_level additional_context false
     ∧ ∀ response,
         AssessmentRecommender.recommend self now job_title skills
           experience_level additional_context use_llm = Ok response →
         dict_get response "llm_recommendations" = Some VNone)
  ∧ (∀ query,
       AssessmentRecommender.recommend_simple self query use_llm
       = AssessmentRecommender.recommend_simple self' query false
       ∧ ∀ response,
           AssessmentRecommender.recommend_simple self query use_llm
           = Ok response →
           default VNone (dict_get response "llm_recommendations") = VNone).
Proof.
  intros Hretriever Hoff.
  assert (∀ (A : Type) (f : _ → A) (x : A),
            match use_llm, AssessmentRecommender.client self with
            | true, Some create => f create
            | _, _ => x
            end = x) as Hnone.
  { intros A f x. destruct Hoff as [->| ->]; [done | by destruct use_llm]. }
  split.
  - intros now job_title skills experience_level additional_context.
    unfold AssessmentRecommender.recommend. rewrite <- Hretriever.
    destruct (AssessmentRetriever.retrieve _ _ _ _ _ _) as [[|a retrieved]|e];
      simpl; [split; [done | by intros ? [= <-]] | | done].
    rewrite Hnone. split; [done | by intros ? [= <-]].
  - intros query.
    unfold AssessmentRecommender.recommend_simple. rewrite <- Hretriever.
    destruct (AssessmentRetriever.retrieve_by_query _ _ _)
      as [[|a retrieved]|e];
      simpl; [split; [done | by intros ? [= <-]] | | done].
    rewrite Hnone. split; [done | by intros ? [= <-]].
Qed.

Lemma recommend_without_llm_witness :
  ∃ response,
    AssessmentRecommender.recommend_simple sample_recommender "sales manager"
      false = Ok response
    ∧ AssessmentRecommender.recommend_simple sample_recommender
        "sales manager" false
      = AssessmentRecommender.recommend_simple answering_recommender
          "sales manager" false
    ∧ default VNone (dict_get response "llm_recommendations") = VNone.
Proof.
  destruct (proj2 (recommend_without_llm sample_recommender
                     answering_recommender false eq_refl (or_introl eq_refl))
              "sales manager") as [Hsame Hnone].
  destruct (AssessmentRecommender.recommend_simple sample_recommender
              "sales manager" false) as [response|] eqn:Hresponse;
    [|by vm_compute in Hresponse].
  exists response. split; [done|]. split; [done|]. by apply Hnone.
Defined.

(** ** The generation step when the client answers *)

Section generation_facts.
Import AssessmentRecommender.

Lemma mapM_Ok {B C} (f : B → res C) (l : list B) :
  Forall (fun x => ∃ y, f x = Ok y) l → ∃ ys, mapM f l = Ok ys.
Proof.
  induction 1 as [|x l [y Hy] _ [ys IH]]; simpl; [by eexists|].
  rewrite Hy. simpl. rewrite IH. by eexists.
Qed.

(** The dictionaries built by [retrieve] have every field the prompt
    reads, with a numeric score. *)
Lemma format_retrieved_assessment self i doc metadata distance assessment :
  AssessmentRetriever.assessment_of_retrieve i doc metadata distance
  = Ok assessment →
  ∃ text, _format_assessment_for_context self assessment = Ok text.
Proof.
  intros Hb. unfold AssessmentRetriever.assessment_of_retrieve in Hb.
  repeat (apply res_bind_Ok in Hb as (? & _ & Hb)).
  injection Hb as <-. by eexists.
Qed.

Lemma build_llm_prompt_total
    self job_title skills experience_level additional_context top_k_arg
    retrieved :
  AssessmentRetriever.retrieve (retriever self) job_title skills
    experience_level additional_context top_k_arg = Ok retrieved →
  ∃ prompt,
    _build_llm_prompt self job_title skills experience_level
      additional_context retrieved = Ok prompt.
Proof.
  intros Hres. unfold AssessmentRetriever.retrieve in Hres.
  apply res_bind_Ok in Hres as (raw & _ & Hres).
  apply format_results_rows in Hres.
  unfold _build_llm_prompt, assessments_context.
  destruct (mapM_Ok (_format_assessment_for_context self) retrieved)
    as [parts ->]; [|by eexists].
  induction Hres as [|[j [[doc md] dist]] a ? ? Ha _ IH]; constructor;
    [|done].
  by eapply format_retrieved_assessment.
Qed.

End generation_facts.

(** X11. When something was retrieved, the [llm] section of the
    configuration has its four keys and the client answers the request
    made of them and of the prompt built from the retrieved assessments,
    [recommend] returns the content of the first choice under
    [llm_recommendations]. The prompt can always be built from what
    [retrieve] returns. *)
Theorem recommend_returns_first_choice
    (self : AssessmentRecommender.t)
    (create : AssessmentRecommender.chat_request → res (list pyval))
    (now job_title : string) (skills : list string)
    (experience_level : string) (additional_context : option string)
    (retrieved : list pydict)
    (model system_prompt temperature max_tokens : pyval) :
  AssessmentRecommender.client self = Some create →
  AssessmentRetriever.retrieve (AssessmentRecommender.retriever self)
    job_title skills experience_level additional_context None
  = Ok retrieved →
  retrieved ≠ [] →
  dict_get (AssessmentRecommender.llm_config self) "model" = Some model →
  dict_get (AssessmentRecommender.llm_config self) "system_prompt"
  = Some system_prompt →
  dict_get (AssessmentRecommender.llm_config self) "temperature"
  = Some temperature →
  dict_get (AssessmentRecommender.llm_config self) "max_tokens"
  = Some max_tokens →
  ∃ prompt,
    AssessmentRecommender._build_llm_prompt self job_title skills
      experience_level additional_context retrieved = Ok prompt
    ∧ ∀ content rest,
        create {| AssessmentRecommender.model := model;
                  AssessmentRecommender.system_content := system_prompt;
                  AssessmentRecommender.user_content := prompt;
                  AssessmentRecommender.temperature := temperature;
                  AssessmentRecommender.max_tokens := max_tokens |}
        = Ok (content :: rest) →
        ∃ response,
          AssessmentRecommender.recommend self now job_title skills
            experience_level additional_context true = Ok response
          ∧ dict_get response "llm_recommendations" = Some content
          ∧ dict_get response "retrieved_assessments"
            = Some (VList (map VDict retrieved)).
Proof.
  intros Hclient Hretrieved Hne Hmodel Hsystem Htemperature Hmax.
  destruct (build_llm_prompt_total _ _ _ _ _ _ _ Hretrieved)
    as [prompt Hprompt].
  exists prompt. split; [done|]. intros content rest Hcreate.
  unfold AssessmentRecommender.recommend. rewrite Hretrieved, Hclient.
  destruct retrieved as [|a retrieved]; [done|]. simpl.
  unfold AssessmentRecommender.generate. rewrite Hprompt. simpl.
  unfold AssessmentRecommender.chat_completion, subscript.
  rewrite Hmodel, Hsystem, Htemperature, Hmax. simpl. rewrite Hcreate.
  by eexists.
Qed.

Lemma recommend_returns_first_choice_witness :
  ∃ response,
    AssessmentRecommender.recommend answering_recommender
      "2024-01-01T00:00:00" "Analyst" ["Excel"] "Mid" None true = Ok response
    ∧ dict_get response "llm_recommendations"
      = Some (VStr "1. A: measures numeracy").
Proof.
  destruct (recommend_returns_first_choice answering_recommender
              (fun _ => Ok [VStr "1. A: measures numeracy"])
              "2024-01-01T00:00:00" "Analyst" ["Excel"] "Mid" None
              _ _ _ _ _ eq_refl eq_refl ltac:(discriminate)
              eq_refl eq_refl eq_refl eq_refl)
    as (prompt & _ & Hanswer).
  destruct (Hanswer (VStr "1. A: measures numeracy") [] eq_refl)
    as (response & Hresponse & Hllm & _).
  by exists response.
Defined.

(** ** Exports that cannot be written *)

Section export_failure_facts.
Import MeanRecallAtKEvaluator.

Lemma assessment_url_non_dict (v : pyval) :
  is_dict v = false → ∃ e, assessment_url v = Raise e.
Proof. destruct v; intros Hd; try discriminate Hd; by eexists. Qed.

Lemma rows_of_assessments_non_dict display (items : list pyval) item :
  item ∈ items → is_dict item = false →
  ∃ e, rows_of_assessments display items = Raise e.
Proof.
  intros Hin Hd. induction items as [|a items IH].
  { by apply elem_of_nil in Hin. }
  simpl. destruct (assessment_url a) as [url|e] eqn:Hurl; [|by eexists].
  apply elem_of_cons in Hin as [<-|Hin].
  { destruct (assessment_url_non_dict item Hd) as [e He]. congruence. }
  destruct (IH Hin) as [e ->]. by eexists.
Qed.

Lemma prediction_rows_non_dict
    (predictions : pydict) query_mapping q (items : list pyval) item :
  (q, VList items) ∈ predictions → item ∈ items → is_dict item = false →
  ∃ e, prediction_rows predictions query_mapping = Raise e.
Proof.
  intros Hin Hitem Hd. induction predictions as [|[q' v] predictions IH].
  { by apply elem_of_nil in Hin. }
  simpl. destruct (py_iter v) as [assessments|e] eqn:Hiter; [|by eexists].
  simpl.
  destruct (rows_of_assessments _ assessments) as [rows|e] eqn:Hrows;
    [|by eexists].
  apply elem_of_cons in Hin as [[= <- <-]|Hin].
  { injection Hiter as <-.
    destruct (rows_of_assessments_non_dict
                (query_display query_mapping q) items item Hitem Hd)
      as [e He].
    congruence. }
  simpl. destruct (IH Hin) as [e ->]. by eexists.
Qed.

End export_failure_facts.

(** X12. [generate_predictions_csv] expects every prediction to be a
    dictionary. If some query's list holds anything else (a URL string,
    as in the lists [run_full_evaluation] builds for the training
    queries, or [None]), the export returns [None], logs one error and
    writes nothing, not even the rows of the well-formed queries. *)
Theorem export_of_non_dict_items_fails
    (fs : filesystem) (output_file : string) (predictions : pydict)
    (query_mapping : option (dict string))
    (query_id : string) (items : list pyval) (item : pyval) :
  (query_id, VList items) ∈ predictions →
  item ∈ items →
  is_dict item = false →
  MeanRecallAtKEvaluator.generate_predictions_csv fs output_file predictions
    query_mapping
  = (None, fs, [LogError "Failed to save predictions"]).
Proof.
  intros Hin Hitem Hd.
  unfold MeanRecallAtKEvaluator.generate_predictions_csv.
  destruct (prediction_rows_non_dict predictions query_mapping query_id
              items item Hin Hitem Hd) as [e ->].
  done.
Qed.

Lemma export_of_non_dict_items_fails_witness :
  MeanRecallAtKEvaluator.generate_predictions_csv empty_filesystem
    "evaluation_results/training_predictions.csv"
    (url_lists [("sales manager", []);
                ("analyst", ["https://catalog.example/A"])]) None
  = (None, empty_filesystem, [LogError "Failed to save predictions"]).
Proof.
  apply (export_of_non_dict_items_fails _ _ _ _ "analyst"
           [VStr "https://catalog.example/A"]
           (VStr "https://catalog.example/A")).
  - apply list_elem_of_further, list_elem_of_here.
  - apply list_elem_of_here.
  - reflexivity.
Defined.

(** ** The evaluation report *)

Section report_facts.
Import MeanRecallAtKEvaluator.

Lemma elem_of_flat_map {B C} (f : B → list C) (l : list B) (x : B) (y : C) :
  x ∈ l → y ∈ f x → y ∈ flat_map f l.
Proof.
  intros Hx Hy. apply list_elem_of_In, in_flat_map.
  exists x. by rewrite <- !list_elem_of_In.
Qed.

Lemma report_lines_query (r : results) query_id (recalls : dict Q) :
  (query_id, recalls) ∈ per_query_recall r →
  (query_id +:+ ":") ∈ report_lines r
  ∧ ∀ metric value,
      (metric, value) ∈ recalls →
      ("  " +:+ metric +:+ ": " +:+ format_f value 4) ∈ report_lines r.
Proof.
  intros Hin. unfold report_lines. split.
  - do 3 (apply elem_of_app; right). apply elem_of_app; left.
    eapply elem_of_flat_map; [exact Hin|]. apply list_elem_of_here.
  - intros metric value Hm.
    do 3 (apply elem_of_app; right). apply elem_of_app; left.
    eapply elem_of_flat_map; [exact Hin|]. apply list_elem_of_further.
    apply list_elem_of_In, in_map_iff. exists (metric, value).
    by rewrite <- list_elem_of_In.
Qed.

Lemma report_lines_metric (r : results) metric (stats : recall_stats) :
  (metric, stats) ∈ summary r →
  (metric +:+ ":") ∈ report_lines r
  ∧ ("  Mean:  " +:+ format_f (st_mean stats) 4) ∈ report_lines r
  ∧ ("  Std:   " +:+ format_f (st_std stats) 4) ∈ report_lines r
  ∧ ("  Min:   " +:+ format_f (st_min stats) 4) ∈ report_lines r
  ∧ ("  Max:   " +:+ format_f (st_max stats) 4) ∈ report_lines r.
Proof.
  intros Hin. unfold report_lines.
  repeat split; apply elem_of_app; right; apply elem_of_app; left;
    (eapply elem_of_flat_map; [exact Hin|]);
    repeat first [apply list_elem_of_here | apply list_elem_of_further].
Qed.

End report_facts.


(** ** Parsing the catalogue *)

Section parser_facts.
Import AssessmentParser.

Lemma mapM_str_items (strs : list string) :
  mapM str_item (map VStr strs) = Ok strs.
Proof. induction strs as [|s strs IH]; [done|]. simpl. by rewrite IH. Qed.

Lemma mapM_str_items_inv (items : list pyval) (strs : list string) :
  mapM str_item items = Ok strs → items = map VStr strs.
Proof.
  revert strs. induction items as [|x items IH]; intros strs Hm; simpl in Hm.
  { by injection Hm as <-. }
  apply res_bind_Ok in Hm as (s & Hs & Hm).
  apply res_bind_Ok in Hm as (rest & Hrest & Hm).
  injection Hm as <-. destruct x; try discriminate Hs.
  injection Hs as <-. simpl. f_equal. by apply IH.
Qed.

Lemma py_join_Ok sep (v : pyval) :
  (∃ s, py_join sep v = Ok s) ↔ joinable v.
Proof.
  unfold py_join, joinable. fold str_item. split.
  - intros [s Hs]. apply res_bind_Ok in Hs as (items & Hitems & Hs).
    apply res_bind_Ok in Hs as (strs & Hstrs & _).
    exists strs. by rewrite Hitems, (mapM_str_items_inv _ _ Hstrs).
  - intros [strs ->]. simpl. rewrite mapM_str_items. by eexists.
Qed.

Lemma parse_assessment_Ok clean_text (assessment : pydict) :
  (∃ parsed, parse_assessment clean_text assessment = Ok parsed)
  ↔ joinable_lists assessment.
Proof.
  unfold joinable_lists, list_fields. rewrite !Forall_cons, Forall_nil.
  rewrite <- !(py_join_Ok ", "). unfold parse_assessment. split.
  - intros [parsed Hp].
    apply res_bind_Ok in Hp as (s1 & H1 & Hp).
    apply res_bind_Ok in Hp as (s2 & H2 & Hp).
    apply res_bind_Ok in Hp as (s3 & H3 & Hp).
    eauto 10.
  - intros ([s1 ->] & [s2 ->] & [s3 ->] & _). simpl. by eexists.
Qed.

Lemma parse_assessment_columns clean_text (assessment : pydict) parsed :
  parse_assessment clean_text assessment = Ok parsed →
  parsed.*1 = parsed_columns.
Proof.
  unfold parse_assessment. intros Hp.
  apply res_bind_Ok in Hp as (s1 & _ & Hp).
  apply res_bind_Ok in Hp as (s2 & _ & Hp).
  apply res_bind_Ok in Hp as (s3 & _ & Hp).
  apply res_bind_Ok in Hp as (text & _ & Hp).
  by injection Hp as <-.
Qed.

Lemma mapM_rows {B C} (f : B → res C) (l : list B) (ys : list C) :
  mapM f l = Ok ys → Forall2 (fun x y => f x = Ok y) l ys.
Proof.
  revert ys. induction l as [|x l IH]; intros ys Hm; simpl in Hm.
  { injection Hm as <-. constructor. }
  apply res_bind_Ok in Hm as (y & Hy & Hm).
  apply res_bind_Ok in Hm as (rest & Hrest & Hm).
  injection Hm as <-. constructor; [done | by apply IH].
Qed.

End parser_facts.

(** X14. [parse_assessment] succeeds exactly when each of
    [skills_measured], [job_suitability] and [experience_level] is absent
    or an iterable of strings; any other field value is accepted. The
    record it returns has the nine columns [name], [category],
    [description], [skills_measured], [job_suitability],
    [experience_level], [duration], [delivery_method], [full_text], in
    this order, whatever keys the input has. *)
Theorem parse_assessment_succeeds_iff
    (clean_text : pyval → string) (assessment : pydict) :
  ((∃ parsed,
      AssessmentParser.parse_assessment clean_text assessment = Ok parsed)
   ↔ joinable_lists assessment)
  ∧ (∀ parsed,
       AssessmentParser.parse_assessment clean_text assessment = Ok parsed →
       parsed.*1 = parsed_columns
       ∧ dict_get parsed "name"
         = Some (clean_text (default (VStr "") (dict_get assessment "name")))
       ∧ dict_get parsed "duration"
         = Some (clean_text
                   (default (VStr "") (dict_get assessment "duration")))).
Proof.
  split; [apply parse_assessment_Ok|].
  intros parsed Hp. split; [by eapply parse_assessment_columns|].
  unfold AssessmentParser.parse_assessment in Hp.
  apply res_bind_Ok in Hp as (s1 & _ & Hp).
  apply res_bind_Ok in Hp as (s2 & _ & Hp).
  apply res_bind_Ok in Hp as (s3 & _ & Hp).
  apply res_bind_Ok in Hp as (text & _ & Hp).
  by injection Hp as <-.
Qed.

(** X15. [parse_all] is all or nothing: it returns rows exactly when
    every assessment can be parsed, and one assessment that cannot makes
    the whole call raise. The rows it returns are the parsed assessments,
    one per input and in input order, each with the nine columns. *)
Theorem parse_all_rows
    (clean_text : pyval → string) (assessments : list pydict) :
  ((∃ rows, AssessmentParser.parse_all clean_text assessments = Ok rows)
   ↔ Forall joinable_lists assessments)
  ∧ (∀ rows,
       AssessmentParser.parse_all clean_text assessments = Ok rows →
       length rows = length assessments
       ∧ ∀ j assessment,
           assessments !! j = Some assessment →
           ∃ row,
             rows !! j = Some row
             ∧ AssessmentParser.parse_assessment clean_text assessment
               = Ok row
             ∧ row.*1 = parsed_columns).
Proof.
  unfold AssessmentParser.parse_all. split; [split|].
  - intros [rows Hrows]. apply mapM_rows in Hrows.
    apply Forall_forall. intros a Ha.
    apply list_elem_of_lookup in Ha as [j Hj].
    destruct (Forall2_lookup_l _ _ _ _ _ Hrows Hj) as (row & _ & Hrow).
    apply (proj1 (parse_assessment_Ok clean_text a)). by exists row.
  - intros Hall. apply mapM_Ok.
    eapply Forall_impl; [exact Hall|]. intros a Ha.
    by apply (proj2 (parse_assessment_Ok clean_text a)).
  - intros rows Hrows. apply mapM_rows in Hrows.
    split; [symmetry; by eapply Forall2_length|].
    intros j a Hj.
    destruct (Forall2_lookup_l _ _ _ _ _ Hrows Hj) as (row & Hrow & Hp).
    exists row. split; [done|]. split; [done|].
    by eapply parse_assessment_columns.
Qed.

(** ** The benchmark metrics of evaluate.py *)

Section retrieval_metric_facts.
Import SystemEvaluator.
Context `{Countable A}.
Implicit Types expected retrieved : list A.
Local Open Scope Q_scope.

Lemma f1_in_unit (p r : Q) :
  in_unit p → in_unit r → 0 < p + r → in_unit (2 * (p * r) / (p + r)).
Proof.
  intros [Hp0 Hp1] [Hr0 Hr1] Hpos.
  assert (0 <= p * r) by (by apply Qmult_le_0_compat).
  assert (0 <= p * (1 - r)) by (apply Qmult_le_0_compat; lra).
  assert (0 <= (1 - p) * r) by (apply Qmult_le_0_compat; lra).
  split.
  - apply Qle_shift_div_l; [done|]. lra.
  - apply Qle_shift_div_r; [done|]. lra.
Qed.

Lemma size_matched_le expected retrieved :
  let E : gset A := list_to_set expected in
  let R : gset A := list_to_set retrieved in
  (size (E ∩ R) ≤ size E)%nat ∧ (size (E ∩ R) ≤ size R)%nat.
Proof.
  cbv zeta. split; apply subseteq_size;
    [apply intersection_subseteq_l | apply intersection_subseteq_r].
Qed.

Lemma retrieval_metrics_counts expected retrieved :
  let m := retrieval_metrics expected retrieved in
  let E : gset A := list_to_set expected in
  let R : gset A := list_to_set retrieved in
  matched_count m = Z.of_nat (size (E ∩ R))
  ∧ expected_count m = Z.of_nat (size E)
  ∧ retrieved_count m = Z.of_nat (size R).
Proof. cbv zeta. unfold retrieval_metrics. by case_decide. Qed.

Lemma retrieval_metrics_unit expected retrieved :
  let m := retrieval_metrics expected retrieved in
  in_unit (precision m) ∧ in_unit (recall m) ∧ in_unit (f1_score m).
Proof.
  cbv zeta. unfold retrieval_metrics.
  destruct (size_matched_le expected retrieved) as [HmE HmR].
  cbv zeta in HmE, HmR.
  set (E := list_to_set expected : gset A) in *.
  set (R := list_to_set retrieved : gset A) in *.
  assert (in_unit 0) as H0 by (split; lra).
  case_decide as HR; simpl; [|done].
  assert (in_unit (inject_Z (Z.of_nat (size (E ∩ R)))
                   / inject_Z (Z.of_nat (size R)))) as Hp.
  { apply Qdiv_in_unit; lia. }
  assert (in_unit (if decide (0 < size E)%nat
                   then inject_Z (Z.of_nat (size (E ∩ R)))
                        / inject_Z (Z.of_nat (size E))
                   else 0)) as Hr.
  { case_decide; [apply Qdiv_in_unit; lia | done]. }
  split; [done|]. split; [done|].
  destruct (Qlt_le_dec _ _); [by apply f1_in_unit | done].
Qed.

Lemma Qdiv_Z_pos (a b : Z) :
  (0 < a)%Z → (0 < b)%Z → 0 < inject_Z a / inject_Z b.
Proof.
  intros Ha Hb. apply Qlt_shift_div_l.
  - change 0 with (inject_Z 0). by rewrite <- Zlt_Qlt.
  - rewrite Qmult_0_l. change 0 with (inject_Z 0). by rewrite <- Zlt_Qlt.
Qed.

Lemma Qdiv_Z_0 (b : Z) : inject_Z 0 / inject_Z b == 0.
Proof. unfold Qdiv. apply Qmult_0_l. Qed.

(** F1 is twice the matches over the sizes of the two sets. *)
Lemma f1_score_closed_form expected retrieved :
  let m := retrieval_metrics expected retrieved in
  f1_score m
  == 2 * inject_Z (matched_count m)
     / (inject_Z (expected_count m) + inject_Z (retrieved_count m)).
Proof.
  cbv zeta. unfold retrieval_metrics.
  destruct (size_matched_le expected retrieved) as [HmE HmR].
  cbv zeta in HmE, HmR.
  set (E := list_to_set expected : gset A) in *.
  set (R := list_to_set retrieved : gset A) in *.
  assert (∀ x, 2 * inject_Z 0 / x == 0) as Hzero.
  { intros x. unfold Qdiv. change (inject_Z 0) with 0. ring. }
  case_decide as HR; simpl.
  2: { assert (size (E ∩ R) = 0%nat) as -> by lia. by rewrite Hzero. }
  destruct (decide (size (E ∩ R) = 0)%nat) as [Hm0|Hm].
  { rewrite Hm0. change (Z.of_nat 0) with 0%Z. rewrite Hzero.
    destruct (Qlt_le_dec _ _) as [Hlt|_]; [|done].
    exfalso. rewrite Qdiv_Z_0 in Hlt.
    case_decide; [rewrite Qdiv_Z_0 in Hlt|]; lra. }
  rewrite decide_True by lia.
  set (M := inject_Z (Z.of_nat (size (E ∩ R)))).
  set (e := inject_Z (Z.of_nat (size E))).
  set (r := inject_Z (Z.of_nat (size R))).
  assert (0 < M) as HM.
  { subst M. change 0 with (inject_Z 0). rewrite <- Zlt_Qlt. lia. }
  assert (0 < e) as He.
  { subst e. change 0 with (inject_Z 0). rewrite <- Zlt_Qlt. lia. }
  assert (0 < r) as Hr.
  { subst r. change 0 with (inject_Z 0). rewrite <- Zlt_Qlt. lia. }
  assert (0 < M / r) as Hp by (by apply Qlt_shift_div_l; rewrite ?Qmult_0_l).
  assert (0 < M / e) as Hc by (by apply Qlt_shift_div_l; rewrite ?Qmult_0_l).
  destruct (Qlt_le_dec _ _) as [_|Hle]; [|lra].
  assert (0 < M * e) by (by apply Qmult_lt_0_compat).
  assert (0 < M * r) by (by apply Qmult_lt_0_compat).
  field. repeat split; lra.
Qed.

Lemma summarize_retrieval_unit (results : list (benchmark_result (A := A))) :
  results ≠ [] →
  Forall (fun m => in_unit (precision m) ∧ in_unit (recall m)
                   ∧ in_unit (f1_score m)) results →
  ∃ summary,
    summarize_retrieval results = Ok summary
    ∧ in_unit (average_precision summary)
    ∧ in_unit (average_recall summary)
    ∧ in_unit (average_f1_score summary)
    ∧ total_benchmarks summary = Z.of_nat (length results).
Proof.
  intros Hne Hall. destruct results as [|m results]; [done|].
  eexists. split; [reflexivity|].
  cbn [average_precision average_recall average_f1_score total_benchmarks].
  split; [|split; [|split; [|done]]];
    (apply np_mean_in_unit; [done|]); apply Forall_map;
    (eapply Forall_impl; [exact Hall|]); by intros ? (? & ? & ?).
Qed.

End retrieval_metric_facts.

(** X16. The metrics [evaluate_retrieval_precision] computes for a
    benchmark (precision, recall and F1) lie in [0,1], and so do the
    averages over the benchmarks; with no benchmark at all the averaging
    raises [KeyError]. *)
Theorem retrieval_metrics_in_unit
    (benchmarks : list (list string * list string)) :
  let results :=
    map (fun b => SystemEvaluator.retrieval_metrics b.1 b.2) benchmarks in
  Forall (fun m => in_unit (SystemEvaluator.precision m)
                   ∧ in_unit (SystemEvaluator.recall m)
                   ∧ in_unit (SystemEvaluator.f1_score m)) results
  ∧ match SystemEvaluator.summarize_retrieval results with
    | Raise e => benchmarks = [] ∧ e = KeyError "precision"
    | Ok summary =>
        benchmarks ≠ []
        ∧ in_unit (SystemEvaluator.average_precision summary)
        ∧ in_unit (SystemEvaluator.average_recall summary)
        ∧ in_unit (SystemEvaluator.average_f1_score summary)
        ∧ SystemEvaluator.total_benchmarks summary
          = Z.of_nat (length benchmarks)
    end.
Proof.
  cbv zeta.
  assert (Forall (fun m => in_unit (SystemEvaluator.precision m)
                           ∧ in_unit (SystemEvaluator.recall m)
                           ∧ in_unit (SystemEvaluator.f1_score m))
            (map (fun b => SystemEvaluator.retrieval_metrics b.1 b.2)
               benchmarks)) as Hall.
  { apply Forall_map, Forall_forall. intros b _.
    apply retrieval_metrics_unit. }
  split; [done|].
  destruct benchmarks as [|b benchmarks]; [by split|].
  destruct (summarize_retrieval_unit
              (map (fun b => SystemEvaluator.retrieval_metrics b.1 b.2)
                 (b :: benchmarks)))
    as (summary & Hs & Hp & Hr & Hf & Hn); [done | exact Hall |].
  rewrite Hs. rewrite length_map in Hn. done.
Qed.


(** X18. The two recall implementations agree where both are defined by a
    ratio: for a non-empty list of expected names, the benchmark recall of
    evaluate.py is [calculate_recall_at_k] of the retrieved names against
    the expected ones at any cut-off that keeps them all; and the
    benchmark precision is that recall with the two lists exchanged. They
    differ on an empty list of expected names, where the benchmark recall
    is 0 and [calculate_recall_at_k] is 1. *)
Theorem benchmark_recall_is_recall_at_k
    (expected_assessments retrieved_names : list string) (k : Z) :
  let m :=
    SystemEvaluator.retrieval_metrics expected_assessments retrieved_names in
  (expected_assessments ≠ [] →
   Z.of_nat (length retrieved_names) ≤ k →
   (SystemEvaluator.recall m
    == MeanRecallAtKEvaluator.calculate_recall_at_k retrieved_names
         expected_assessments k)%Q)
  ∧ (retrieved_names ≠ [] →
     Z.of_nat (length expected_assessments) ≤ k →
     (SystemEvaluator.precision m
      == MeanRecallAtKEvaluator.calculate_recall_at_k expected_assessments
           retrieved_names k)%Q)
  ∧ (expected_assessments = [] →
     (SystemEvaluator.recall m == 0)%Q
     ∧ MeanRecallAtKEvaluator.calculate_recall_at_k retrieved_names
         expected_assessments k = 1%Q).
Proof.
  cbv zeta. unfold SystemEvaluator.retrieval_metrics.
  split; [|split].
  - intros Hne Hk.
    unfold MeanRecallAtKEvaluator.calculate_recall_at_k.
    destruct expected_assessments as [|g0 g]; [done|].
    rewrite py_slice_to_all by done.
    pose proof (size_ground_truth_pos g0 g) as Hpos.
    set (E := list_to_set (g0 :: g) : gset string) in *.
    set (R := list_to_set retrieved_names : gset string).
    case_decide as HR; simpl.
    + rewrite decide_True by lia.
      by rewrite (comm_L (∩) E R).
    + assert (size (R ∩ E) = 0%nat) as ->.
      { pose proof (subseteq_size (R ∩ E) R (intersection_subseteq_l R E)).
        lia. }
      unfold Qdiv. change (inject_Z (Z.of_nat 0)) with 0%Q. ring.
  - intros Hne Hk.
    unfold MeanRecallAtKEvaluator.calculate_recall_at_k.
    destruct retrieved_names as [|r0 r]; [done|].
    rewrite py_slice_to_all by done.
    pose proof (size_ground_truth_pos r0 r) as Hpos.
    set (E := list_to_set expected_assessments : gset string).
    set (R := list_to_set (r0 :: r) : gset string) in *.
    rewrite decide_True by lia. simpl. reflexivity.
  - intros ->. split; [|done].
    case_decide; simpl; [|done].
    rewrite decide_False; [done|].
    intros Hlt. vm_compute in Hlt. lia.
Qed.

Lemma benchmark_recall_is_recall_at_k_witness :
  (SystemEvaluator.recall
     (SystemEvaluator.retrieval_metrics ["Verify G+"; "OPQ32"]
        ["OPQ32"; "MQ"; "Verify Numerical"])
   == MeanRecallAtKEvaluator.calculate_recall_at_k
        ["OPQ32"; "MQ"; "Verify Numerical"] ["Verify G+"; "OPQ32"] 5)%Q.
Proof.
  apply (proj1 (benchmark_recall_is_recall_at_k ["Verify G+"; "OPQ32"]
                  ["OPQ32"; "MQ"; "Verify Numerical"] 5)).
  - discriminate.
  - simpl. lia.
Defined.

(** ** The HTTP endpoints *)

Section endpoint_facts.

(** A handler's [try] answered with the body and status of its [return]
    when the status is not the one of the [except] clause. *)
Lemma handled_status (handled : res (pydict * Z))
    (on_error : pyexn → pydict * Z) (response : pydict * Z) :
  (∀ e, (on_error e).2 ≠ response.2) →
  match handled with Ok r => r | Raise e => on_error e end = response →
  handled = Ok response.
Proof.
  intros Herr. destruct handled as [r|e]; [by intros ->|].
  intros He. destruct (Herr e). by rewrite He.
Qed.

Lemma format_recommendation_score (r recommendation : pydict) :
  api_simple.format_recommendation r = Ok recommendation →
  float_field "relevance_score" recommendation
  = (fun x => py_round x 4) <$> float_field "score" r.
Proof.
  unfold api_simple.format_recommendation, float_field. intros Hf.
  apply res_bind_Ok in Hf as (score & Hscore & Hf). injection Hf as <-.
  simpl. destruct (dict_get r "score") as [[]|]; simpl in Hscore;
    by first [injection Hscore as <- | discriminate Hscore].
Qed.

Lemma relevance_scores (results recommendations : list pydict) :
  mapM api_simple.format_recommendation results = Ok recommendations →
  length recommendations = length results
  ∧ float_fields "relevance_score" recommendations
    = (fun x => py_round x 4) <$> float_fields "score" results.
Proof.
  intros Hm. apply mapM_rows in Hm.
  split; [symmetry; by eapply Forall2_length|].
  unfold float_fields.
  induction Hm as [|r recommendation results recommendations Hr _ IH];
    [done|].
  rewrite !omap_cons_unfold, (format_recommendation_score _ _ Hr), IH.
  by destruct (float_field "score" r).
Qed.

Lemma Sorted_py_round (l : list Q) (nd : nat) :
  Sorted (flip Qle) l → Sorted (flip Qle) ((fun x => py_round x nd) <$> l).
Proof.
  apply Sorted_fmap. intros x y Hxy. unfold flip in *.
  by apply py_round_mono.
Qed.

Lemma search_bounds self query top_k_arg results :
  index_contract self →
  AssessmentRetriever.search self query top_k_arg = Ok results →
  Z.of_nat (length results) ≤ default (AssessmentRetriever.top_k self) top_k_arg
  ∧ Sorted (flip Qle) (float_fields "score" results).
Proof.
  intros Hindex Hsearch. unfold AssessmentRetriever.search in Hsearch.
  apply res_bind_Ok in Hsearch as (retrieved & Hres & Hsearch).
  injection Hsearch as <-. rewrite search_scores, length_map.
  destruct (retrieve_by_query_bounds _ _ _ _ Hindex Hres) as (? & _ & ?).
  done.
Qed.

Lemma call_with_any_top_k
    (self : AssessmentRecommender.t) (query : string) (limit : Z) :
  AssessmentRecommender.call_recommend_simple self query
    [("top_k", VInt limit)]
  = Raise unexpected_top_k.
Proof. reflexivity. Qed.

Section server_facts.
Context (strip : string → string) (int_literal : string → option Z)
        (exn_text : pyexn → string).

Lemma read_request_early (request : flask.request) (response : pydict * Z) :
  api_server.read_request strip int_literal request = Ok (inl response) →
  response = (api_server.error_response "Request must be JSON" 400, 400).
Proof.
  unfold api_server.read_request.
  destruct (String.eqb _ _).
  { intros Hr. apply res_bind_Ok in Hr as (? & _ & [=]). }
  destruct (negb _); [by intros [= <-]|].
  intros Hr. repeat (apply res_bind_Ok in Hr as (? & _ & Hr)).
  discriminate Hr.
Qed.

Lemma answer_cases recommender (query : string) (limit : Z) :
  api_server.answer recommender query limit
  = Ok (api_server.error_response "Query cannot be empty" 400, 400)
  ∨ ∃ e, api_server.answer recommender query limit = Raise e.
Proof.
  unfold api_server.answer.
  destruct (truthy (VStr query)); [right|by left].
  destruct recommender as [engine|]; [|by eexists].
  cbn [negb attribute_of mbind res_bind].
  rewrite call_with_any_top_k. by eexists.
Qed.

Lemma recommend_assessments_cases recommender (request : flask.request) :
  ∃ message,
    api_server.recommend_assessments strip int_literal exn_text recommender
      request = (api_server.error_response message 400, 400)
    ∨ api_server.recommend_assessments strip int_literal exn_text recommender
        request = (api_server.error_response message 500, 500).
Proof.
  unfold api_server.recommend_assessments. cbv zeta.
  destruct (api_server.read_request strip int_literal request)
    as [[response|[query limit]]|e] eqn:Hread.
  - apply read_request_early in Hread as ->. eexists. by left.
  - cbn [mbind res_bind].
    destruct (answer_cases recommender query limit) as [->|[e ->]];
      [eexists; by left|].
    destruct e; eexists; first [by left | by right].
  - cbn [mbind res_bind]. destruct e; eexists; first [by left | by right].
Qed.

Lemma recommend_assessments_get engine (request : flask.request) limit :
  flask.method request = "GET" →
  truthy (VStr (strip (default "" (dict_get (flask.args request) "query"))))
  = true →
  py_int int_literal
    (from_option VStr (VInt 5) (dict_get (flask.args request) "limit"))
  = Ok limit →
  api_server.recommend_assessments strip int_literal exn_text (Some engine)
    request
  = (api_server.error_response (exn_text unexpected_top_k) 500, 500).
Proof.
  intros Hmethod Hquery Hlimit.
  unfold api_server.recommend_assessments, api_server.read_request.
  cbv zeta. rewrite Hmethod, Hlimit.
  cbn [String.eqb Ascii.eqb Bool.eqb mbind res_bind mret res_ret].
  unfold api_server.answer. rewrite Hquery.
  cbn [negb attribute_of mbind res_bind].
  by rewrite call_with_any_top_k.
Qed.

End server_facts.

End endpoint_facts.

(** X19. A 200 answer of [/recommend] in api_simple.py carries the
    results of one [search] for the stripped query with a limit between
    5 and 10: against an index that answers a query for [k] neighbours
    with at most [k] of them by ascending distance, it holds between 1
    and 10 recommendations, as many as [recommendation_count] says, in
    the order of the search, each [relevance_score] being the search
    score rounded to four decimals, so that the relevance scores do not
    increase along the list. *)
Theorem api_simple_recommend_ok
    (strip : string → string) (int_literal : string → option Z)
    (exn_text : pyexn → string)
    (retriever : AssessmentRetriever.t) (request : flask.request)
    (body : pydict) :
  index_contract retriever →
  api_simple.recommend strip int_literal exn_text (Some retriever) request
  = (body, 200) →
  ∃ query limit results recommendations,
    5 ≤ limit ≤ 10
    ∧ truthy (VStr query) = true
    ∧ (flask.method request = "GET" →
       query = strip (default "" (dict_get (flask.args request) "query")))
    ∧ AssessmentRetriever.search retriever query (Some limit) = Ok results
    ∧ dict_get body "success" = Some (VBool true)
    ∧ dict_get body "query" = Some (VStr query)
    ∧ dict_get body "recommendations"
      = Some (VList (map VDict recommendations))
    ∧ dict_get body "recommendation_count"
      = Some (VInt (Z.of_nat (length recommendations)))
    ∧ length recommendations = length results
    ∧ 1 ≤ Z.of_nat (length recommendations) ≤ limit
    ∧ float_fields "relevance_score" recommendations
      = (fun x => py_round x 4) <$> float_fields "score" results
    ∧ Sorted (flip Qle) (float_fields "relevance_score" recommendations).
Proof.
  intros Hindex Hresponse. unfold api_simple.recommend in Hresponse.
  cbv zeta in Hresponse.
  apply handled_status in Hresponse; [|done].
  apply res_bind_Ok in Hresponse as ([query limit] & Hread & Hresponse).
  destruct (truthy (VStr query)) eqn:Hquery; [|discriminate Hresponse].
  simpl in Hresponse.
  destruct (AssessmentRetriever.search retriever query _)
    as [results|e] eqn:Hsearch; [|discriminate Hresponse].
  simpl in Hresponse.
  destruct results as [|r results]; [discriminate Hresponse|].
  apply res_bind_Ok in Hresponse as (recommendations & Hrecs & Hresponse).
  injection Hresponse as <-.
  destruct (relevance_scores _ _ Hrecs) as [Hlen Hscores].
  destruct (search_bounds _ _ _ _ Hindex Hsearch) as [Hk Hsorted].
  simpl in Hk.
  exists query, (Z.max 5 (Z.min limit 10)), (r :: results), recommendations.
  split; [lia|]. split; [done|]. split.
  { intros Hmethod. rewrite Hmethod in Hread. simpl in Hread.
    apply res_bind_Ok in Hread as (n & _ & Hread). by injection Hread. }
  split; [done|].
  do 4 (split; [done|]). split; [done|].
  split; [rewrite Hlen; simpl; lia|]. split; [done|].
  rewrite Hscores. by apply Sorted_py_round.
Qed.

Lemma api_simple_recommend_ok_witness :
  ∃ body recommendations,
    api_simple.recommend (fun s => s) (fun _ => Some 3) (fun _ => "")
      (Some sample_retriever) (get_request "sales manager" "3")
    = (body, 200)
    ∧ dict_get body "recommendations"
      = Some (VList (map VDict recommendations))
    ∧ float_fields "relevance_score" recommendations
      = [9000 # 10000; 7000 # 10000; -2000 # 10000]%Q
    ∧ Sorted (flip Qle) (float_fields "relevance_score" recommendations).
Proof.
  eexists.
  destruct (api_simple_recommend_ok (fun s => s) (fun _ => Some 3)
              (fun _ => "") sample_retriever
              (get_request "sales manager" "3") _ sample_index_contract
              eq_refl)
    as (query & limit & results & recommendations & _ & _ & _ & _ & _ & _
        & Hrecs & _ & _ & _ & _ & Hsorted).
  exists recommendations. split; [done|]. split; [done|].
  vm_compute in Hrecs. injection Hrecs as Hrecs.
  split; [|done].
  apply (f_equal (omap (fun v => match v with
                                 | VDict d => Some d
                                 | _ => None
                                 end))) in Hrecs.
  assert (∀ l : list pydict,
            omap (fun v => match v with VDict d => Some d | _ => None end)
              (map VDict l) = l) as Hinv.
  { induction l as [|d l IH]; [done|].
    cbn [map]. by rewrite omap_cons_unfold, IH. }
  rewrite Hinv in Hrecs. rewrite <- Hrecs. by vm_compute.
Defined.



(** ** The query text *)

(** X21. [build_query_text] joins the job title, the comma-separated
    skills and the experience level with [" | "], each after its label,
    and appends the context after the label [Context] only when one is
    given and is not empty: an empty context is treated as none, by
    [build_query_text] and therefore by [retrieve]. *)
Theorem build_query_text_layout
    (job_title : string) (skills : list string) (experience_level : string)
    (additional_context : string) :
  AssessmentRetriever.build_query_text job_title skills experience_level None
  = "Job Title: " +:+ job_title
    +:+ " | Required Skills: " +:+ String.concat ", " skills
    +:+ " | Experience Level: " +:+ experience_level
  ∧ AssessmentRetriever.build_query_text job_title skills experience_level
      (Some additional_context)
    = (if decide (additional_context = "")
       then AssessmentRetriever.build_query_text job_title skills
              experience_level None
       else "Job Title: " +:+ job_title
            +:+ " | Required Skills: " +:+ String.concat ", " skills
            +:+ " | Experience Level: " +:+ experience_level
            +:+ " | Context: " +:+ additional_context)
  ∧ (∀ self top_k,
       AssessmentRetriever.retrieve self job_title skills experience_level
         (Some "") top_k
       = AssessmentRetriever.retrieve self job_title skills experience_level
           None top_k).
Proof.
  split; [by vm_compute|]. split; [|done].
  unfold AssessmentRetriever.build_query_text, truthy.
  case_decide as Hc.
  - by rewrite Hc.
  - destruct (String.eqb_spec additional_context ""); [done|].
    by vm_compute.
Qed.

(** ** evaluate_system: the recall lists *)

Section recall_list_facts.
Import MeanRecallAtKEvaluator.
Context `{Countable A}.

Lemma occurrences_NoDup (k : Z) (Ks : list Z) :
  NoDup Ks → k ∈ Ks → occurrences k Ks = 1%nat.
Proof.
  unfold occurrences. induction 1 as [|k0 Ks Hk0 _ IH]; intros Hk.
  { by apply elem_of_nil in Hk. }
  rewrite filter_cons. apply elem_of_cons in Hk as [->|Hk].
  - rewrite decide_True by done. simpl. f_equal.
    destruct (filter (eq k0) Ks) as [|k' l] eqn:Hf; [done|].
    assert (k' ∈ filter (eq k0) Ks) as Hin
      by (rewrite Hf; apply list_elem_of_here).
    apply list_elem_of_filter in Hin as [<- Hin]. done.
  - rewrite decide_False by (by intros ->). by apply IH.
Qed.

Lemma repeat_each_1 {B} (l : list B) : repeat_each 1 l = l.
Proof.
  unfold repeat_each. induction l as [|x l IH]; [done|].
  cbn [flat_map]. by rewrite IH.
Qed.

Lemma length_per_query_recalls
    (preds : gmap string (list A)) (gt : dict (list A)) (k : Z) :
  length (per_query_recalls preds gt k) = length (evaluated_queries preds gt).
Proof.
  unfold per_query_recalls, evaluated_queries.
  induction gt as [|[q urls] gt IH]; [done|].
  rewrite omap_cons_unfold, filter_cons.
  case_decide as Hd; simpl in Hd;
    destruct (preds !! q) as [predicted|] eqn:Hq; simpl.
  - by rewrite IH.
  - by destruct Hd.
  - destruct Hd. by eexists.
  - done.
Qed.

End recall_list_facts.

(** X22. For distinct cut-offs, [mean_recall_at_k] holds under
    [recall@k] the recalls at [k] of the evaluated queries, one per
    query and in the order of the ground truth; their number is
    [queries_evaluated]. *)
Theorem mean_recall_lists
    (self : MeanRecallAtKEvaluator.t)
    (query_predictions : gmap string (list string))
    (ground_truth : dict (list string)) (verbose : bool) (k : Z) :
  let results :=
    (MeanRecallAtKEvaluator.evaluate_system self query_predictions
       ground_truth verbose).1 in
  NoDup (MeanRecallAtKEvaluator.K_values self) →
  k ∈ MeanRecallAtKEvaluator.K_values self →
  per_query_recalls query_predictions ground_truth k ≠ [] →
  dict_get (MeanRecallAtKEvaluator.mean_recall_at_k results)
    (MeanRecallAtKEvaluator.metric_key k)
  = Some (per_query_recalls query_predictions ground_truth k)
  ∧ Z.of_nat (length (per_query_recalls query_predictions ground_truth k))
    = MeanRecallAtKEvaluator.queries_evaluated results.
Proof.
  intros results Hnd Hk Hne. subst results.
  rewrite evaluate_system_unfold. simpl.
  rewrite outer_loop_lists, outer_loop_count, (occurrences_NoDup k _ Hnd Hk).
  rewrite repeat_each_1, length_per_query_recalls. simpl.
  split; [|lia].
  by destruct (per_query_recalls query_predictions ground_truth k).
Qed.

Lemma mean_recall_lists_witness :
  let results :=
    (MeanRecallAtKEvaluator.evaluate_system
       MeanRecallAtKEvaluator.init_default
       ({[ "q1" := ["a"; "b"; "c"]; "q2" := ["x"] ]}
          : gmap string (list string))
       [("q1", ["a"; "c"; "z"]); ("q3", ["k"]); ("q2", ["x"; "y"])] true).1 in
  dict_get (MeanRecallAtKEvaluator.mean_recall_at_k results)
    (MeanRecallAtKEvaluator.metric_key 5)
  = Some [2 # 3; 1 # 2]%Q
  ∧ MeanRecallAtKEvaluator.queries_evaluated results = 2.
Proof.
  cbv zeta.
  destruct (mean_recall_lists MeanRecallAtKEvaluator.init_default
              ({[ "q1" := ["a"; "b"; "c"]; "q2" := ["x"] ]}
                 : gmap string (list string))
              [("q1", ["a"; "c"; "z"]); ("q3", ["k"]); ("q2", ["x"; "y"])]
              true 5) as [Hlist Hcount].
  - by apply (bool_decide_unpack _).
  - apply list_elem_of_here.
  - by vm_compute.
  - split; [by rewrite Hlist | by rewrite <- Hcount].
Defined.
